(** * Checkpoint key remapping of [scripts/nlp_language_modeling/hf_t5-v1_1_to_nemo.py]

    A shallow embedding of [convert_weights] (the loop that renames and
    fuses the parameters of a Huggingface T5 v1.1 checkpoint into the
    NeMo-Megatron layout) and of the activation translation at the head of
    [package_into_nemo_file], with the properties the specification states
    about them.

    Conventions of the embedding.
    - A Python [str] is a [string]; a character is its code point, so the
      embedding covers keys whose code points are below 256.
    - A tensor is its shape and its elements in row-major order; the
      element type is a parameter, since the script never computes on
      elements.
    - An [OrderedDict] is an association list in insertion order with
      distinct keys.
    - Exceptions are values of [exn]; the loop body runs in a state and
      exception monad over the local [nemo_weights] and standard output. *)

From Stdlib Require Import Ascii String List ZArith Bool Lia Decimal DecimalString
  DecimalZ Permutation.
Import ListNotations.

#[local] Open Scope list_scope.
#[local] Open Scope string_scope.

(** ** Python strings *)

Module Py.

(** [s.startswith(p)] *)
Fixpoint startswith (p s : string) {struct p} : bool :=
  match p with
  | EmptyString => true
  | String a p' =>
      match s with
      | EmptyString => false
      | String b s' => Ascii.eqb a b && startswith p' s'
      end
  end.

(** [p in s] *)
Fixpoint contains (p s : string) {struct s} : bool :=
  startswith p s ||
  match s with
  | EmptyString => false
  | String _ s' => contains p s'
  end.

(** [s.split(sep)] for a separator of one character. *)
Fixpoint split (sep : ascii) (s : string) : list string :=
  match s with
  | EmptyString => [EmptyString]
  | String c s' =>
      if Ascii.eqb c sep then EmptyString :: split sep s'
      else match split sep s' with
           | h :: t => String c h :: t
           | [] => [String c EmptyString]
           end
  end.

Fixpoint drop (n : nat) (s : string) : string :=
  match n, s with
  | S n', String _ s' => drop n' s'
  | _, _ => s
  end.

(** [s.replace(old, new)]: occurrences of [old] are replaced from left to
    right without overlap.  [skip] counts the characters of a matched
    occurrence that are still to be passed over. *)
Fixpoint replace_from (old new : string) (skip : nat) (s : string) : string :=
  match s with
  | EmptyString => EmptyString
  | String c s' =>
      match skip with
      | S n => replace_from old new n s'
      | O =>
          if startswith old s
          then new ++ replace_from old new (String.length old - 1) s'
          else String c (replace_from old new 0 s')
      end
  end.

(** With an empty [old], Python puts [new] before every character and at
    the end. *)
Fixpoint intersperse (new s : string) : string :=
  match s with
  | EmptyString => new
  | String c s' => new ++ String c (intersperse new s')
  end.

Definition replace (s old new : string) : string :=
  match old with
  | EmptyString => intersperse new s
  | _ => replace_from old new 0 s
  end.

(** Characters that [int()] strips at both ends of a literal: the white
    space of ASCII as the parser of integers sees it (code points 9 to 13
    and 32; the separators 28 to 31 are not stripped), and the white space
    of Unicode from 128 to 255 (133 and 160), which [int()] turns into
    spaces first. *)
Definition isspace (c : ascii) : bool :=
  let n := nat_of_ascii c in
  ((9 <=? n) && (n <=? 13) || (n =? 32) || (n =? 133) || (n =? 160))%nat.

(** The literal without the characters that [int()] strips at its ends. *)
Fixpoint lstrip (s : string) : string :=
  match s with
  | EmptyString => EmptyString
  | String c s' => if isspace c then lstrip s' else s
  end.

Fixpoint rstrip (s : string) : string :=
  match s with
  | EmptyString => EmptyString
  | String c s' =>
      match rstrip s' with
      | EmptyString => if isspace c then EmptyString else String c EmptyString
      | r => String c r
      end
  end.

Definition strip (s : string) : string := rstrip (lstrip s).

Definition digit (c : ascii) (d : uint) : option uint :=
  uint_of_char c (Some d).

Definition isdigit (c : ascii) : bool :=
  match digit c Nil with Some _ => true | None => false end.

(** The digits of an integer literal: [digit (["_"] digit)*].  The result
    is the decimal numeral read, the grouping underscores left out. *)
Fixpoint digitpart (s : string) : option uint :=
  match s with
  | EmptyString => None
  | String c s' =>
      if isdigit c then
        match s' with
        | EmptyString => digit c Nil
        | String u s'' =>
            if Ascii.eqb u "_"
            then match digitpart s'' with
                 | Some d => digit c d
                 | None => None
                 end
            else match digitpart s' with
                 | Some d => digit c d
                 | None => None
                 end
        end
      else None
  end.

(** [int(s)] in base 10; [None] stands for the [ValueError] it raises.
    (The configurable limit of recent interpreters on the number of digits
    is not part of the embedding.) *)
Definition int (s : string) : option Z :=
  match strip s with
  | String "+" r =>
      match digitpart r with Some d => Some (Z.of_uint d) | None => None end
  | String "-" r =>
      match digitpart r with Some d => Some (- Z.of_uint d)%Z | None => None end
  | r =>
      match digitpart r with Some d => Some (Z.of_uint d) | None => None end
  end.

(** [str(n)], also what an f-string prints for an integer. *)
Definition str (n : Z) : string := NilZero.string_of_int (Z.to_int n).

(** Every character of [s] satisfies [P]. *)
Fixpoint all (P : ascii -> bool) (s : string) : bool :=
  match s with
  | EmptyString => true
  | String c s' => P c && all P s'
  end.

(** The characters [str] prints. *)
Definition numeric (c : ascii) : bool := isdigit c || Ascii.eqb c "-".

(** The first character of [p] exists and fails [P]. *)
Definition head_fails (P : ascii -> bool) (p : string) : bool :=
  match p with
  | EmptyString => false
  | String c _ => negb (P c)
  end.

End Py.

(** ** Exceptions and dictionaries *)

Inductive exn : Type :=
| ValueError (msg : string)
| InvalidLiteral (literal : string)  (* the [ValueError] of [int()], which quotes the literal *)
| IndexError                         (* list index out of range *)
| KeyError (key : string)
| RuntimeError (msg : string).

Definition result (A : Type) : Type := (exn + A)%type.

Definition OK {A : Type} (a : A) : result A := inr a.
Definition Err {A : Type} (e : exn) : result A := inl e.

Definition rbind {A B : Type} (r : result A) (f : A -> result B) : result B :=
  match r with
  | inl e => inl e
  | inr a => f a
  end.

Notation "'let*' x ':=' r 'in' k" := (rbind r (fun x => k))
  (at level 10, x pattern, r at level 100, k at level 200).

(** An insertion-ordered dictionary with string keys. *)
Definition dict (V : Type) : Type := list (string * V).

Section Dict.
Context {V : Type}.

(** [d.get(k)] *)
Fixpoint get (d : dict V) (k : string) : option V :=
  match d with
  | [] => None
  | (k', v) :: d' => if String.eqb k' k then Some v else get d' k
  end.

(** [d[k]], which raises [KeyError] on a missing key. *)
Definition getitem (d : dict V) (k : string) : result V :=
  match get d k with
  | Some v => OK v
  | None => Err (KeyError k)
  end.

(** [d[k] = v]: an existing key keeps its position, a new key goes last. *)
Fixpoint setitem (d : dict V) (k : string) (v : V) : dict V :=
  match d with
  | [] => [(k, v)]
  | (k', v') :: d' =>
      if String.eqb k' k then (k', v) :: d' else (k', v') :: setitem d' k v
  end.

Definition keys (d : dict V) : list string := map fst d.
End Dict.

(** [l[i]] on a list. *)
Definition index {T : Type} (l : list T) (i : nat) : result T :=
  match nth_error l i with
  | Some x => OK x
  | None => Err IndexError
  end.

Definition int (s : string) : result Z :=
  match Py.int s with
  | Some n => OK n
  | None => Err (InvalidLiteral s)
  end.

(** ** Tensors *)

Section Remapper.
Context {A : Type}.

Record tensor : Type := { shape : list nat; data : list A }.

Definition numel (sh : list nat) : nat := fold_right Nat.mul 1 sh.

(** A tensor holds as many elements as its shape says. *)
Definition well_formed (t : tensor) : bool :=
  (length (data t) =? numel (shape t))%nat.

Fixpoint shape_eqb (s1 s2 : list nat) : bool :=
  match s1, s2 with
  | [], [] => true
  | a :: s1', b :: s2' => (a =? b)%nat && shape_eqb s1' s2'
  | _, _ => false
  end.

(** [torch.cat] leaves one-dimensional empty tensors out. *)
Definition cat_skipped (t : tensor) : bool :=
  match shape t with
  | [n] => (n =? 0)%nat
  | _ => false
  end.

Definition dim0 (t : tensor) : nat := hd 0 (shape t).

(** [torch.cat(ts, dim=0)]: the tensors must have one shape apart from
    dimension 0; the result stacks them in the order of the list. *)
Definition torch_cat (ts : list tensor) : result tensor :=
  match filter (fun t => negb (cat_skipped t)) ts with
  | [] =>
      match ts with
      | [] => Err (RuntimeError "torch.cat(): expected a non-empty list of Tensors")
      | _ => OK {| shape := [0]; data := [] |}
      end
  | t0 :: rest =>
      match shape t0 with
      | [] => Err (RuntimeError "zero-dimensional tensor cannot be concatenated")
      | _ :: trailing =>
          if forallb (fun t => match shape t with
                               | [] => false
                               | _ :: tl => shape_eqb tl trailing
                               end) rest
          then OK {| shape := list_sum (map dim0 (t0 :: rest)) :: trailing;
                     data := concat (map data (t0 :: rest)) |}
          else Err (RuntimeError "Sizes of tensors must match except in dimension 0")
      end
  end.

(** [t[a:b]], the rows [a] (included) to [b] (excluded) along dimension 0. *)
Definition rows (t : tensor) (a b : nat) : tensor :=
  let stride := numel (tl (shape t)) in
  let b' := Nat.min b (dim0 t) in
  {| shape := (b' - a) :: tl (shape t);
     data := firstn ((b' - a) * stride) (skipn (a * stride) (data t)) |}.

(** ** The state of a run *)

Record state : Type := {
  nemo_weights : dict tensor;      (* the local [OrderedDict] being filled *)
  stdout : list string;            (* the lines printed so far *)
  files : dict (dict tensor)       (* what [torch.save] has written, by path *)
}.

Definition M (T : Type) : Type := state -> result T * state.

Definition ret {T : Type} (x : T) : M T := fun st => (OK x, st).

Definition bind {T U : Type} (c : M T) (f : T -> M U) : M U :=
  fun st =>
    match c st with
    | (inl e, st') => (inl e, st')
    | (inr x, st') => f x st'
    end.

Definition raise {T : Type} (e : exn) : M T := fun st => (Err e, st).

Definition lift {T : Type} (r : result T) : M T := fun st => (r, st).

Definition pass : M unit := ret tt.

Definition print (line : string) : M unit :=
  fun st => (OK tt, {| nemo_weights := nemo_weights st;
                       stdout := stdout st ++ [line];
                       files := files st |}).

(** [nemo_weights[key] = t] *)
Definition set_nemo_weights (key : string) (t : tensor) : M unit :=
  fun st => (OK tt, {| nemo_weights := setitem (nemo_weights st) key t;
                       stdout := stdout st;
                       files := files st |}).

(** [torch.save(nemo_weights, path)] *)
Definition torch_save_nemo_weights (path : string) : M unit :=
  fun st => (OK tt, {| nemo_weights := nemo_weights st;
                       stdout := stdout st;
                       files := setitem (files st) path (nemo_weights st) |}).

End Remapper.

Arguments tensor : clear implicits.
Arguments state : clear implicits.
Arguments M : clear implicits.

Notation "x <- c ;; k" := (bind c (fun x => k))
  (at level 61, c at next level, right associativity).
Notation "' p <- c ;; k" := (bind c (fun x => match x with p => k end))
  (at level 61, p pattern, c at next level, right associativity).
Notation "c ;; k" := (bind c (fun _ => k))
  (at level 61, right associativity).

(** ** [convert_weights] *)

Section ConvertWeights.
Context {A : Type}.

(** The helper local to [convert_weights]. *)
Definition _get_model_type_block_layer (k : string) : result (string * Z * Z) :=
  let* model_type :=
    if Py.startswith "encoder" k then OK "encoder"
    else if Py.startswith "decoder" k then OK "decoder"
    else Err (ValueError ("Unknown model type for " ++ k)) in
  let* block := (let* seg := index (Py.split "." k) 2 in int seg) in
  let* layer := (let* seg := index (Py.split "." k) 4 in int seg) in
  OK (model_type, block, layer).

(** The body of [for k, v in hf_weights.items()]. *)
Definition body (hf_weights : dict (tensor A)) (k : string) (v : tensor A) : M A unit :=
  (* Enc-Dec Embeddings and Output Layer *)
  if k =? "shared.weight" then
    pass

  else if k =? "lm_head.weight" then
    set_nemo_weights "enc_dec_model.tokens_head.weight" v ;;
    print ("Mapped " ++ k ++ " to enc_dec_model.decoder_embedding.word_embeddings.weight and enc_dec_model.tokens_head.weight")

  else if k =? "decoder.embed_tokens.weight" then
    set_nemo_weights "enc_dec_model.decoder_embedding.word_embeddings.weight" v

  else if k =? "encoder.embed_tokens.weight" then
    set_nemo_weights "enc_dec_model.encoder_embedding.word_embeddings.weight" v ;;
    print ("Mapped " ++ k ++ " to enc_dec_model.encoder_embedding.word_embeddings.weight")

  (* RPE Weights *)
  else if k =? "encoder.block.0.layer.0.SelfAttention.relative_attention_bias.weight" then
    set_nemo_weights "enc_dec_model.encoder_relative_position_embedding.relative_position_embedding.weight" v ;;
    print ("Mapped " ++ k ++ " to enc_dec_model.encoder_relative_position_embedding.relative_position_embedding.weight")

  else if k =? "decoder.block.0.layer.0.SelfAttention.relative_attention_bias.weight" then
    set_nemo_weights "enc_dec_model.decoder_relative_position_embedding.relative_position_embedding.weight" v ;;
    print ("Mapped " ++ k ++ " to enc_dec_model.decoder_relative_position_embedding.relative_position_embedding.weight")

  (* Attention Layers: Q, K, V are bundled into a single matrix. *)
  else if Py.contains "SelfAttention.q.weight" k then
    '(model_type, block_number, layer_number) <- lift (_get_model_type_block_layer k) ;;
    k_weight <- lift (getitem hf_weights (Py.replace k "q.weight" "k.weight")) ;;
    v_weight <- lift (getitem hf_weights (Py.replace k "q.weight" "v.weight")) ;;
    concat_weights <- lift (torch_cat [v; k_weight; v_weight]) ;;
    set_nemo_weights
      ("enc_dec_model.enc_dec_model." ++ model_type ++ ".model.layers." ++ Py.str block_number ++ ".self_attention.query_key_value.weight")
      concat_weights ;;
    print ("Mapped " ++ k ++ " to enc_dec_model.enc_dec_model." ++ model_type ++ ".model.layers." ++ Py.str block_number ++ ".self_attention.query_key_value.weight")

  (* k, v weights are skipped: they are concatenated into qkv above. *)
  else if Py.contains "SelfAttention.k.weight" k || Py.contains "SelfAttention.v.weight" k then
    pass

  (* Output self-attn matrix. *)
  else if Py.contains "SelfAttention.o.weight" k then
    '(model_type, block_number, layer_number) <- lift (_get_model_type_block_layer k) ;;
    block_number <- lift (let* seg := index (Py.split "." k) 2 in int seg) ;;
    layer_number <- lift (let* seg := index (Py.split "." k) 4 in int seg) ;;
    set_nemo_weights
      ("enc_dec_model.enc_dec_model." ++ model_type ++ ".model.layers." ++ Py.str block_number ++ ".self_attention.dense.weight")
      v ;;
    print ("Mapped " ++ k ++ " to enc_dec_model.enc_dec_model." ++ model_type ++ ".model.layers." ++ Py.str block_number ++ ".self_attention.dense.weight")

  (* Cross-Attention projection matrices are merged into K, V matrices. *)
  else if Py.contains "EncDecAttention.k.weight" k then
    '(model_type, block_number, layer_number) <- lift (_get_model_type_block_layer k) ;;
    v_weight <- lift (getitem hf_weights (Py.replace k "k.weight" "v.weight")) ;;
    concat_weights <- lift (torch_cat [v; v_weight]) ;;
    set_nemo_weights
      ("enc_dec_model.enc_dec_model.decoder.model.layers." ++ Py.str block_number ++ ".inter_attention.key_value.weight")
      concat_weights ;;
    print ("Mapped " ++ k ++ " to enc_dec_model.enc_dec_model.decoder.model.layers." ++ Py.str block_number ++ ".inter_attention.key_value.weight")

  (* v weights are skipped: they are concatenated with k above. *)
  else if Py.contains "EncDecAttention.v.weight" k then
    pass

  (* Cross-Attention Q matrix is separate. *)
  else if Py.contains "EncDecAttention.q.weight" k then
    '(model_type, block_number, layer_number) <- lift (_get_model_type_block_layer k) ;;
    set_nemo_weights
      ("enc_dec_model.enc_dec_model.decoder.model.layers." ++ Py.str block_number ++ ".inter_attention.query.weight")
      v ;;
    print ("Mapped " ++ k ++ " to enc_dec_model.enc_dec_model.decoder.model.layers." ++ Py.str block_number ++ ".inter_attention.query.weight")

  else if Py.contains "EncDecAttention.o.weight" k then
    '(model_type, block_number, layer_number) <- lift (_get_model_type_block_layer k) ;;
    set_nemo_weights
      ("enc_dec_model.enc_dec_model.decoder.model.layers." ++ Py.str block_number ++ ".inter_attention.dense.weight")
      v ;;
    print ("Mapped " ++ k ++ " to enc_dec_model.enc_dec_model.decoder.model.layers." ++ Py.str block_number ++ ".inter_attention.dense.weight")

  (* FFN Layers *)
  else if Py.contains "DenseReluDense.wi_0.weight" k then
    '(model_type, block_number, layer_number) <- lift (_get_model_type_block_layer k) ;;
    set_nemo_weights
      ("enc_dec_model.enc_dec_model." ++ model_type ++ ".model.layers." ++ Py.str block_number ++ ".mlp.dense_h_to_4h.weight")
      v ;;
    print ("Mapped " ++ k ++ " to enc_dec_model.enc_dec_model." ++ model_type ++ ".model.layers." ++ Py.str block_number ++ ".mlp.dense_h_to_4h.weight")

  else if Py.contains "DenseReluDense.wi_1.weight" k then
    '(model_type, block_number, layer_number) <- lift (_get_model_type_block_layer k) ;;
    set_nemo_weights
      ("enc_dec_model.enc_dec_model." ++ model_type ++ ".model.layers." ++ Py.str block_number ++ ".mlp.dense_h_to_4h_2.weight")
      v ;;
    print ("Mapped " ++ k ++ " to enc_dec_model.enc_dec_model." ++ model_type ++ ".model.layers." ++ Py.str block_number ++ ".mlp.dense_h_to_4h_2.weight")

  else if Py.contains "DenseReluDense.wo.weight" k then
    '(model_type, block_number, layer_number) <- lift (_get_model_type_block_layer k) ;;
    set_nemo_weights
      ("enc_dec_model.enc_dec_model." ++ model_type ++ ".model.layers." ++ Py.str block_number ++ ".mlp.dense_4h_to_h.weight")
      v ;;
    print ("Mapped " ++ k ++ " to enc_dec_model.enc_dec_model." ++ model_type ++ ".model.layers." ++ Py.str block_number ++ ".mlp.dense_4h_to_h.weight")

  (* LayerNorm *)
  else if Py.contains "layer_norm" k then
    if Py.contains "final" k then
      let model_type := if Py.startswith "encoder" k then "encoder" else "decoder" in
      set_nemo_weights ("enc_dec_model.enc_dec_model." ++ model_type ++ ".model.final_layernorm.weight") v ;;
      print ("Mapped " ++ k ++ " to enc_dec_model.enc_dec_model." ++ model_type ++ ".model.final_layernorm.weight")
    else
      '(model_type, block_number, layer_number) <- lift (_get_model_type_block_layer k) ;;
      if (layer_number =? 0)%Z && (model_type =? "encoder") then
        set_nemo_weights
          ("enc_dec_model.enc_dec_model." ++ model_type ++ ".model.layers." ++ Py.str block_number ++ ".input_layernorm.weight")
          v ;;
        print ("Mapped " ++ k ++ " to enc_dec_model.enc_dec_model." ++ model_type ++ ".model.layers." ++ Py.str block_number ++ ".input_layernorm.weight")
      else if (layer_number =? 1)%Z && (model_type =? "encoder") then
        set_nemo_weights
          ("enc_dec_model.enc_dec_model." ++ model_type ++ ".model.layers." ++ Py.str block_number ++ ".post_attention_layernorm.weight")
          v ;;
        print ("Mapped " ++ k ++ " to enc_dec_model.enc_dec_model." ++ model_type ++ ".model.layers." ++ Py.str block_number ++ ".post_attention_layernorm.weight")
      else if (layer_number =? 0)%Z && (model_type =? "decoder") then
        set_nemo_weights
          ("enc_dec_model.enc_dec_model." ++ model_type ++ ".model.layers." ++ Py.str block_number ++ ".input_layernorm.weight")
          v ;;
        print ("Mapped " ++ k ++ " to enc_dec_model.enc_dec_model." ++ model_type ++ ".model.layers." ++ Py.str block_number ++ ".input_layernorm.weight")
      else if (layer_number =? 1)%Z && (model_type =? "decoder") then
        set_nemo_weights
          ("enc_dec_model.enc_dec_model." ++ model_type ++ ".model.layers." ++ Py.str block_number ++ ".post_attention_layernorm.weight")
          v ;;
        print ("Mapped " ++ k ++ " to enc_dec_model.enc_dec_model." ++ model_type ++ ".model.layers." ++ Py.str block_number ++ ".post_attention_layernorm.weight")
      else if (layer_number =? 2)%Z && (model_type =? "decoder") then
        set_nemo_weights
          ("enc_dec_model.enc_dec_model." ++ model_type ++ ".model.layers." ++ Py.str block_number ++ ".post_inter_attention_layernorm.weight")
          v ;;
        print ("Mapped " ++ k ++ " to enc_dec_model.enc_dec_model." ++ model_type ++ ".model.layers." ++ Py.str block_number ++ ".post_inter_attention_layernorm.weight")
      else
        raise (ValueError ("Unknown layer_norm key: " ++ k))
  else
    raise (ValueError ("Unknown key: " ++ k)).

(** [for k, v in items: body k v] *)
Fixpoint for_items (items : dict (tensor A)) (f : string -> tensor A -> M A unit) : M A unit :=
  match items with
  | [] => ret tt
  | (k, v) :: rest => f k v ;; for_items rest f
  end.

(** The configuration of the source model, as far as the script reads it. *)
Record T5Config : Type := {
  dense_act_fn : string;
  num_layers : Z;
  num_decoder_layers : Z;
  d_model : Z;
  d_ff : Z;
  d_kv : Z;
  num_heads : Z;
  relative_attention_num_buckets : Z
}.

(** What [T5ForConditionalGeneration.from_pretrained] hands back: the
    loader, and the save and reload of the state dictionary through a
    temporary file, belong to the libraries and return the weights as they
    are. *)
Record T5ForConditionalGeneration : Type := {
  config : T5Config;
  state_dict : dict (tensor A)
}.

Definition convert_weights (hf_model : T5ForConditionalGeneration)
    (nemo_state_dict_path : string) : M A T5Config :=
  let hf_model_config := config hf_model in
  let hf_weights := state_dict hf_model in
  (fun st => (OK tt, {| nemo_weights := []; stdout := stdout st; files := files st |})) ;;
  print ("Found " ++ Py.str (Z.of_nat (length (keys hf_weights))) ++ " keys in the checkpoint") ;;
  for_items hf_weights (body hf_weights) ;;
  torch_save_nemo_weights nemo_state_dict_path ;;
  print ("Saved weights to " ++ nemo_state_dict_path) ;;
  ret hf_model_config.

End ConvertWeights.

Arguments T5ForConditionalGeneration : clear implicits.

(** ** [package_into_nemo_file] *)

(** The translation of the activation name at the head of
    [package_into_nemo_file]. *)
Definition act_fn (hf_model_config : T5Config) : result string :=
  if dense_act_fn hf_model_config =? "silu" then OK "swiglu"
  else if dense_act_fn hf_model_config =? "gelu_new" then OK "geglu"
  else Err (ValueError ("Unknown dense_act_fn: " ++ dense_act_fn hf_model_config)).

(** One of the [encoder] and [decoder] sections of the base configuration,
    with the fields the script overwrites. *)
Record section_cfg : Type := {
  cfg_num_layers : Z;
  cfg_hidden_size : Z;
  cfg_ffn_hidden_size : Z;
  cfg_kv_channels : Z;
  cfg_num_attention_heads : Z;
  cfg_activation : string;
  cfg_relative_attention_num_buckets : Z
}.

Record base_cfg : Type := { encoder : section_cfg; decoder : section_cfg }.

(** [package_into_nemo_file] up to the edited configuration; the trainer,
    the tokenizer and the construction and saving of the model are calls
    into the frameworks. *)
Definition package_into_nemo_file (hf_model_config : T5Config) : result base_cfg :=
  let* act_fn := act_fn hf_model_config in
  OK {| encoder := {| cfg_num_layers := num_layers hf_model_config;
                      cfg_hidden_size := d_model hf_model_config;
                      cfg_ffn_hidden_size := d_ff hf_model_config;
                      cfg_kv_channels := d_kv hf_model_config;
                      cfg_num_attention_heads := num_heads hf_model_config;
                      cfg_activation := act_fn;
                      cfg_relative_attention_num_buckets :=
                        relative_attention_num_buckets hf_model_config |};
        decoder := {| cfg_num_layers := num_decoder_layers hf_model_config;
                      cfg_hidden_size := d_model hf_model_config;
                      cfg_ffn_hidden_size := d_ff hf_model_config;
                      cfg_kv_channels := d_kv hf_model_config;
                      cfg_num_attention_heads := num_heads hf_model_config;
                      cfg_activation := act_fn;
                      cfg_relative_attention_num_buckets :=
                        relative_attention_num_buckets hf_model_config |} |}.

(** ** Effects of the loop, for the statements below *)

Section Effects.
Context {A : Type}.
Implicit Types (hf_weights items : dict (tensor A)) (k : string) (v : tensor A) (st : state A).

(** The state with [nemo_weights] and [stdout] extended. *)
Definition extend st (w : dict (tensor A)) (out : list string) : state A :=
  {| nemo_weights := fold_left (fun d kt => setitem d (fst kt) (snd kt)) w (nemo_weights st);
     stdout := (stdout st ++ out)%list;
     files := files st |}.

Definition blank : state A := {| nemo_weights := []; stdout := []; files := [] |}.

(** What handling one key does, seen from a blank state: the exception
    raised, or the entries assigned and the lines printed. *)
Definition emit hf_weights k v : result (dict (tensor A) * list string) :=
  match body hf_weights k v blank with
  | (inl e, _) => Err e
  | (inr _, st') => OK (nemo_weights st', stdout st')
  end.

(** The state after [nemo_weights[key] = t] and one printed line. *)
Definition assigned st (key : string) (t : tensor A) (line : string) : state A :=
  {| nemo_weights := setitem (nemo_weights st) key t;
     stdout := (stdout st ++ [line])%list;
     files := files st |}.

(** A computation is framed when it only assigns to [nemo_weights] and
    prints, whatever the state, and leaves the state alone when it raises. *)
Definition framed (c : M A unit) : Prop :=
  forall st,
    c st = match c blank with
           | (inl e, _) => (Err e, st)
           | (inr _, st') => (OK tt, extend st (nemo_weights st') (stdout st'))
           end.

(** The computation leaves the entry [key] of [nemo_weights] alone. *)
Definition leaves (key : string) (c : M A unit) : Prop :=
  forall st r st', c st = (r, st') -> get (nemo_weights st') key = get (nemo_weights st) key.

(** The assignments made and the lines printed by the loop over [items],
    up to the first exception, and that exception. *)
Fixpoint emits hf_weights items : dict (tensor A) * list string * option exn :=
  match items with
  | [] => ([], [], None)
  | (k, v) :: rest =>
      match emit hf_weights k v with
      | inl e => ([], [], Some e)
      | inr (w, out) =>
          let '(w', out', oe) := emits hf_weights rest in
          ((w ++ w')%list, (out ++ out')%list, oe)
      end
  end.

(** The state in which the loop starts. *)
Definition started (hf_model : T5ForConditionalGeneration A) st : state A :=
  {| nemo_weights := [];
     stdout := (stdout st ++ [("Found " ++ Py.str (Z.of_nat (length (keys (state_dict hf_model))))
                                 ++ " keys in the checkpoint")%string])%list;
     files := files st |}.

(** Run from a blank state, the computation raises or makes assignments
    and prints lines that satisfy [Q]. *)
Definition yields (c : M A unit) (Q : dict (tensor A) -> list string -> Prop) : Prop :=
  match c blank with
  | (inl _, _) => True
  | (inr _, st') => Q (nemo_weights st') (stdout st')
  end.

(** Run from a blank state, the computation returns or raises an exception
    that satisfies [P]. *)
Definition fails (c : M A unit) (P : exn -> Prop) : Prop :=
  match c blank with
  | (inl e, _) => P e
  | (inr _, _) => True
  end.

(** Handling the entry raises nothing. *)
Definition handled hf_weights (kv : string * tensor A) : Prop :=
  exists r, emit hf_weights (fst kv) (snd kv) = OK r.

(** The assignments that handling each key of [items] makes, in order. *)
Definition assignments hf_weights items : dict (tensor A) :=
  flat_map (fun kv => match emit hf_weights (fst kv) (snd kv) with
                      | inl _ => []
                      | inr (w, _) => w
                      end) items.

End Effects.

(** ** Sample checkpoints *)

(** The tensor of shape [(h, w)] filled with [x]. *)
Definition full (h w : nat) (x : Z) : tensor Z :=
  {| shape := [h; w]; data := repeat x (h * w) |}.

Definition sample_config : T5Config :=
  {| dense_act_fn := "gelu_new"; num_layers := 1; num_decoder_layers := 1;
     d_model := 2; d_ff := 4; d_kv := 1; num_heads := 2;
     relative_attention_num_buckets := 32 |}.

Definition relu_config : T5Config :=
  {| dense_act_fn := "relu"; num_layers := 1; num_decoder_layers := 1;
     d_model := 2; d_ff := 4; d_kv := 1; num_heads := 2;
     relative_attention_num_buckets := 32 |}.

Definition sample_self_attention : dict (tensor Z) :=
  [ ("encoder.block.3.layer.0.SelfAttention.q.weight", full 2 2 1);
    ("encoder.block.3.layer.0.SelfAttention.k.weight", full 2 2 2);
    ("encoder.block.3.layer.0.SelfAttention.v.weight", full 2 2 3) ].

Definition sample_cross_attention : dict (tensor Z) :=
  [ ("decoder.block.3.layer.1.EncDecAttention.q.weight", full 2 2 1);
    ("decoder.block.3.layer.1.EncDecAttention.k.weight", full 2 2 2);
    ("decoder.block.3.layer.1.EncDecAttention.v.weight", full 2 2 3) ].

(** A checkpoint with a key that no rule handles. *)
Definition sample_unexpected : T5ForConditionalGeneration Z :=
  {| config := sample_config;
     state_dict :=
       [ ("shared.weight", full 2 2 0);
         ("encoder.block.0.layer.0.SelfAttention.unexpected.weight", full 2 2 1) ] |}.

(** A checkpoint with two keys that no rule handles. *)
Definition sample_two_unknown : T5ForConditionalGeneration Z :=
  {| config := sample_config;
     state_dict := [ ("foo", full 1 1 0); ("bar", full 1 1 1) ] |}.

(** A checkpoint whose query projection lacks the key sibling. *)
Definition sample_missing_sibling : T5ForConditionalGeneration Z :=
  {| config := sample_config;
     state_dict :=
       [ ("encoder.block.0.layer.0.SelfAttention.q.weight", full 2 2 1);
         ("encoder.block.0.layer.0.SelfAttention.v.weight", full 2 2 3) ] |}.

(** Two output projections that differ in the sub-layer index, which the
    target key does not carry. *)
Definition sample_two_sublayers : dict (tensor Z) :=
  [ ("encoder.block.0.layer.0.SelfAttention.o.weight", full 1 1 1);
    ("encoder.block.0.layer.1.SelfAttention.o.weight", full 1 1 2) ].

Definition model_of (hf_weights : dict (tensor Z)) : T5ForConditionalGeneration Z :=
  {| config := sample_config; state_dict := hf_weights |}.

(** The three projections of a self-attention under keys without the
    [layer] segments: the fifth segment of the query key is [q]. *)
Definition sample_no_layer : dict (tensor Z) :=
  [ ("encoder.block.3.SelfAttention.q.weight", full 2 2 1);
    ("encoder.block.3.SelfAttention.k.weight", full 2 2 2);
    ("encoder.block.3.SelfAttention.v.weight", full 2 2 3) ].

(** The key and value projections of a cross-attention under keys that
    start with no module. *)
Definition sample_no_module : dict (tensor Z) :=
  [ ("EncDecAttention.k.weight", full 2 2 2);
    ("EncDecAttention.v.weight", full 2 2 3) ].

(** ** The rules, as tables

    The keys the chain compares with [==] and the patterns it looks for
    with [in], in the order of the chain.  The chain itself is [body]; the
    tables only serve to say which keys reach which rule. *)

Definition exact_keys : list string :=
  [ "shared.weight"; "lm_head.weight"; "decoder.embed_tokens.weight";
    "encoder.embed_tokens.weight";
    "encoder.block.0.layer.0.SelfAttention.relative_attention_bias.weight";
    "decoder.block.0.layer.0.SelfAttention.relative_attention_bias.weight" ].

Definition self_attention_patterns : list string :=
  [ "SelfAttention.q.weight"; "SelfAttention.k.weight"; "SelfAttention.v.weight";
    "SelfAttention.o.weight" ].

Definition cross_attention_patterns : list string :=
  [ "EncDecAttention.k.weight"; "EncDecAttention.v.weight";
    "EncDecAttention.q.weight"; "EncDecAttention.o.weight" ].

Definition ffn_patterns : list string :=
  [ "DenseReluDense.wi_0.weight"; "DenseReluDense.wi_1.weight";
    "DenseReluDense.wo.weight" ].

Definition patterns : list string :=
  (self_attention_patterns ++ cross_attention_patterns ++ ffn_patterns
     ++ ["layer_norm"])%list.

Definition is_exact (k : string) : bool := existsb (String.eqb k) exact_keys.

Definition matches_none (ps : list string) (k : string) : bool :=
  forallb (fun p => negb (Py.contains p k)) ps.

(** No rule of the chain handles [k]. *)
Definition unmatched (k : string) : bool :=
  negb (is_exact k) && matches_none patterns k.

(** The role of a layer normalization by root module and sub-layer index,
    as the specification lists it. *)
Definition layer_norm_role (model_type : string) (layer_number : Z) : option string :=
  if model_type =? "encoder" then
    match layer_number with
    | 0%Z => Some "input_layernorm"
    | 1%Z => Some "post_attention_layernorm"
    | _ => None
    end
  else if model_type =? "decoder" then
    match layer_number with
    | 0%Z => Some "input_layernorm"
    | 1%Z => Some "post_attention_layernorm"
    | 2%Z => Some "post_inter_attention_layernorm"
    | _ => None
    end
  else None.

(** ** The naming schemes

    The source keys as the Huggingface model names them, and the target
    key the specification expects for each. *)

Inductive module : Type := Encoder | Decoder.

Inductive projection : Type := ProjQ | ProjK | ProjV | ProjO.

Inductive ffn_weight : Type := Wi0 | Wi1 | Wo.

Inductive hf_param : Type :=
| Shared
| LmHead
| EmbedTokens (m : module)
| RelativeAttentionBias (m : module)
| SelfAttention (m : module) (block : nat) (p : projection)
| EncDecAttention (block : nat) (p : projection)
| DenseReluDense (m : module) (block : nat) (w : ffn_weight)
| LayerNorm (m : module) (block : nat) (sublayer : nat)
| FinalLayerNorm (m : module).

Definition module_name (m : module) : string :=
  match m with Encoder => "encoder" | Decoder => "decoder" end.

Definition projection_name (p : projection) : string :=
  match p with ProjQ => "q" | ProjK => "k" | ProjV => "v" | ProjO => "o" end.

Definition ffn_weight_name (w : ffn_weight) : string :=
  match w with Wi0 => "wi_0" | Wi1 => "wi_1" | Wo => "wo" end.

(** [<module>.block.<block>.layer.<sublayer>.<leaf>] *)
Definition block_key (m : module) (block sublayer leaf : string) : string :=
  module_name m ++ ".block." ++ block ++ ".layer." ++ sublayer ++ "." ++ leaf.

Definition nat_str (n : nat) : string := Py.str (Z.of_nat n).

(** The feed-forward sub-layer comes after the attention sub-layers. *)
Definition ffn_sublayer (m : module) : string :=
  match m with Encoder => "1" | Decoder => "2" end.

Definition hf_name (p : hf_param) : string :=
  match p with
  | Shared => "shared.weight"
  | LmHead => "lm_head.weight"
  | EmbedTokens m => module_name m ++ ".embed_tokens.weight"
  | RelativeAttentionBias m =>
      block_key m "0" "0" "SelfAttention.relative_attention_bias.weight"
  | SelfAttention m b p =>
      block_key m (nat_str b) "0" ("SelfAttention." ++ projection_name p ++ ".weight")
  | EncDecAttention b p =>
      block_key Decoder (nat_str b) "1" ("EncDecAttention." ++ projection_name p ++ ".weight")
  | DenseReluDense m b w =>
      block_key m (nat_str b) (ffn_sublayer m) ("DenseReluDense." ++ ffn_weight_name w ++ ".weight")
  | LayerNorm m b l => block_key m (nat_str b) (nat_str l) "layer_norm.weight"
  | FinalLayerNorm m => module_name m ++ ".final_layer_norm.weight"
  end.

(** The encoder has two sub-layers to a block, the decoder three. *)
Definition in_scheme (p : hf_param) : bool :=
  match p with
  | LayerNorm Encoder _ l => (l <? 2)%nat
  | LayerNorm Decoder _ l => (l <? 3)%nat
  | _ => true
  end.

(** [enc_dec_model.enc_dec_model.<role>.model.layers.<layer>.<leaf>.weight] *)
Definition layer_key (m : module) (layer : nat) (leaf : string) : string :=
  "enc_dec_model.enc_dec_model." ++ module_name m ++ ".model.layers." ++ nat_str layer
    ++ "." ++ leaf ++ ".weight".

(** The target key expected for a source parameter, where one is. *)
Definition expected_target (p : hf_param) : option string :=
  match p with
  | Shared => None
  | LmHead => Some "enc_dec_model.tokens_head.weight"
  | EmbedTokens m =>
      Some ("enc_dec_model." ++ module_name m ++ "_embedding.word_embeddings.weight")
  | RelativeAttentionBias m =>
      Some ("enc_dec_model." ++ module_name m
              ++ "_relative_position_embedding.relative_position_embedding.weight")
  | SelfAttention m b ProjQ => Some (layer_key m b "self_attention.query_key_value")
  | SelfAttention m b ProjO => Some (layer_key m b "self_attention.dense")
  | SelfAttention _ _ _ => None
  | EncDecAttention b ProjK => Some (layer_key Decoder b "inter_attention.key_value")
  | EncDecAttention b ProjQ => Some (layer_key Decoder b "inter_attention.query")
  | EncDecAttention b ProjO => Some (layer_key Decoder b "inter_attention.dense")
  | EncDecAttention _ ProjV => None
  | DenseReluDense m b Wi0 => Some (layer_key m b "mlp.dense_h_to_4h")
  | DenseReluDense m b Wi1 => Some (layer_key m b "mlp.dense_h_to_4h_2")
  | DenseReluDense m b Wo => Some (layer_key m b "mlp.dense_4h_to_h")
  | LayerNorm m b 0 => Some (layer_key m b "input_layernorm")
  | LayerNorm m b 1 => Some (layer_key m b "post_attention_layernorm")
  | LayerNorm Decoder b 2 => Some (layer_key Decoder b "post_inter_attention_layernorm")
  | LayerNorm _ _ _ => None
  | FinalLayerNorm m =>
      Some ("enc_dec_model.enc_dec_model." ++ module_name m ++ ".model.final_layernorm.weight")
  end.

(** ** Checkpoints in the source naming scheme *)

Section Scheme.
Context {A : Type}.

(** [torch.cat(ts, dim=0)] returns. *)
Definition concatenable (ts : list (tensor A)) : bool :=
  match torch_cat ts with
  | inl _ => false
  | inr _ => true
  end.

(** The siblings that a fusion needs are in [hf_weights], and their
    tensors can be concatenated with the tensor of the entry. *)
Definition fusable (hf_weights : dict (tensor A)) (entry : hf_param * tensor A) : bool :=
  match fst entry with
  | SelfAttention m b ProjQ =>
      match get hf_weights (hf_name (SelfAttention m b ProjK)),
            get hf_weights (hf_name (SelfAttention m b ProjV)) with
      | Some k_weight, Some v_weight => concatenable [snd entry; k_weight; v_weight]
      | _, _ => false
      end
  | EncDecAttention b ProjK =>
      match get hf_weights (hf_name (EncDecAttention b ProjV)) with
      | Some v_weight => concatenable [snd entry; v_weight]
      | None => false
      end
  | _ => true
  end.

(** The source mapping with the parameters [params] under their names. *)
Definition named (params : list (hf_param * tensor A)) : dict (tensor A) :=
  map (fun entry => (hf_name (fst entry), snd entry)) params.

(** The source mapping is one the remapper is meant for. *)
Definition convertible (params : list (hf_param * tensor A)) : bool :=
  forallb (fun entry => in_scheme (fst entry) && fusable (named params) entry) params.

End Scheme.

(** A small checkpoint in the scheme: one encoder and one decoder block. *)
Definition sample_params : list (hf_param * tensor Z) :=
  [ (Shared, full 4 2 0);
    (EmbedTokens Encoder, full 4 2 0);
    (EmbedTokens Decoder, full 4 2 0);
    (LmHead, full 4 2 9);
    (RelativeAttentionBias Encoder, full 32 2 1);
    (SelfAttention Encoder 0 ProjQ, full 2 2 1);
    (SelfAttention Encoder 0 ProjK, full 2 2 2);
    (SelfAttention Encoder 0 ProjV, full 2 2 3);
    (SelfAttention Encoder 0 ProjO, full 2 2 4);
    (LayerNorm Encoder 0 0, full 1 2 1);
    (DenseReluDense Encoder 0 Wi0, full 4 2 5);
    (DenseReluDense Encoder 0 Wi1, full 4 2 6);
    (DenseReluDense Encoder 0 Wo, full 2 4 7);
    (LayerNorm Encoder 0 1, full 1 2 1);
    (FinalLayerNorm Encoder, full 1 2 1);
    (RelativeAttentionBias Decoder, full 32 2 1);
    (SelfAttention Decoder 0 ProjQ, full 2 2 1);
    (SelfAttention Decoder 0 ProjK, full 2 2 2);
    (SelfAttention Decoder 0 ProjV, full 2 2 3);
    (SelfAttention Decoder 0 ProjO, full 2 2 4);
    (LayerNorm Decoder 0 0, full 1 2 1);
    (EncDecAttention 0 ProjQ, full 2 2 1);
    (EncDecAttention 0 ProjK, full 2 2 2);
    (EncDecAttention 0 ProjV, full 2 2 3);
    (EncDecAttention 0 ProjO, full 2 2 4);
    (LayerNorm Decoder 0 1, full 1 2 1);
    (DenseReluDense Decoder 0 Wi0, full 4 2 5);
    (DenseReluDense Decoder 0 Wi1, full 4 2 6);
    (DenseReluDense Decoder 0 Wo, full 2 4 7);
    (LayerNorm Decoder 0 2, full 1 2 1);
    (FinalLayerNorm Decoder, full 1 2 1) ].

(** Keys of the scheme with all siblings, the key projection of another
    width than the query and value projections. *)
Definition sample_mismatched : list (hf_param * tensor Z) :=
  [ (SelfAttention Encoder 0 ProjQ, full 1 1 1);
    (SelfAttention Encoder 0 ProjK, full 1 2 2);
    (SelfAttention Encoder 0 ProjV, full 1 1 3) ].

(** ** What a checkpoint in the scheme is expected to become *)

Section Expected.
Context {A : Type}.

(** The entry expected in the target mapping for a source entry: the
    expected key with the tensor of the entry, or with the fusion of that
    tensor and the tensors of its siblings. *)
Definition expected_entry (hf_weights : dict (tensor A)) (entry : hf_param * tensor A)
  : option (string * tensor A) :=
  match expected_target (fst entry) with
  | None => None
  | Some key =>
      match fst entry with
      | SelfAttention m b ProjQ =>
          match get hf_weights (hf_name (SelfAttention m b ProjK)),
                get hf_weights (hf_name (SelfAttention m b ProjV)) with
          | Some k_weight, Some v_weight =>
              match torch_cat [snd entry; k_weight; v_weight] with
              | inl _ => None
              | inr fused => Some (key, fused)
              end
          | _, _ => None
          end
      | EncDecAttention b ProjK =>
          match get hf_weights (hf_name (EncDecAttention b ProjV)) with
          | Some v_weight =>
              match torch_cat [snd entry; v_weight] with
              | inl _ => None
              | inr fused => Some (key, fused)
              end
          | None => None
          end
      | _ => Some (key, snd entry)
      end
  end.

Definition entry_list (o : option (string * tensor A)) : dict (tensor A) :=
  match o with
  | Some e => [e]
  | None => []
  end.

(** The target mapping expected for the parameters [params], in their
    order. *)
Definition expected_entries (params : list (hf_param * tensor A)) : dict (tensor A) :=
  flat_map (fun entry => entry_list (expected_entry (named params) entry)) params.

End Expected.

(** The attention weights of one decoder block. *)
Definition sample_decoder_attention : list (hf_param * tensor Z) :=
  [ (SelfAttention Decoder 1 ProjQ, full 1 2 1);
    (SelfAttention Decoder 1 ProjK, full 1 2 2);
    (SelfAttention Decoder 1 ProjV, full 1 2 3);
    (EncDecAttention 1 ProjQ, full 1 2 4);
    (EncDecAttention 1 ProjK, full 1 2 5);
    (EncDecAttention 1 ProjV, full 1 2 6) ].

(** ** The script run from the command line *)

(** The parsed command line. *)
Record Namespace : Type := {
  hf_model_name : string;
  nemo_state_dict_path : string;
  nemo_file_path : string;
  base_yaml_config : string
}.

(** What the script raises: [FileNotFoundError] itself, or what one of its
    two functions raises. *)
Inductive script_exn : Type :=
| FileNotFoundError (msg : string)
| Raised (e : exn).

Section Main.
Context {A : Type}.

(** [os.path.exists], and the loader that [convert_weights] calls on the
    model name. *)
Variable os_path_exists : string -> bool.
Variable from_pretrained : string -> T5ForConditionalGeneration A.

(** The body of [if __name__ == '__main__'], after [parser.parse_args()]
    and up to the edited configuration of [package_into_nemo_file]. *)
Definition main (args : Namespace) : state A -> (script_exn + base_cfg) * state A :=
  fun st =>
    if negb (os_path_exists (base_yaml_config args)) then
      (inl (FileNotFoundError
              ("Base yaml config file " ++ base_yaml_config args ++ " does not exist.")), st)
    else
      match convert_weights (from_pretrained (hf_model_name args))
              (nemo_state_dict_path args) st with
      | (inl e, st') => (inl (Raised e), st')
      | (inr hf_model_config, st') =>
          match package_into_nemo_file hf_model_config with
          | inl e => (inl (Raised e), st')
          | inr cfg => (inr cfg, st')
          end
      end.

End Main.

Definition sample_args : Namespace :=
  {| hf_model_name := "google/t5-v1_1-small";
     nemo_state_dict_path := "nemo_state_dict.pt";
     nemo_file_path := "t5_small.nemo";
     base_yaml_config := "hf_t5v1_1_base_config.yaml" |}.

(** * Properties *)

(** ** Strings *)

Module PyFacts.
Import Py.

Lemma all_impl (P Q : ascii -> bool) s :
  (forall c, P c = true -> Q c = true) -> all P s = true -> all Q s = true.
Proof.
  intros HPQ. induction s as [|c s IH]; simpl; [reflexivity|].
  intros H. apply andb_true_iff in H as [Hc Hs].
  now rewrite (HPQ c Hc), (IH Hs).
Qed.

Lemma all_app P s t : all P (s ++ t) = all P s && all P t.
Proof.
  induction s as [|c s IH]; simpl; [reflexivity|].
  now rewrite IH, andb_assoc.
Qed.

Lemma startswith_app p s : startswith p (p ++ s) = true.
Proof.
  induction p as [|a p IH]; simpl; [reflexivity|].
  now rewrite Ascii.eqb_refl, IH.
Qed.

Lemma startswith_split p s :
  startswith p s = true -> exists r, s = p ++ r.
Proof.
  revert s. induction p as [|a p IH]; intros s H; simpl in *.
  - now exists s.
  - destruct s as [|b s]; [discriminate|].
    apply andb_true_iff in H as [Hab Hp].
    apply Ascii.eqb_eq in Hab. subst b.
    destruct (IH s Hp) as [r ->]. now exists r.
Qed.

Lemma contains_cons p c s :
  contains p (String c s) = startswith p (String c s) || contains p s.
Proof. reflexivity. Qed.

Lemma contains_app_r p x y : contains p y = true -> contains p (x ++ y) = true.
Proof.
  intros H. induction x as [|c x IH]; simpl; [exact H|].
  rewrite IH. apply orb_true_r.
Qed.

Lemma contains_startswith p s : startswith p s = true -> contains p s = true.
Proof. intros H. destruct s; simpl; now rewrite H. Qed.

Lemma contains_intro p x y : contains p (x ++ p ++ y) = true.
Proof. apply contains_app_r, contains_startswith, startswith_app. Qed.

Lemma contains_split p s :
  contains p s = true -> exists x y, s = x ++ p ++ y.
Proof.
  induction s as [|c s IH]; simpl; intros H.
  - rewrite orb_false_r in H. apply startswith_split in H as [r ->].
    now exists EmptyString, r.
  - apply orb_true_iff in H as [H|H].
    + apply startswith_split in H as [r ->]. now exists EmptyString, r.
    + destruct (IH H) as (x & y & ->). now exists (String c x), y.
Qed.

(** A pattern that starts outside a class of characters does not start
    inside a run of that class. *)
Lemma startswith_head_fails P p c s :
  head_fails P p = true -> P c = true -> startswith p (String c s) = false.
Proof.
  destruct p as [|a p]; simpl; [discriminate|].
  intros Ha Hc. destruct (Ascii.eqb_spec a c) as [->|]; [|reflexivity].
  now rewrite Hc in Ha.
Qed.

Lemma contains_skip_run P p d s :
  head_fails P p = true -> all P d = true ->
  contains p (d ++ s) = contains p s.
Proof.
  intros Hp. induction d as [|c d IH]; simpl; [reflexivity|].
  intros H. apply andb_true_iff in H as [Hc Hd].
  change (match p with
          | EmptyString => true
          | String a p' => Ascii.eqb a c && startswith p' (d ++ s)
          end) with (startswith p (String c (d ++ s))).
  now rewrite (startswith_head_fails P p c _ Hp Hc), IH.
Qed.

(** [split] cuts at the first separator. *)
Lemma split_app_sep sep a b :
  all (fun c => negb (Ascii.eqb c sep)) a = true ->
  split sep (a ++ String sep b) = a :: split sep b.
Proof.
  induction a as [|c a IH]; simpl.
  - intros _. now rewrite Ascii.eqb_refl.
  - intros H. apply andb_true_iff in H as [Hc Ha].
    apply negb_true_iff in Hc. now rewrite Hc, (IH Ha).
Qed.

Lemma startswith_refl p : startswith p p = true.
Proof. induction p as [|a p IH]; simpl; [reflexivity|]. now rewrite Ascii.eqb_refl. Qed.

Lemma contains_suffix x p : contains p (x ++ p) = true.
Proof. apply contains_app_r, contains_startswith, startswith_refl. Qed.

(** *** Printing and reading integers *)

Lemma numeric_not_space c : numeric c = true -> isspace c = false.
Proof. destruct c as [[] [] [] [] [] [] [] []]; vm_compute; congruence. Qed.

Lemma numeric_not_dot c : numeric c = true -> negb (Ascii.eqb c ".") = true.
Proof. destruct c as [[] [] [] [] [] [] [] []]; vm_compute; congruence. Qed.

(** A run of numeric characters is free of any other character. *)
Lemma numeric_free c0 d :
  numeric c0 = false -> all numeric d = true ->
  all (fun c => negb (Ascii.eqb c c0)) d = true.
Proof.
  intros H0. apply all_impl. intros c Hc.
  destruct (Ascii.eqb_spec c c0) as [->|]; [congruence | reflexivity].
Qed.

Lemma isdigit_numeric c : isdigit c = true -> numeric c = true.
Proof. unfold numeric. now intros ->. Qed.

Lemma all_isdigit_uint u : all isdigit (NilEmpty.string_of_uint u) = true.
Proof. induction u; simpl; auto. Qed.

Lemma all_numeric_str z : all numeric (str z) = true.
Proof.
  assert (Hu : forall u, all numeric (NilZero.string_of_uint u) = true).
  { intros u. destruct u; try reflexivity;
      apply (all_impl isdigit), all_isdigit_uint; apply isdigit_numeric. }
  unfold str. destruct (Z.to_int z) as [u|u]; simpl.
  - apply Hu.
  - change (all numeric (NilZero.string_of_uint u) = true). apply Hu.
Qed.

Lemma lstrip_id s : all (fun c => negb (isspace c)) s = true -> lstrip s = s.
Proof.
  destruct s as [|c s]; simpl; [reflexivity|].
  intros H. apply andb_true_iff in H as [Hc _].
  apply negb_true_iff in Hc. now rewrite Hc.
Qed.

Lemma rstrip_id s : all (fun c => negb (isspace c)) s = true -> rstrip s = s.
Proof.
  induction s as [|c s IH]; simpl; [reflexivity|].
  intros H. apply andb_true_iff in H as [Hc Hs].
  apply negb_true_iff in Hc. rewrite (IH Hs), Hc. now destruct s.
Qed.

Lemma strip_numeric s : all numeric s = true -> strip s = s.
Proof.
  intros H.
  assert (H' : all (fun c => negb (isspace c)) s = true).
  { revert H. apply all_impl. intros c Hc. now rewrite (numeric_not_space c Hc). }
  unfold strip. now rewrite (lstrip_id s H'), (rstrip_id s H').
Qed.

Lemma digitpart_uint u :
  u <> Nil -> digitpart (NilEmpty.string_of_uint u) = Some u.
Proof.
  induction u as [|u IH|u IH|u IH|u IH|u IH|u IH|u IH|u IH|u IH|u IH];
    intros Hu; [congruence|..];
    (destruct (uint_eq_dec u Nil) as [->|Hn]; [reflexivity|];
     specialize (IH Hn);
     cbn [NilEmpty.string_of_uint] in *;
     destruct u; [congruence|..];
     cbn [NilEmpty.string_of_uint] in *;
     cbn [digitpart isdigit digit uint_of_char] in *;
     cbn [Ascii.eqb Bool.eqb] in *;
     now rewrite IH).
Qed.

Lemma digitpart_zero_uint u :
  exists u', digitpart (NilZero.string_of_uint u) = Some u' /\ Z.of_uint u' = Z.of_uint u.
Proof.
  destruct (uint_eq_dec u Nil) as [->|Hn].
  - exists (D0 Nil). split; reflexivity.
  - exists u. split; [|reflexivity].
    rewrite <- (digitpart_uint u Hn). now destruct u.
Qed.

(** Reading back what [str] printed gives the integer. *)
Lemma int_str z : Py.int (str z) = Some z.
Proof.
  unfold Py.int. rewrite (strip_numeric _ (all_numeric_str z)).
  unfold str. rewrite <- (DecimalZ.of_to z) at 2.
  destruct (Z.to_int z) as [u|u]; cbn [NilZero.string_of_int Z.of_int].
  - destruct (digitpart_zero_uint u) as (u' & Hd & Hv).
    assert (Hs : exists c r, NilZero.string_of_uint u = String c r /\ isdigit c = true).
    { destruct u; simpl; eauto. }
    destruct Hs as (c & r & Hcr & Hc). rewrite Hcr in *.
    destruct c as [[] [] [] [] [] [] [] []]; try discriminate Hc;
      now rewrite Hd, Hv.
  - destruct (digitpart_zero_uint u) as (u' & Hd & Hv). now rewrite Hd, Hv.
Qed.

Lemma str_inj z1 z2 : str z1 = str z2 -> z1 = z2.
Proof.
  intros H. apply (f_equal Py.int) in H. rewrite !int_str in H. congruence.
Qed.

(** *** Replacing *)

Lemma append_assoc (a b c : string) : (a ++ b) ++ c = a ++ b ++ c.
Proof. induction a as [|x a IH]; simpl; [reflexivity|]. now rewrite IH. Qed.

Lemma drop_0 s : drop 0 s = s.
Proof. reflexivity. Qed.

Lemma drop_app_length a b : drop (String.length a) (a ++ b) = b.
Proof. induction a as [|x a IH]; simpl; [apply drop_0 | exact IH]. Qed.

Lemma length_drop n s : String.length (drop n s) = String.length s - n.
Proof.
  revert s. induction n as [|n IH]; intros s.
  - rewrite drop_0. lia.
  - destruct s as [|x s]; simpl; [reflexivity | apply IH].
Qed.

Lemma length_append (a b : string) :
  String.length (a ++ b) = String.length a + String.length b.
Proof. induction a as [|x a IH]; simpl; [reflexivity|]. now rewrite IH. Qed.

Lemma contains_tail a p s : contains (a ++ p) s = true -> contains p s = true.
Proof.
  intros H. apply contains_split in H as (x & y & ->).
  rewrite append_assoc, <- (append_assoc x a). apply contains_intro.
Qed.

Lemma replace_from_drop old new n s :
  replace_from old new n s = replace_from old new 0 (drop n s).
Proof.
  revert n. induction s as [|x s IH]; intros [|n]; try reflexivity.
  simpl. apply IH.
Qed.

Section Replace.
Variables (a : ascii) (oldt new : string).
Let old := String a oldt.

Lemma replace_step s :
  replace_from old new 0 s =
  if startswith old s
  then new ++ replace_from old new 0 (drop (String.length old) s)
  else match s with
       | EmptyString => EmptyString
       | String x s' => String x (replace_from old new 0 s')
       end.
Proof.
  destruct s as [|x s']; [reflexivity|].
  cbn [replace_from]. destruct (startswith old (String x s')); [|reflexivity].
  f_equal. rewrite replace_from_drop. unfold old in *. simpl. now rewrite Nat.sub_0_r.
Qed.

(** A prefix free of the first character of [new] was there before. *)
Lemma startswith_replace_back c newt p s :
  new = String c newt ->
  all (fun y => negb (Ascii.eqb y c)) p = true ->
  startswith p (replace_from old new 0 s) = true -> startswith p s = true.
Proof.
  intros Hnew. revert s. induction p as [|y p IH]; intros s Hall H; [reflexivity|].
  simpl in Hall. apply andb_true_iff in Hall as [Hy Hp].
  apply negb_true_iff in Hy.
  rewrite replace_step in H. destruct (startswith old s) eqn:E.
  - rewrite Hnew in H. simpl in H. rewrite Hy in H. discriminate.
  - destruct s as [|x s']; [discriminate|]. simpl in H |- *.
    apply andb_true_iff in H as [Hx H]. rewrite Hx. simpl. now apply IH.
Qed.

(** After the replacement no occurrence of [old] is left, when the
    first character of [new] is not in the tail of [old] and the first
    character of [old] is not in [new]. *)
Lemma contains_old_replace c newt :
  new = String c newt ->
  all (fun y => negb (Ascii.eqb y c)) oldt = true ->
  all (fun y => negb (Ascii.eqb y a)) new = true ->
  forall s, contains old (replace_from old new 0 s) = false.
Proof.
  intros Hnew Hc Ha s.
  remember (String.length s) as n eqn:Hn.
  assert (Hle : String.length s <= n) by lia. clear Hn.
  revert s Hle. induction n as [|n IH]; intros s Hle.
  - destruct s; [reflexivity | simpl in Hle; lia].
  - rewrite replace_step. destruct (startswith old s) eqn:E.
    + rewrite (contains_skip_run (fun y => negb (Ascii.eqb y a))); [|
        unfold old in *; simpl; now rewrite Ascii.eqb_refl | exact Ha].
      apply IH. destruct s as [|x s']; [discriminate|].
      rewrite length_drop. unfold old in *. simpl in *. lia.
    + destruct s as [|x s']; [reflexivity|].
      rewrite contains_cons. rewrite IH by (simpl in Hle; lia).
      rewrite orb_false_r.
      destruct (startswith old (String x (replace_from old new 0 s'))) eqn:E'; [|reflexivity].
      unfold old in *. simpl in E, E'. apply andb_true_iff in E' as [Hx E'].
      rewrite Hx in E. simpl in E.
      now rewrite (startswith_replace_back c newt oldt s' Hnew Hc E') in E.
Qed.

Lemma startswith_long h p x r :
  all (fun y => negb (Ascii.eqb y h)) p = true ->
  startswith p (x ++ String h r) = true -> exists x2, x = p ++ x2.
Proof.
  revert x. induction p as [|y p IH]; intros x Hall H.
  - now exists x.
  - simpl in Hall. apply andb_true_iff in Hall as [Hy Hp].
    apply negb_true_iff in Hy.
    destruct x as [|c x]; simpl in H.
    + rewrite Hy in H. discriminate.
    + apply andb_true_iff in H as [Hc H]. apply Ascii.eqb_eq in Hc. subst c.
      destruct (IH x Hp H) as [x2 ->]. now exists x2.
Qed.

(** An occurrence of a longer pattern [P] that ends with [old] is
    replaced where it stands, when the first character of [P] is not in
    [old]. *)
Lemma replace_marked h Pt Pnew :
  all (fun y => negb (Ascii.eqb y h)) old = true ->
  (forall y, replace_from old new 0 (String h Pt ++ y)
             = Pnew ++ replace_from old new 0 y) ->
  forall x y, exists x',
    replace_from old new 0 (x ++ String h Pt ++ y)
    = x' ++ Pnew ++ replace_from old new 0 y.
Proof.
  intros Hh HP x y.
  remember (String.length x) as n eqn:Hn.
  assert (Hle : String.length x <= n) by lia. clear Hn.
  revert x Hle. induction n as [|n IH]; intros x Hle.
  - destruct x; [|simpl in Hle; lia]. exists EmptyString. apply HP.
  - destruct x as [|c x]; [exists EmptyString; apply HP|].
    rewrite replace_step.
    destruct (startswith old (String c x ++ String h Pt ++ y)) eqn:E.
    + apply (startswith_long h old (String c x)) in E as [x2 Hx]; [|exact Hh].
      rewrite Hx, append_assoc, drop_app_length.
      destruct (IH x2) as [x' Hx'].
      { apply (f_equal String.length) in Hx. rewrite length_append in Hx.
        unfold old in *. simpl in *. lia. }
      exists (new ++ x'). now rewrite Hx', append_assoc.
    + destruct (IH x) as [x' Hx']; [simpl in Hle; lia|].
      exists (String c x').
      change (String c x ++ String h Pt ++ y) with (String c (x ++ String h Pt ++ y)).
      cbv beta iota. now rewrite Hx'.
Qed.
(** A run free of the first character of [old] is copied. *)
Lemma replace_skip_run x y :
  all (fun c => negb (Ascii.eqb c a)) x = true ->
  replace_from old new 0 (x ++ y) = x ++ replace_from old new 0 y.
Proof.
  induction x as [|c x IH]; intros H; [reflexivity|].
  simpl in H. apply andb_true_iff in H as [Hc Hx]. apply negb_true_iff in Hc.
  change (String c x ++ y) with (String c (x ++ y)).
  cbn [replace_from startswith old]. rewrite Ascii.eqb_sym, Hc. cbn [andb].
  now rewrite (IH Hx).
Qed.

End Replace.

(** The siblings of a self-attention query key: the key derived by
    [replace] carries the sibling pattern and no query pattern. *)
Lemma replace_q_sibling c k :
  (c = "k" \/ c = "v")%char ->
  contains "SelfAttention.q.weight" k = true ->
  contains (String "S" ("elfAttention." ++ String c ".weight"))
           (replace k "q.weight" (String c ".weight")) = true /\
  contains "SelfAttention.q.weight" (replace k "q.weight" (String c ".weight")) = false.
Proof.
  intros Hc Hk. split.
  - apply contains_split in Hk as (x & y & ->). unfold replace.
    destruct (replace_marked "q" ".weight" (String c ".weight") "S"
                "elfAttention.q.weight"
                (String "S" ("elfAttention." ++ String c ".weight"))) with (x := x) (y := y)
      as [x' Hx'].
    + reflexivity.
    + intros y'. reflexivity.
    + change ("SelfAttention.q.weight" ++ y) with (String "S" "elfAttention.q.weight" ++ y).
      rewrite Hx'. apply contains_intro.
  - destruct (contains "SelfAttention.q.weight" (replace k "q.weight" (String c ".weight"))) eqn:E;
      [|reflexivity].
    apply (contains_tail "SelfAttention." "q.weight") in E.
    unfold replace in E.
    rewrite (contains_old_replace "q" ".weight" (String c ".weight") c ".weight") in E.
    + discriminate.
    + reflexivity.
    + destruct Hc as [-> | ->]; reflexivity.
    + destruct Hc as [-> | ->]; reflexivity.
Qed.

End PyFacts.

(** ** Dictionaries *)

Section DictFacts.
Context {V : Type}.
Implicit Types (d : dict V) (k : string) (v : V).

Lemma get_setitem d k v k' :
  get (setitem d k v) k' = if String.eqb k k' then Some v else get d k'.
Proof.
  induction d as [|[k0 v0] d IH]; simpl.
  - reflexivity.
  - destruct (String.eqb_spec k0 k) as [->|Hk0]; simpl.
    + now destruct (String.eqb_spec k k').
    + destruct (String.eqb_spec k0 k') as [->|]; [|exact IH].
      destruct (String.eqb_spec k k'); congruence.
Qed.

Lemma get_setitem_eq d k v : get (setitem d k v) k = Some v.
Proof. now rewrite get_setitem, String.eqb_refl. Qed.

Lemma get_setitem_neq d k v k' : k <> k' -> get (setitem d k v) k' = get d k'.
Proof.
  intros H. rewrite get_setitem. now destruct (String.eqb_spec k k').
Qed.

Lemma get_Some_iff_keys d k : In k (keys d) <-> exists v, get d k = Some v.
Proof.
  induction d as [|[k0 v0] d IH]; simpl.
  - split; [tauto | intros [v H]; discriminate].
  - destruct (String.eqb_spec k0 k) as [->|Hk].
    + split; eauto.
    + rewrite IH. split; [intros [H|H]; [congruence | exact H] | auto].
Qed.

Lemma keys_setitem d k v k' :
  In k' (keys (setitem d k v)) <-> k' = k \/ In k' (keys d).
Proof.
  rewrite !get_Some_iff_keys, get_setitem.
  destruct (String.eqb_spec k k') as [->|Hk].
  - split; eauto.
  - split; [auto | intros [H|H]; [congruence | exact H]].
Qed.
End DictFacts.

(** ** The loop body, one key at a time *)

Section BodyFacts.
Context {A : Type}.
Implicit Types (hf_weights : dict (tensor A)) (k : string) (v : tensor A) (st : state A).

Lemma extend_nil st : extend st [] [] = st.
Proof. destruct st. unfold extend. simpl. now rewrite app_nil_r. Qed.

Lemma framed_pass : @framed A pass.
Proof. intros st. cbn. now rewrite extend_nil. Qed.

Lemma framed_raise e : @framed A (raise e).
Proof. intros st. reflexivity. Qed.

Lemma framed_set key t : @framed A (set_nemo_weights key t).
Proof. intros st. unfold extend. cbn. now rewrite app_nil_r. Qed.

Lemma framed_set_print key t line :
  @framed A (set_nemo_weights key t ;; print line).
Proof. intros st. reflexivity. Qed.

Lemma framed_if (b : bool) (c1 c2 : M A unit) :
  @framed A c1 -> @framed A c2 -> @framed A (if b then c1 else c2).
Proof. now destruct b. Qed.

Lemma framed_lift {T : Type} (r : result T) (f : T -> M A unit) :
  (forall x, @framed A (f x)) -> @framed A (x <- lift r ;; f x).
Proof.
  intros H st. unfold bind, lift. destruct r as [e|x]; [reflexivity|].
  apply H.
Qed.

Ltac framed_step :=
  first [ apply framed_if
        | apply framed_pass
        | apply framed_raise
        | apply framed_set_print
        | apply framed_set
        | apply framed_lift; intros [[? ?] ?]
        | apply framed_lift; intros ? ].

Lemma framed_body hf_weights k v : @framed A (body hf_weights k v).
Proof. unfold body. repeat framed_step. Qed.

(** Handling a key assigns to [nemo_weights] and prints, whatever the
    state; an exception leaves the state as it was. *)
Lemma body_frame hf_weights k v st :
  body hf_weights k v st =
  match emit hf_weights k v with
  | inl e => (Err e, st)
  | inr (w, out) => (OK tt, extend st w out)
  end.
Proof.
  rewrite (framed_body hf_weights k v st). unfold emit.
  now destruct (body hf_weights k v blank) as [[e|[]] st'].
Qed.

End BodyFacts.

(** ** Fusing tensors *)

Section TensorFacts.
Context {A : Type}.
Implicit Types (t q kw vw : tensor A).

Lemma shape_eqb_refl sh : shape_eqb sh sh = true.
Proof. induction sh; simpl; [reflexivity|]. now rewrite Nat.eqb_refl. Qed.

Lemma firstn_length_app (a b : list A) n : n = length a -> firstn n (a ++ b) = a.
Proof.
  intros ->. rewrite firstn_app, Nat.sub_diag, firstn_all. simpl.
  apply app_nil_r.
Qed.

Lemma skipn_length_app (a b : list A) n : n = length a -> skipn n (a ++ b) = b.
Proof.
  intros ->. rewrite skipn_app, Nat.sub_diag, skipn_all. reflexivity.
Qed.

(** Three tensors of shape [(H, W)] fuse into one of shape [(3H, W)] that
    holds them in the order given. *)
Lemma torch_cat_3 q kw vw H W :
  shape q = [H; W] -> shape kw = [H; W] -> shape vw = [H; W] ->
  well_formed q = true -> well_formed kw = true -> well_formed vw = true ->
  exists fused,
    torch_cat [q; kw; vw] = OK fused /\
    shape fused = [3 * H; W] /\
    rows fused 0 H = q /\
    rows fused H (2 * H) = kw /\
    rows fused (2 * H) (3 * H) = vw.
Proof.
  unfold well_formed. intros Sq Sk Sv Wq Wk Wv.
  apply Nat.eqb_eq in Wq, Wk, Wv. rewrite Sq in Wq. rewrite Sk in Wk. rewrite Sv in Wv.
  unfold numel in Wq, Wk, Wv. simpl in Wq, Wk, Wv.
  exists {| shape := [3 * H; W]; data := data q ++ data kw ++ data vw |}.
  split.
  - unfold torch_cat, cat_skipped, dim0. simpl. rewrite Sq, Sk, Sv. simpl.
    rewrite Sq, Sk, Sv. simpl.
    rewrite Nat.eqb_refl. simpl. rewrite app_nil_r. reflexivity.
  - split; [reflexivity|].
    unfold rows, dim0, numel. simpl.
    destruct q as [sq dq], kw as [sk dk], vw as [sv dv]. simpl in *. subst sq sk sv.
    repeat split; f_equal.
    + f_equal. lia.
    + apply firstn_length_app. rewrite Wq. nia.
    + f_equal. lia.
    + rewrite skipn_length_app by (rewrite Wq; nia).
      apply firstn_length_app. rewrite Wk. nia.
    + f_equal. lia.
    + rewrite skipn_app, skipn_all2 by (rewrite Wq; nia). simpl.
      rewrite skipn_length_app by (rewrite Wq, Wk; nia).
      rewrite firstn_all2; [reflexivity | rewrite Wv; nia].
Qed.

(** Two tensors of shape [(H, W)] fuse into one of shape [(2H, W)]. *)
Lemma torch_cat_2 kw vw H W :
  shape kw = [H; W] -> shape vw = [H; W] ->
  well_formed kw = true -> well_formed vw = true ->
  exists fused,
    torch_cat [kw; vw] = OK fused /\
    shape fused = [2 * H; W] /\
    rows fused 0 H = kw /\
    rows fused H (2 * H) = vw.
Proof.
  unfold well_formed. intros Sk Sv Wk Wv.
  apply Nat.eqb_eq in Wk, Wv. rewrite Sk in Wk. rewrite Sv in Wv.
  unfold numel in Wk, Wv. simpl in Wk, Wv.
  exists {| shape := [2 * H; W]; data := data kw ++ data vw |}.
  split.
  - unfold torch_cat, cat_skipped, dim0. simpl. rewrite Sk, Sv. simpl.
    rewrite Sk, Sv. simpl.
    rewrite Nat.eqb_refl. simpl. rewrite app_nil_r. reflexivity.
  - split; [reflexivity|].
    unfold rows, dim0, numel. simpl.
    destruct kw as [sk dk], vw as [sv dv]. simpl in *. subst sk sv.
    repeat split; f_equal.
    + f_equal. lia.
    + apply firstn_length_app. rewrite Wk. nia.
    + f_equal. lia.
    + rewrite skipn_length_app by (rewrite Wk; nia).
      rewrite firstn_all2; [reflexivity | rewrite Wv; nia].
Qed.

End TensorFacts.

(** ** Which rule a key reaches *)

Lemma exact_matches_none k : is_exact k = true -> matches_none patterns k = true.
Proof.
  unfold is_exact, exact_keys. cbn [existsb]. intros H.
  repeat (apply orb_true_iff in H as [H|H];
          [apply String.eqb_eq in H; subst k; vm_compute; reflexivity|]).
  discriminate.
Qed.

Lemma pattern_not_exact p k :
  In p patterns -> Py.contains p k = true -> is_exact k = false.
Proof.
  intros Hp Hc. destruct (is_exact k) eqn:E; [|reflexivity].
  apply exact_matches_none in E. unfold matches_none in E.
  rewrite forallb_forall in E. specialize (E p Hp). now rewrite Hc in E.
Qed.

(** Turns [is_exact k = false] and [matches_none ps k = true] into one
    equation by comparison, and rewrites the chain with them. *)
Ltac open_tests :=
  repeat match goal with
         | H : is_exact _ = false |- _ =>
             unfold is_exact, exact_keys in H; cbn [existsb] in H
         | H : matches_none _ _ = true |- _ =>
             unfold matches_none, patterns, self_attention_patterns,
               cross_attention_patterns, ffn_patterns in H;
             simpl in H
         | H : (_ || _)%bool = false |- _ => apply orb_false_iff in H as [? ?]
         | H : (_ && _)%bool = true |- _ => apply andb_true_iff in H as [? ?]
         | H : negb _ = true |- _ => apply negb_true_iff in H
         end.

Ltac run_chain :=
  unfold body;
  repeat match goal with
         | H : String.eqb _ _ = false |- _ => rewrite H; clear H
         | H : Py.contains _ _ = _ |- _ => rewrite H; clear H
         end;
  cbn [orb andb negb].

Section KeyRules.
Context {A : Type}.
Implicit Types (hf_weights : dict (tensor A)) (k : string) (v : tensor A) (st : state A).

Lemma body_unmatched hf_weights k v st :
  unmatched k = true ->
  body hf_weights k v st = (Err (ValueError ("Unknown key: " ++ k)), st).
Proof.
  unfold unmatched. intros H. apply andb_true_iff in H as [He Hp].
  apply negb_true_iff in He. open_tests. run_chain. reflexivity.
Qed.

Lemma body_self_attention_q hf_weights k v st :
  Py.contains "SelfAttention.q.weight" k = true ->
  body hf_weights k v st =
  ('(model_type, block_number, layer_number) <- lift (_get_model_type_block_layer k) ;;
   k_weight <- lift (getitem hf_weights (Py.replace k "q.weight" "k.weight")) ;;
   v_weight <- lift (getitem hf_weights (Py.replace k "q.weight" "v.weight")) ;;
   concat_weights <- lift (torch_cat [v; k_weight; v_weight]) ;;
   set_nemo_weights
     ("enc_dec_model.enc_dec_model." ++ model_type ++ ".model.layers." ++ Py.str block_number ++ ".self_attention.query_key_value.weight")
     concat_weights ;;
   print ("Mapped " ++ k ++ " to enc_dec_model.enc_dec_model." ++ model_type ++ ".model.layers." ++ Py.str block_number ++ ".self_attention.query_key_value.weight")) st.
Proof.
  intros Hq.
  assert (He : is_exact k = false).
  { apply (pattern_not_exact "SelfAttention.q.weight"); [|exact Hq].
    vm_compute. tauto. }
  open_tests. run_chain. reflexivity.
Qed.

Lemma body_self_attention_kv hf_weights k v st :
  Py.contains "SelfAttention.q.weight" k = false ->
  Py.contains "SelfAttention.k.weight" k || Py.contains "SelfAttention.v.weight" k = true ->
  body hf_weights k v st = (OK tt, st).
Proof.
  intros Hq Hkv.
  assert (He : is_exact k = false).
  { apply orb_true_iff in Hkv as [H|H];
      [apply (pattern_not_exact "SelfAttention.k.weight")
      |apply (pattern_not_exact "SelfAttention.v.weight")];
      try exact H; vm_compute; tauto. }
  open_tests. unfold body.
  repeat match goal with
         | H : String.eqb _ _ = false |- _ => rewrite H; clear H
         end.
  rewrite Hq, Hkv. reflexivity.
Qed.

Lemma body_cross_attention_k hf_weights k v st :
  matches_none self_attention_patterns k = true ->
  Py.contains "EncDecAttention.k.weight" k = true ->
  body hf_weights k v st =
  ('(model_type, block_number, layer_number) <- lift (_get_model_type_block_layer k) ;;
   v_weight <- lift (getitem hf_weights (Py.replace k "k.weight" "v.weight")) ;;
   concat_weights <- lift (torch_cat [v; v_weight]) ;;
   set_nemo_weights
     ("enc_dec_model.enc_dec_model.decoder.model.layers." ++ Py.str block_number ++ ".inter_attention.key_value.weight")
     concat_weights ;;
   print ("Mapped " ++ k ++ " to enc_dec_model.enc_dec_model.decoder.model.layers." ++ Py.str block_number ++ ".inter_attention.key_value.weight")) st.
Proof.
  intros Hs Hk.
  assert (He : is_exact k = false).
  { apply (pattern_not_exact "EncDecAttention.k.weight"); [|exact Hk].
    vm_compute. tauto. }
  open_tests. run_chain. reflexivity.
Qed.

Lemma body_cross_attention_q hf_weights k v st :
  matches_none self_attention_patterns k = true ->
  Py.contains "EncDecAttention.k.weight" k = false ->
  Py.contains "EncDecAttention.v.weight" k = false ->
  Py.contains "EncDecAttention.q.weight" k = true ->
  body hf_weights k v st =
  ('(model_type, block_number, layer_number) <- lift (_get_model_type_block_layer k) ;;
   set_nemo_weights
     ("enc_dec_model.enc_dec_model.decoder.model.layers." ++ Py.str block_number ++ ".inter_attention.query.weight")
     v ;;
   print ("Mapped " ++ k ++ " to enc_dec_model.enc_dec_model.decoder.model.layers." ++ Py.str block_number ++ ".inter_attention.query.weight")) st.
Proof.
  intros Hs Hk Hv Hq.
  assert (He : is_exact k = false).
  { apply (pattern_not_exact "EncDecAttention.q.weight"); [|exact Hq].
    vm_compute. tauto. }
  open_tests. run_chain. reflexivity.
Qed.

Lemma body_layer_norm hf_weights k v st :
  matches_none (self_attention_patterns ++ cross_attention_patterns ++ ffn_patterns) k = true ->
  Py.contains "layer_norm" k = true ->
  body hf_weights k v st =
  (if Py.contains "final" k then
     let model_type := if Py.startswith "encoder" k then "encoder" else "decoder" in
     set_nemo_weights ("enc_dec_model.enc_dec_model." ++ model_type ++ ".model.final_layernorm.weight") v ;;
     print ("Mapped " ++ k ++ " to enc_dec_model.enc_dec_model." ++ model_type ++ ".model.final_layernorm.weight")
   else
     '(model_type, block_number, layer_number) <- lift (_get_model_type_block_layer k) ;;
     match layer_norm_role model_type layer_number with
     | Some role =>
         set_nemo_weights
           ("enc_dec_model.enc_dec_model." ++ model_type ++ ".model.layers." ++ Py.str block_number ++ "." ++ role ++ ".weight")
           v ;;
         print ("Mapped " ++ k ++ " to enc_dec_model.enc_dec_model." ++ model_type ++ ".model.layers." ++ Py.str block_number ++ "." ++ role ++ ".weight")
     | None => raise (ValueError ("Unknown layer_norm key: " ++ k))
     end) st.
Proof.
  intros Hs Hn.
  assert (He : is_exact k = false).
  { apply (pattern_not_exact "layer_norm"); [|exact Hn]. vm_compute. tauto. }
  open_tests. run_chain.
  destruct (Py.contains "final" k); [reflexivity|].
  unfold bind, lift. destruct (_get_model_type_block_layer k) as [e|[[mt b] l]] eqn:E;
    [reflexivity|].
  assert (Hmt : mt = "encoder" \/ mt = "decoder").
  { unfold _get_model_type_block_layer in E.
    destruct (Py.startswith "encoder" k); [|destruct (Py.startswith "decoder" k)];
      cbn [rbind OK Err] in E; [| |discriminate];
      destruct (index (Py.split "." k) 2) as [|s2]; cbn [rbind] in E; try discriminate;
      destruct (int s2); cbn [rbind] in E; try discriminate;
      destruct (index (Py.split "." k) 4) as [|s4]; cbn [rbind] in E; try discriminate;
      destruct (int s4); cbn [rbind OK] in E; try discriminate;
      injection E as <- _ _; auto. }
  unfold layer_norm_role.
  destruct Hmt as [-> | ->]; cbn [String.eqb Ascii.eqb Bool.eqb andb];
    destruct l as [|[[]|[]|]|]; reflexivity.
Qed.

Lemma leaves_pass key : @leaves A key pass.
Proof. intros st r st' [= _ <-]. reflexivity. Qed.

Lemma leaves_raise key e : @leaves A key (raise e).
Proof. intros st r st' [= _ <-]. reflexivity. Qed.

Lemma leaves_set key key' t :
  String.eqb key' key = false -> @leaves A key (set_nemo_weights key' t).
Proof.
  intros H st r st' [= _ <-]. cbn. apply get_setitem_neq.
  now apply String.eqb_neq.
Qed.

Lemma leaves_set_print key key' t line :
  String.eqb key' key = false -> @leaves A key (set_nemo_weights key' t ;; print line).
Proof.
  intros H st r st' [= _ <-]. cbn. apply get_setitem_neq.
  now apply String.eqb_neq.
Qed.

Lemma leaves_if key (b : bool) c1 c2 :
  @leaves A key c1 -> @leaves A key c2 -> @leaves A key (if b then c1 else c2).
Proof. now destruct b. Qed.

Lemma leaves_lift {T : Type} key (r : result T) (f : T -> M A unit) :
  (forall x, @leaves A key (f x)) -> @leaves A key (x <- lift r ;; f x).
Proof.
  intros H st r' st'. unfold bind, lift. destruct r as [e|x].
  - intros [= _ <-]. reflexivity.
  - apply H.
Qed.

End KeyRules.

Ltac leaves_step :=
  first [ apply leaves_if
        | apply leaves_pass
        | apply leaves_raise
        | apply leaves_set_print; reflexivity
        | apply leaves_set; reflexivity
        | apply leaves_lift; intros [[? ?] ?]
        | apply leaves_lift; intros ? ].

(** ** Keys of the source naming scheme *)

Section SchemeKeys.
Import PyFacts.

Lemma numeric_nat_str n : Py.all Py.numeric (nat_str n) = true.
Proof. apply all_numeric_str. Qed.

Lemma no_dot_numeric d :
  Py.all Py.numeric d = true -> Py.all (fun c => negb (Ascii.eqb c ".")) d = true.
Proof. apply all_impl, numeric_not_dot. Qed.

Lemma int_nat_str n : int (nat_str n) = OK (Z.of_nat n).
Proof. unfold int, nat_str. now rewrite int_str. Qed.

Lemma split_block_key m d l leaf :
  Py.all Py.numeric d = true -> Py.all Py.numeric l = true ->
  exists tl, Py.split "." (block_key m d l leaf)
             = module_name m :: "block" :: d :: "layer" :: l :: tl.
Proof.
  intros Hd Hl. exists (Py.split "." leaf). unfold block_key.
  change (module_name m ++ ".block." ++ d ++ ".layer." ++ l ++ "." ++ leaf)
    with (module_name m ++ String "." ("block" ++ String "." (d ++ String "."
            ("layer" ++ String "." (l ++ String "." leaf))))).
  rewrite split_app_sep by (destruct m; reflexivity).
  rewrite split_app_sep by reflexivity.
  rewrite split_app_sep by (now apply no_dot_numeric).
  rewrite split_app_sep by reflexivity.
  rewrite split_app_sep by (now apply no_dot_numeric).
  reflexivity.
Qed.

(** The helper reads the module, the block and the sub-layer of a block
    key. *)
Lemma parse_block_key m d l leaf b lz :
  Py.all Py.numeric d = true -> Py.all Py.numeric l = true ->
  Py.int d = Some b -> Py.int l = Some lz ->
  _get_model_type_block_layer (block_key m d l leaf) = OK (module_name m, b, lz).
Proof.
  intros Hd Hl Hb Hlz. unfold _get_model_type_block_layer.
  destruct (split_block_key m d l leaf Hd Hl) as [tl ->].
  unfold index, int. cbn [nth_error rbind OK]. rewrite Hb, Hlz. cbn [rbind OK].
  now destruct m.
Qed.

(** The patterns of the chain, and the mark of a final normalization, are
    looked for in the leaf only. *)
Lemma contains_block_key p m d l leaf :
  In p ("final" :: patterns) ->
  Py.all Py.numeric d = true -> Py.all Py.numeric l = true ->
  Py.contains p (block_key m d l leaf) = Py.contains p leaf.
Proof.
  intros Hp Hd Hl. unfold block_key.
  assert (Hskip : forall x y, Py.all Py.numeric x = true ->
                    Py.head_fails Py.numeric p = true ->
                    Py.contains p (x ++ y) = Py.contains p y).
  { intros x y Hx Hh. now apply (contains_skip_run Py.numeric). }
  unfold patterns, self_attention_patterns, cross_attention_patterns, ffn_patterns in Hp.
  simpl in Hp.
  repeat (destruct Hp as [<-|Hp];
          [destruct m; cbn [module_name];
           simpl; rewrite (Hskip d) by (assumption || reflexivity);
           simpl; rewrite (Hskip l) by (assumption || reflexivity);
           simpl; reflexivity|]).
  contradiction.
Qed.

Lemma app_numeric_dot_inj d d' r r' :
  Py.all Py.numeric d = true -> Py.all Py.numeric d' = true ->
  d ++ String "." r = d' ++ String "." r' -> d = d' /\ r = r'.
Proof.
  revert d'. induction d as [|c d IH]; intros [|c' d'] Hd Hd' H; simpl in *.
  - injection H as ->. now split.
  - injection H as <- _. apply andb_true_iff in Hd' as [Hc _].
    now apply numeric_not_dot in Hc.
  - injection H as -> _. apply andb_true_iff in Hd as [Hc _].
    now apply numeric_not_dot in Hc.
  - injection H as -> H. apply andb_true_iff in Hd as [_ Hd].
    apply andb_true_iff in Hd' as [_ Hd'].
    destruct (IH d' Hd Hd' H) as [-> ->]. now split.
Qed.

(** A block key determines its module, block, sub-layer and leaf. *)
Lemma block_key_inj m d l leaf m' d' l' leaf' :
  Py.all Py.numeric d = true -> Py.all Py.numeric l = true ->
  Py.all Py.numeric d' = true -> Py.all Py.numeric l' = true ->
  block_key m d l leaf = block_key m' d' l' leaf' ->
  m = m' /\ d = d' /\ l = l' /\ leaf = leaf'.
Proof.
  intros Hd Hl Hd' Hl' H. unfold block_key in H.
  assert (Hm : m = m') by (destruct m, m'; simpl in H; congruence).
  subst m'. split; [reflexivity|].
  assert (H1 : d ++ String "." ("layer." ++ l ++ "." ++ leaf)
               = d' ++ String "." ("layer." ++ l' ++ "." ++ leaf')).
  { destruct m; simpl in H; injection H as H; exact H. }
  apply app_numeric_dot_inj in H1 as [-> H1]; try assumption.
  split; [reflexivity|].
  simpl in H1. injection H1 as H1.
  change (l ++ String "." leaf = l' ++ String "." leaf') in H1.
  now apply app_numeric_dot_inj in H1.
Qed.

Lemma is_exact_block_key m d l leaf :
  Py.all Py.numeric d = true -> Py.all Py.numeric l = true ->
  is_exact (block_key m d l leaf) = true ->
  d = "0" /\ l = "0" /\ leaf = "SelfAttention.relative_attention_bias.weight".
Proof.
  intros Hd Hl H. unfold is_exact, exact_keys in H. cbn [existsb] in H.
  repeat (apply orb_true_iff in H as [H|H];
          [try (destruct m; discriminate H)|]); try discriminate H.
  - apply String.eqb_eq in H.
    change "encoder.block.0.layer.0.SelfAttention.relative_attention_bias.weight"
      with (block_key Encoder "0" "0" "SelfAttention.relative_attention_bias.weight") in H.
    now apply block_key_inj in H as (_ & -> & -> & ->).
  - apply String.eqb_eq in H.
    change "decoder.block.0.layer.0.SelfAttention.relative_attention_bias.weight"
      with (block_key Decoder "0" "0" "SelfAttention.relative_attention_bias.weight") in H.
    now apply block_key_inj in H as (_ & -> & -> & ->).
Qed.

Lemma matches_none_block_key ps m d l leaf :
  incl ps patterns ->
  Py.all Py.numeric d = true -> Py.all Py.numeric l = true ->
  matches_none ps (block_key m d l leaf) = matches_none ps leaf.
Proof.
  intros Hps Hd Hl. unfold matches_none.
  induction ps as [|p ps IH]; [reflexivity|].
  cbn [forallb]. rewrite contains_block_key; try assumption.
  - rewrite IH; [reflexivity|]. intros q Hq. apply Hps. now right.
  - right. apply Hps. now left.
Qed.

(** The names of the siblings are those [replace] derives. *)
Lemma replace_self_attention_q m b c :
  (c = "k" \/ c = "v")%char ->
  Py.replace (block_key m (nat_str b) "0" "SelfAttention.q.weight") "q.weight" (String c ".weight")
  = block_key m (nat_str b) "0" ("SelfAttention." ++ String c ".weight").
Proof.
  intros Hc. unfold Py.replace, block_key.
  change (module_name m ++ ".block." ++ nat_str b ++ ".layer." ++ "0" ++ "." ++ "SelfAttention.q.weight")
    with (module_name m ++ ".block." ++ nat_str b ++ ".layer.0.SelfAttention." ++ "q.weight").
  rewrite <- !append_assoc.
  rewrite replace_skip_run.
  - rewrite !append_assoc. now destruct Hc as [-> | ->].
  - rewrite !all_app.
    rewrite (numeric_free "q" (nat_str b) eq_refl (numeric_nat_str b)).
    now destruct m.
Qed.

Lemma replace_cross_attention_k b :
  Py.replace (block_key Decoder (nat_str b) "1" "EncDecAttention.k.weight") "k.weight" "v.weight"
  = block_key Decoder (nat_str b) "1" "EncDecAttention.v.weight".
Proof.
  unfold Py.replace, block_key. cbn [module_name].
  set (rest := "." ++ nat_str b ++ ".layer.1.EncDecAttention." ++ "k.weight").
  change ("decoder" ++ ".block." ++ nat_str b ++ ".layer." ++ "1" ++ "." ++ "EncDecAttention.k.weight")
    with ("decoder.bloc" ++ String "k" rest).
  rewrite replace_skip_run by reflexivity.
  rewrite replace_step.
  assert (Hno : Py.startswith "k.weight" (String "k" rest) = false).
  { subst rest. pose proof (numeric_nat_str b) as Hb.
    destruct (nat_str b) as [|x d]; [reflexivity|].
    simpl in Hb. apply andb_true_iff in Hb as [Hx _].
    destruct x as [[] [] [] [] [] [] [] []]; vm_compute in Hx; try discriminate Hx; reflexivity. }
  rewrite Hno.
  replace rest with (("." ++ nat_str b ++ ".layer.1.EncDecAttention.") ++ "k.weight")
    by (subst rest; now rewrite !append_assoc).
  rewrite replace_skip_run.
  - now rewrite !append_assoc.
  - rewrite !all_app.
    now rewrite (numeric_free "k" (nat_str b) eq_refl (numeric_nat_str b)).
Qed.

End SchemeKeys.

(** ** The whole loop *)

Section Run.
Context {A : Type}.
Implicit Types (hf_weights items : dict (tensor A)) (k : string) (st : state A).

Lemma extend_extend st w out w' out' :
  extend (extend st w out) w' out' = extend st (w ++ w')%list (out ++ out')%list.
Proof. unfold extend. cbn. now rewrite fold_left_app, app_assoc. Qed.

Lemma for_items_emits hf_weights items st :
  for_items items (body hf_weights) st =
  let '(w, out, oe) := emits hf_weights items in
  (match oe with Some e => Err e | None => OK tt end, extend st w out).
Proof.
  revert st. induction items as [|[k v] rest IH]; intros st; cbn [for_items emits].
  - cbn. now rewrite extend_nil.
  - unfold bind. rewrite body_frame.
    destruct (emit hf_weights k v) as [e|[w out]].
    + now rewrite extend_nil.
    + rewrite IH. destruct (emits hf_weights rest) as [[w' out'] oe].
      now rewrite extend_extend.
Qed.

Lemma convert_weights_emits hf_model path st :
  convert_weights hf_model path st =
  let '(w, out, oe) := emits (state_dict hf_model) (state_dict hf_model) in
  let st' := extend (started hf_model st) w out in
  match oe with
  | Some e => (Err e, st')
  | None => (OK (config hf_model),
             {| nemo_weights := nemo_weights st';
                stdout := (stdout st' ++ [("Saved weights to " ++ path)%string])%list;
                files := setitem (files st) path (nemo_weights st') |})
  end.
Proof.
  unfold convert_weights, bind at 1 2 3. cbn [print nemo_weights stdout files].
  fold (started hf_model st). unfold bind at 1. rewrite for_items_emits.
  destruct (emits (state_dict hf_model) (state_dict hf_model)) as [[w out] [e|]];
    reflexivity.
Qed.

(** A key whose handling raises makes the loop raise. *)
Lemma emits_raises hf_weights items k v e :
  In (k, v) items -> emit hf_weights k v = inl e ->
  exists e', snd (emits hf_weights items) = Some e'.
Proof.
  intros Hin He. induction items as [|[k0 v0] rest IH]; [contradiction|].
  cbn [emits]. destruct (emit hf_weights k0 v0) as [e0|[w out]] eqn:E0.
  - now exists e0.
  - destruct Hin as [[= -> ->]|Hin]; [congruence|].
    destruct (IH Hin) as [e' He']. exists e'.
    now destruct (emits hf_weights rest) as [[w' out'] oe].
Qed.

(** The loop raises the exception of the first key whose handling raises. *)
Lemma emits_first hf_weights pre k v post e :
  Forall (fun kv => exists r, emit hf_weights (fst kv) (snd kv) = OK r) pre ->
  emit hf_weights k v = inl e ->
  snd (emits hf_weights (pre ++ (k, v) :: post)%list) = Some e.
Proof.
  intros Hpre He. induction Hpre as [|[k0 v0] pre [[w out] H0] Hpre IH].
  - rewrite app_nil_l. cbn [emits]. now rewrite He.
  - rewrite <- app_comm_cons. cbn [emits]. cbn [fst snd] in H0. rewrite H0. unfold OK.
    now destruct (emits hf_weights (pre ++ (k, v) :: post)%list) as [[w' out'] oe].
Qed.

(** A run that raises writes no file. *)
Lemma convert_weights_raises hf_model path st e :
  snd (emits (state_dict hf_model) (state_dict hf_model)) = Some e ->
  exists st', convert_weights hf_model path st = (Err e, st') /\ files st' = files st.
Proof.
  intros H. rewrite convert_weights_emits.
  destruct (emits (state_dict hf_model) (state_dict hf_model)) as [[w out] oe].
  cbn [snd] in H. subst oe. eexists. split; reflexivity.
Qed.

Lemma emit_raises hf_weights k v e :
  (forall st, body hf_weights k v st = (Err e, st)) -> emit hf_weights k v = inl e.
Proof. intros H. unfold emit. now rewrite H. Qed.

End Run.

(** ** The order of the source keys *)

Section Order.
Context {A : Type}.
Implicit Types (hf_weights items w : dict (tensor A)) (k key : string) (st : state A).

Lemma keys_perm {V : Type} (d1 d2 : dict V) :
  Permutation d1 d2 -> Permutation (keys d1) (keys d2).
Proof. apply Permutation_map. Qed.

Lemma get_None_keys {V : Type} (d : dict V) key : ~ In key (keys d) -> get d key = None.
Proof.
  intros H. destruct (get d key) as [x|] eqn:E; [|reflexivity].
  exfalso. apply H. apply get_Some_iff_keys. now exists x.
Qed.

(** Looking a key up does not depend on the order of a dictionary. *)
Lemma get_perm {V : Type} (d1 d2 : dict V) key :
  Permutation d1 d2 -> NoDup (keys d1) -> get d1 key = get d2 key.
Proof.
  induction 1 as [|[k0 v0] d1 d2 Hp IH|[k0 v0] [k1 v1] d|d1 d2 d3 Hp1 IH1 Hp2 IH2];
    intros Hnd.
  - reflexivity.
  - cbn [get]. inversion Hnd; subst. now rewrite IH.
  - cbn [get]. inversion Hnd as [|? ? Hnot _]; subst. cbn [keys map fst] in Hnot.
    destruct (String.eqb_spec k0 key) as [->|]; [|reflexivity].
    destruct (String.eqb_spec k1 key) as [->|]; [|reflexivity].
    exfalso. apply Hnot. now left.
  - rewrite IH1 by assumption. apply IH2.
    apply (Permutation_NoDup (keys_perm _ _ Hp1) Hnd).
Qed.

(** Replaying assignments with distinct keys. *)
Lemma get_fold_setitem w (d : dict (tensor A)) key :
  NoDup (keys w) ->
  get (fold_left (fun d kt => setitem d (fst kt) (snd kt)) w d) key
  = match get w key with
    | Some t => Some t
    | None => get d key
    end.
Proof.
  revert d. induction w as [|[k0 t0] w IH]; intros d Hnd; [reflexivity|].
  inversion Hnd as [|? ? Hnot Hnd']; subst. cbn [fold_left fst snd get].
  rewrite (IH _ Hnd'), get_setitem.
  destruct (String.eqb_spec k0 key) as [->|]; [|reflexivity].
  now rewrite (get_None_keys w key Hnot).
Qed.

(** The body reads [hf_weights] by look-up only. *)
Lemma body_ext hf_weights hf_weights' k v :
  (forall key, get hf_weights key = get hf_weights' key) ->
  body hf_weights k v = body hf_weights' k v.
Proof.
  intros H. unfold body, getitem.
  now rewrite (H (Py.replace k "q.weight" "k.weight")),
    (H (Py.replace k "q.weight" "v.weight")),
    (H (Py.replace k "k.weight" "v.weight")).
Qed.

Lemma emit_ext hf_weights hf_weights' k v :
  (forall key, get hf_weights key = get hf_weights' key) ->
  emit hf_weights k v = emit hf_weights' k v.
Proof. intros H. unfold emit. now rewrite (body_ext _ _ k v H). Qed.

Lemma emits_ext hf_weights hf_weights' items :
  (forall key, get hf_weights key = get hf_weights' key) ->
  emits hf_weights items = emits hf_weights' items.
Proof.
  intros H. induction items as [|[k v] rest IH]; [reflexivity|].
  cbn [emits]. now rewrite IH, (emit_ext _ _ k v H).
Qed.

(** The loop runs through exactly when every key is handled, and then
    its assignments are those of the keys. *)
Lemma emits_None hf_weights items :
  Forall (handled hf_weights) items ->
  exists out, emits hf_weights items = (assignments hf_weights items, out, None).
Proof.
  induction 1 as [|[k v] rest [[w out] Hkv] _ [out' IH]].
  - now exists [].
  - cbn [emits assignments flat_map fst snd] in *. rewrite Hkv. unfold OK.
    fold (assignments hf_weights rest). rewrite IH. now exists (out ++ out')%list.
Qed.

Lemma emits_Some hf_weights items :
  ~ Forall (handled hf_weights) items ->
  exists e, snd (emits hf_weights items) = Some e.
Proof.
  induction items as [|[k v] rest IH]; intros H.
  - exfalso. apply H. constructor.
  - cbn [emits]. destruct (emit hf_weights k v) as [e|[w out]] eqn:E.
    + now exists e.
    + destruct IH as [e He].
      * intros Hrest. apply H. constructor; [|exact Hrest]. now exists (w, out).
      * exists e. now destruct (emits hf_weights rest) as [[w' out'] oe].
Qed.

Lemma handled_dec hf_weights items :
  Forall (handled hf_weights) items \/ ~ Forall (handled hf_weights) items.
Proof.
  induction items as [|[k v] rest [IH|IH]].
  - left. constructor.
  - destruct (emit hf_weights k v) as [e|r] eqn:E.
    + right. intros H. inversion H as [|? ? [r Hr] _]; subst.
      cbn [fst snd] in Hr. unfold OK in Hr. congruence.
    + left. constructor; [now exists r | exact IH].
  - right. intros H. inversion H; subst. contradiction.
Qed.

Lemma assignments_perm hf_weights items items' :
  Permutation items items' ->
  Permutation (assignments hf_weights items) (assignments hf_weights items').
Proof.
  unfold assignments. induction 1; cbn [flat_map].
  - constructor.
  - now apply Permutation_app_head.
  - rewrite !app_assoc. apply Permutation_app_tail, Permutation_app_comm.
  - etransitivity; eassumption.
Qed.

End Order.

(** ** Handling the keys of the source naming scheme *)

Lemma contains_block_key_val p m d l leaf v :
  In p ("final" :: patterns) ->
  Py.all Py.numeric d = true -> Py.all Py.numeric l = true ->
  Py.contains p leaf = v ->
  Py.contains p (block_key m d l leaf) = v.
Proof. intros Hp Hd Hl <-. now apply contains_block_key. Qed.

Lemma numeric_sublayer m : Py.all Py.numeric (ffn_sublayer m) = true.
Proof. now destruct m. Qed.

Ltac in_list := solve [repeat first [left; reflexivity | right]].
Ltac numeric_run :=
  solve [ apply numeric_nat_str | apply numeric_sublayer | reflexivity ].

Ltac eval_contains :=
  repeat match goal with
         | |- context [Py.contains ?p (block_key ?m ?d ?l ?leaf)] =>
             let v := eval vm_compute in (Py.contains p leaf) in
             rewrite (contains_block_key_val p m d l leaf v)
               by first [ in_list | numeric_run | (vm_compute; reflexivity) ]
         end.

Lemma not_exact_block_key m d l leaf :
  Py.all Py.numeric d = true -> Py.all Py.numeric l = true ->
  String.eqb leaf "SelfAttention.relative_attention_bias.weight" = false ->
  is_exact (block_key m d l leaf) = false.
Proof.
  intros Hd Hl Hleaf. destruct (is_exact (block_key m d l leaf)) eqn:E; [|reflexivity].
  apply is_exact_block_key in E as (_ & _ & ->); assumption.
Qed.

(** Evaluates the chain of [body] at a block key with the leaf [leaf]. *)
Ltac at_block_key m d l leaf b lz :=
  let Hd := fresh "Hd" in
  let Hl := fresh "Hl" in
  assert (Hd : Py.all Py.numeric d = true) by numeric_run;
  assert (Hl : Py.all Py.numeric l = true) by numeric_run;
  let Hex := fresh "Hex" in
  assert (Hex := not_exact_block_key m d l leaf Hd Hl eq_refl);
  let Hparse := fresh "Hparse" in
  assert (Hparse : _get_model_type_block_layer (block_key m d l leaf)
                   = OK (module_name m, b, lz))
    by (apply parse_block_key;
        first [assumption | apply PyFacts.int_str | reflexivity]);
  let tl := fresh "tl" in
  let Hsplit := fresh "Hsplit" in
  destruct (split_block_key m d l leaf Hd Hl) as [tl Hsplit];
  open_tests; unfold emit, body;
  repeat match goal with
         | H : String.eqb _ _ = false |- _ => rewrite H; clear H
         end;
  eval_contains; cbv beta iota; cbn [orb];
  unfold bind, lift; rewrite ?Hparse, ?Hsplit;
  cbn [index nth_error rbind OK]; rewrite ?int_nat_str; cbn [rbind OK].

Section SchemeRun.
Context {A : Type}.

(** Handling a parameter of the scheme under its name assigns the target
    key expected for it, or nothing where none is expected. *)
Lemma emit_named (hf_weights : dict (tensor A)) p t :
  in_scheme p = true -> fusable hf_weights (p, t) = true ->
  exists w out,
    emit hf_weights (hf_name p) t = OK (w, out) /\
    keys w = match expected_target p with Some key => [key] | None => [] end.
Proof.
  intros Hin Hfus.
  destruct p as [| |m|m|m b p|b p|m b w|m b l|m]; cbn [hf_name expected_target].
  - do 2 eexists. split; reflexivity.
  - do 2 eexists. split; reflexivity.
  - destruct m; do 2 eexists; split; reflexivity.
  - destruct m; do 2 eexists; split; reflexivity.
  - destruct p; cbn [projection_name].
    + unfold fusable in Hfus. cbn [fst snd] in Hfus.
      destruct (get hf_weights (hf_name (SelfAttention m b ProjK))) as [kw|] eqn:Hk; [|discriminate].
      destruct (get hf_weights (hf_name (SelfAttention m b ProjV))) as [vw|] eqn:Hv; [|discriminate].
      unfold concatenable in Hfus.
      destruct (torch_cat [t; kw; vw]) as [e|fused] eqn:Hcat; [discriminate|].
      at_block_key m (nat_str b) "0" ("SelfAttention." ++ "q" ++ ".weight") (Z.of_nat b) 0%Z.
      change ("SelfAttention." ++ "q" ++ ".weight") with "SelfAttention.q.weight".
      rewrite (replace_self_attention_q m b "k" (or_introl eq_refl)).
      rewrite (replace_self_attention_q m b "v" (or_intror eq_refl)).
      change (get hf_weights (block_key m (nat_str b) "0" ("SelfAttention." ++ String "k" ".weight"))
              = Some kw) in Hk.
      change (get hf_weights (block_key m (nat_str b) "0" ("SelfAttention." ++ String "v" ".weight"))
              = Some vw) in Hv.
      unfold getitem. rewrite Hk, Hv. cbn [OK].
      rewrite Hcat. do 2 eexists. split; reflexivity.
    + at_block_key m (nat_str b) "0" ("SelfAttention." ++ "k" ++ ".weight") (Z.of_nat b) 0%Z.
      do 2 eexists. split; reflexivity.
    + at_block_key m (nat_str b) "0" ("SelfAttention." ++ "v" ++ ".weight") (Z.of_nat b) 0%Z.
      do 2 eexists. split; reflexivity.
    + at_block_key m (nat_str b) "0" ("SelfAttention." ++ "o" ++ ".weight") (Z.of_nat b) 0%Z.
      do 2 eexists. split; reflexivity.
  - destruct p; cbn [projection_name].
    + at_block_key Decoder (nat_str b) "1" ("EncDecAttention." ++ "q" ++ ".weight") (Z.of_nat b) 1%Z.
      do 2 eexists. split; reflexivity.
    + unfold fusable in Hfus. cbn [fst snd] in Hfus.
      destruct (get hf_weights (hf_name (EncDecAttention b ProjV))) as [vw|] eqn:Hv; [|discriminate].
      unfold concatenable in Hfus.
      destruct (torch_cat [t; vw]) as [e|fused] eqn:Hcat; [discriminate|].
      at_block_key Decoder (nat_str b) "1" ("EncDecAttention." ++ "k" ++ ".weight") (Z.of_nat b) 1%Z.
      change ("EncDecAttention." ++ "k" ++ ".weight") with "EncDecAttention.k.weight".
      rewrite (replace_cross_attention_k b).
      change (get hf_weights (block_key Decoder (nat_str b) "1" "EncDecAttention.v.weight") = Some vw)
        in Hv.
      unfold getitem. rewrite Hv. cbn [OK].
      rewrite Hcat. do 2 eexists. split; reflexivity.
    + at_block_key Decoder (nat_str b) "1" ("EncDecAttention." ++ "v" ++ ".weight") (Z.of_nat b) 1%Z.
      do 2 eexists. split; reflexivity.
    + at_block_key Decoder (nat_str b) "1" ("EncDecAttention." ++ "o" ++ ".weight") (Z.of_nat b) 1%Z.
      do 2 eexists. split; reflexivity.
  - destruct m, w; cbn [ffn_sublayer ffn_weight_name].
    + at_block_key Encoder (nat_str b) "1" ("DenseReluDense." ++ "wi_0" ++ ".weight") (Z.of_nat b) 1%Z.
      do 2 eexists. split; reflexivity.
    + at_block_key Encoder (nat_str b) "1" ("DenseReluDense." ++ "wi_1" ++ ".weight") (Z.of_nat b) 1%Z.
      do 2 eexists. split; reflexivity.
    + at_block_key Encoder (nat_str b) "1" ("DenseReluDense." ++ "wo" ++ ".weight") (Z.of_nat b) 1%Z.
      do 2 eexists. split; reflexivity.
    + at_block_key Decoder (nat_str b) "2" ("DenseReluDense." ++ "wi_0" ++ ".weight") (Z.of_nat b) 2%Z.
      do 2 eexists. split; reflexivity.
    + at_block_key Decoder (nat_str b) "2" ("DenseReluDense." ++ "wi_1" ++ ".weight") (Z.of_nat b) 2%Z.
      do 2 eexists. split; reflexivity.
    + at_block_key Decoder (nat_str b) "2" ("DenseReluDense." ++ "wo" ++ ".weight") (Z.of_nat b) 2%Z.
      do 2 eexists. split; reflexivity.
  - destruct m; destruct l as [|[|[|l]]]; try discriminate Hin.
    + at_block_key Encoder (nat_str b) (nat_str 0) "layer_norm.weight" (Z.of_nat b) 0%Z.
      do 2 eexists. split; reflexivity.
    + at_block_key Encoder (nat_str b) (nat_str 1) "layer_norm.weight" (Z.of_nat b) 1%Z.
      do 2 eexists. split; reflexivity.
    + at_block_key Decoder (nat_str b) (nat_str 0) "layer_norm.weight" (Z.of_nat b) 0%Z.
      do 2 eexists. split; reflexivity.
    + at_block_key Decoder (nat_str b) (nat_str 1) "layer_norm.weight" (Z.of_nat b) 1%Z.
      do 2 eexists. split; reflexivity.
    + at_block_key Decoder (nat_str b) (nat_str 2) "layer_norm.weight" (Z.of_nat b) 2%Z.
      do 2 eexists. split; reflexivity.
  - destruct m; do 2 eexists; split; reflexivity.
Qed.

Lemma keys_fold_setitem (w d : dict (tensor A)) key :
  In key (keys (fold_left (fun d kt => setitem d (fst kt) (snd kt)) w d))
  <-> In key (keys w) \/ In key (keys d).
Proof.
  revert d. induction w as [|[k0 t0] w IH]; intros d; cbn [fold_left fst snd].
  - cbn. tauto.
  - rewrite IH, keys_setitem. cbn [keys map fst In]. intuition auto.
Qed.

Lemma assignments_named (hf_weights : dict (tensor A)) params :
  (forall entry, In entry params ->
     in_scheme (fst entry) = true /\ fusable hf_weights entry = true) ->
  Forall (handled hf_weights) (named params) /\
  (forall key,
     In key (keys (assignments hf_weights (named params)))
     <-> exists p t, In (p, t) params /\ expected_target p = Some key).
Proof.
  induction params as [|[p t] params IH]; intros H.
  - split; [constructor|]. intros key. split; [intros [] | intros (p & t & [] & _)].
  - destruct IH as [IH1 IH2]; [intros entry Hin; apply H; now right|].
    destruct (H (p, t) (or_introl eq_refl)) as [Hin Hfus]. cbn [fst] in Hin.
    destruct (emit_named hf_weights p t Hin Hfus) as (w & out & He & Hw).
    split.
    + constructor; [now exists (w, out) | exact IH1].
    + intros key. cbn [named map assignments flat_map fst snd]. rewrite He. unfold OK.
      fold (named params). fold (assignments hf_weights (named params)).
      unfold keys. rewrite map_app, in_app_iff. fold (keys w).
      fold (keys (assignments hf_weights (named params))). rewrite IH2, Hw.
      split.
      * intros [Hk|(p' & t' & Hp' & He')].
        -- exists p, t. split; [now left|].
           destruct (expected_target p); [|contradiction].
           destruct Hk as [->|[]]. reflexivity.
        -- exists p', t'. split; [now right | exact He'].
      * intros (p' & t' & [[= <- <-]|Hp'] & He').
        -- left. rewrite He'. now left.
        -- right. now exists p', t'.
Qed.

End SchemeRun.

(** * The properties of the specification *)

Section PerKey.
Context {A : Type}.
Implicit Types (hf_weights : dict (tensor A)) (k : string) (st : state A).

(** C1.  A self-attention query key (it contains [SelfAttention.q.weight],
    and the helper reads a module, a block and a sub-layer from it: it
    starts with [encoder] or [decoder] and its third and fifth segments are
    integers) whose key and value siblings are
    present with tensors of shape [(H, H)] makes the loop assign one tensor
    of shape [(3H, H)] to the [self_attention.query_key_value.weight] key of
    that module and block: rows [0, H) are the query tensor, rows [H, 2H)
    the key tensor, rows [2H, 3H) the value tensor.  Handling the sibling
    keys assigns nothing. *)
Theorem self_attention_qkv_fusion hf_weights k (q kw vw : tensor A)
    model_type block_number layer_number H st :
  Py.contains "SelfAttention.q.weight" k = true ->
  _get_model_type_block_layer k = OK (model_type, block_number, layer_number) ->
  get hf_weights (Py.replace k "q.weight" "k.weight") = Some kw ->
  get hf_weights (Py.replace k "q.weight" "v.weight") = Some vw ->
  shape q = [H; H] -> shape kw = [H; H] -> shape vw = [H; H] ->
  well_formed q = true -> well_formed kw = true -> well_formed vw = true ->
  let target := "enc_dec_model.enc_dec_model." ++ model_type ++ ".model.layers."
                ++ Py.str block_number ++ ".self_attention.query_key_value.weight" in
  exists fused,
    body hf_weights k q st = (OK tt, assigned st target fused ("Mapped " ++ k ++ " to " ++ target)) /\
    shape fused = [3 * H; H] /\
    rows fused 0 H = q /\
    rows fused H (2 * H) = kw /\
    rows fused (2 * H) (3 * H) = vw /\
    (forall t st', body hf_weights (Py.replace k "q.weight" "k.weight") t st' = (OK tt, st')) /\
    (forall t st', body hf_weights (Py.replace k "q.weight" "v.weight") t st' = (OK tt, st')).
Proof.
  intros Hk Hparse Hkw Hvw Sq Sk Sv Wq Wk Wv target.
  destruct (torch_cat_3 q kw vw H H Sq Sk Sv Wq Wk Wv) as (fused & Hcat & Hs & R1 & R2 & R3).
  exists fused. repeat split; try assumption.
  - rewrite body_self_attention_q by exact Hk.
    unfold bind, lift, getitem. rewrite Hparse, Hkw, Hvw. cbn [OK]. rewrite Hcat.
    reflexivity.
  - intros t st'.
    destruct (PyFacts.replace_q_sibling "k" k (or_introl eq_refl) Hk) as [Hyes Hno].
    apply body_self_attention_kv; [exact Hno|].
    change (Py.contains "SelfAttention.k.weight" (Py.replace k "q.weight" "k.weight") = true) in Hyes.
    now rewrite Hyes.
  - intros t st'.
    destruct (PyFacts.replace_q_sibling "v" k (or_intror eq_refl) Hk) as [Hyes Hno].
    apply body_self_attention_kv; [exact Hno|].
    change (Py.contains "SelfAttention.v.weight" (Py.replace k "q.weight" "v.weight") = true) in Hyes.
    rewrite Hyes. apply orb_true_r.
Qed.

(** C4.  A cross-attention key-projection key (it contains
    [EncDecAttention.k.weight], is no self-attention key, and the helper
    reads a module, a block and a sub-layer from it) whose value sibling is present with tensors of shape [(H, H)]
    makes the loop assign one tensor of shape [(2H, H)] to the decoder's
    [inter_attention.key_value.weight] key of that block, the key tensor in
    rows [0, H) and the value tensor in rows [H, 2H).  A cross-attention
    query key is renamed to [inter_attention.query.weight] with its own
    tensor. *)
Theorem cross_attention_kv_fusion hf_weights k (kw vw : tensor A)
    model_type block_number layer_number H st :
  matches_none self_attention_patterns k = true ->
  Py.contains "EncDecAttention.k.weight" k = true ->
  _get_model_type_block_layer k = OK (model_type, block_number, layer_number) ->
  get hf_weights (Py.replace k "k.weight" "v.weight") = Some vw ->
  shape kw = [H; H] -> shape vw = [H; H] ->
  well_formed kw = true -> well_formed vw = true ->
  let target := "enc_dec_model.enc_dec_model.decoder.model.layers."
                ++ Py.str block_number ++ ".inter_attention.key_value.weight" in
  (exists fused,
     body hf_weights k kw st = (OK tt, assigned st target fused ("Mapped " ++ k ++ " to " ++ target)) /\
     shape fused = [2 * H; H] /\
     rows fused 0 H = kw /\
     rows fused H (2 * H) = vw) /\
  (forall kq (qw : tensor A) mq bq lq st',
     matches_none self_attention_patterns kq = true ->
     Py.contains "EncDecAttention.k.weight" kq = false ->
     Py.contains "EncDecAttention.v.weight" kq = false ->
     Py.contains "EncDecAttention.q.weight" kq = true ->
     _get_model_type_block_layer kq = OK (mq, bq, lq) ->
     let target_q := "enc_dec_model.enc_dec_model.decoder.model.layers."
                     ++ Py.str bq ++ ".inter_attention.query.weight" in
     body hf_weights kq qw st' = (OK tt, assigned st' target_q qw ("Mapped " ++ kq ++ " to " ++ target_q))).
Proof.
  intros Hs Hk Hparse Hvw Sk Sv Wk Wv target. split.
  - destruct (torch_cat_2 kw vw H H Sk Sv Wk Wv) as (fused & Hcat & Hsh & R1 & R2).
    exists fused. repeat split; try assumption.
    rewrite body_cross_attention_k by assumption.
    unfold bind, lift, getitem. rewrite Hparse, Hvw. cbn [OK]. rewrite Hcat.
    reflexivity.
  - intros kq qw mq bq lq st' Hsq Hkq Hvq Hqq Hpq target_q.
    rewrite body_cross_attention_q by assumption.
    unfold bind, lift. rewrite Hpq. reflexivity.
Qed.

(** C7.  A layer-normalization key (it contains [layer_norm] and none of
    the attention and feed-forward patterns) is classified as follows: a
    key marked [final] goes to the [final_layernorm] of its module;
    otherwise, when the helper reads a module, a block and a sub-layer from
    the key, encoder sub-layer 0 and decoder sub-layer 0 go to
    [input_layernorm], encoder sub-layer 1 and decoder sub-layer 1 to
    [post_attention_layernorm], decoder sub-layer 2 to
    [post_inter_attention_layernorm], and any other module and sub-layer
    raises an error that names the key. *)
Theorem layer_norm_classification hf_weights k (v : tensor A) st :
  matches_none (self_attention_patterns ++ cross_attention_patterns ++ ffn_patterns) k = true ->
  Py.contains "layer_norm" k = true ->
  (Py.contains "final" k = true ->
   let model_type := if Py.startswith "encoder" k then "encoder" else "decoder" in
   let target := "enc_dec_model.enc_dec_model." ++ model_type ++ ".model.final_layernorm.weight" in
   body hf_weights k v st = (OK tt, assigned st target v ("Mapped " ++ k ++ " to " ++ target))) /\
  (Py.contains "final" k = false ->
   forall model_type block_number layer_number,
     _get_model_type_block_layer k = OK (model_type, block_number, layer_number) ->
     match layer_norm_role model_type layer_number with
     | Some role =>
         let target := "enc_dec_model.enc_dec_model." ++ model_type ++ ".model.layers."
                       ++ Py.str block_number ++ "." ++ role ++ ".weight" in
         body hf_weights k v st = (OK tt, assigned st target v ("Mapped " ++ k ++ " to " ++ target))
     | None =>
         body hf_weights k v st = (Err (ValueError ("Unknown layer_norm key: " ++ k)), st) /\
         Py.contains k ("Unknown layer_norm key: " ++ k) = true
     end).
Proof.
  intros Hs Hn. split.
  - intros Hf. rewrite body_layer_norm by assumption. rewrite Hf. reflexivity.
  - intros Hf mt b l Hparse. rewrite body_layer_norm by assumption. rewrite Hf.
    unfold bind, lift. rewrite Hparse. unfold OK. cbv beta iota.
    destruct (layer_norm_role mt l) as [role|].
    + reflexivity.
    + split; [reflexivity|].
      apply PyFacts.contains_suffix.
Qed.

(** C9.  Handling [lm_head.weight] assigns the one entry
    [enc_dec_model.tokens_head.weight], though the line it prints names two
    targets; the decoder word-embedding entry is assigned by
    [decoder.embed_tokens.weight] and left alone by every other key. *)
Theorem lm_head_assigns_tokens_head hf_weights (v : tensor A) st :
  body hf_weights "lm_head.weight" v st =
    (OK tt, assigned st "enc_dec_model.tokens_head.weight" v
       "Mapped lm_head.weight to enc_dec_model.decoder_embedding.word_embeddings.weight and enc_dec_model.tokens_head.weight") /\
  body hf_weights "decoder.embed_tokens.weight" v st =
    (OK tt, {| nemo_weights := setitem (nemo_weights st)
                                 "enc_dec_model.decoder_embedding.word_embeddings.weight" v;
               stdout := stdout st;
               files := files st |}) /\
  (forall k t st1 r st2,
     k <> "decoder.embed_tokens.weight" ->
     body hf_weights k t st1 = (r, st2) ->
     get (nemo_weights st2) "enc_dec_model.decoder_embedding.word_embeddings.weight"
     = get (nemo_weights st1) "enc_dec_model.decoder_embedding.word_embeddings.weight").
Proof.
  split; [reflexivity|]. split; [reflexivity|].
  intros k t st1 r st2 Hk. revert st1 r st2.
  apply String.eqb_neq in Hk.
  change (@leaves A "enc_dec_model.decoder_embedding.word_embeddings.weight" (body hf_weights k t)).
  unfold body. rewrite Hk.
  repeat leaves_step.
Qed.

End PerKey.

(** C6.  The activation translation: [silu] becomes [swiglu], [gelu_new]
    becomes [geglu], and any other identifier raises an error whose message
    names it; the packaged configuration carries the translated name for
    the encoder and the decoder. *)
Theorem activation_translation (c : T5Config) :
  (dense_act_fn c = "silu" ->
   act_fn c = OK "swiglu" /\
   exists cfg, package_into_nemo_file c = OK cfg /\
               cfg_activation (encoder cfg) = "swiglu" /\
               cfg_activation (decoder cfg) = "swiglu") /\
  (dense_act_fn c = "gelu_new" ->
   act_fn c = OK "geglu" /\
   exists cfg, package_into_nemo_file c = OK cfg /\
               cfg_activation (encoder cfg) = "geglu" /\
               cfg_activation (decoder cfg) = "geglu") /\
  (dense_act_fn c <> "silu" -> dense_act_fn c <> "gelu_new" ->
   act_fn c = Err (ValueError ("Unknown dense_act_fn: " ++ dense_act_fn c)) /\
   package_into_nemo_file c = Err (ValueError ("Unknown dense_act_fn: " ++ dense_act_fn c)) /\
   Py.contains (dense_act_fn c) ("Unknown dense_act_fn: " ++ dense_act_fn c) = true).
Proof.
  unfold package_into_nemo_file, act_fn. split; [|split].
  - intros Hsilu. rewrite Hsilu. split; [reflexivity|]. cbn. eexists. repeat split.
  - intros Hgelu. rewrite Hgelu. split; [reflexivity|]. cbn. eexists. repeat split.
  - intros Hsilu Hgelu. apply String.eqb_neq in Hsilu, Hgelu. rewrite Hsilu, Hgelu.
    repeat split. apply PyFacts.contains_suffix.
Qed.

Section WholeRun.
Context {A : Type}.
Implicit Types (hf_model : T5ForConditionalGeneration A) (k : string) (st : state A).

(** C3, as amended.  A source mapping with a key that no rule handles makes
    [convert_weights] raise, and nothing is written to the output path.
    The exception is the one of the first key whose handling raises: when
    every key before the unhandled key is handled, it is the [ValueError]
    whose message is [Unknown key: ] followed by that key. *)
Theorem unknown_key_aborts hf_model path st k :
  In k (keys (state_dict hf_model)) ->
  unmatched k = true ->
  exists e st',
    convert_weights hf_model path st = (Err e, st') /\
    files st' = files st /\
    (forall pre v post,
       state_dict hf_model = (pre ++ (k, v) :: post)%list ->
       Forall (fun kv => exists r, emit (state_dict hf_model) (fst kv) (snd kv) = OK r) pre ->
       e = ValueError ("Unknown key: " ++ k) /\
       Py.contains k ("Unknown key: " ++ k) = true).
Proof.
  intros Hin Hk.
  assert (Hemit : forall v, emit (state_dict hf_model) k v
                            = inl (ValueError ("Unknown key: " ++ k))).
  { intros v. apply emit_raises. intros st0. now apply body_unmatched. }
  unfold keys in Hin. apply in_map_iff in Hin as ([k0 v0] & Hk0 & Hin).
  cbn [fst] in Hk0. subst k0.
  destruct (emits_raises (state_dict hf_model) (state_dict hf_model) k v0 _ Hin (Hemit v0))
    as [e He].
  destruct (convert_weights_raises hf_model path st e He) as (st' & Hrun & Hfiles).
  exists e, st'. split; [exact Hrun|]. split; [exact Hfiles|].
  intros pre v post Hitems Hpre. split; [|apply PyFacts.contains_suffix].
  pose proof (emits_first (state_dict hf_model) pre k v post _ Hpre (Hemit v)) as Hfirst.
  rewrite <- Hitems in Hfirst. congruence.
Qed.


(** C8, as amended.  Two source mappings with the same entries in
    different orders, in which no two keys are assigned to one target key,
    give the same outcome: [convert_weights] raises on both and writes
    nothing, or it returns on both and the target mappings written are
    equal as functions from key to tensor. *)
Theorem order_independent (hf1 hf2 : dict (tensor A)) cfg path st :
  Permutation hf1 hf2 ->
  NoDup (keys hf1) ->
  NoDup (keys (assignments hf1 hf1)) ->
  let m1 := {| config := cfg; state_dict := hf1 |} in
  let m2 := {| config := cfg; state_dict := hf2 |} in
  (exists e1 e2 st1 st2,
     convert_weights m1 path st = (Err e1, st1) /\
     convert_weights m2 path st = (Err e2, st2) /\
     files st1 = files st /\ files st2 = files st) \/
  (exists st1 st2 out1 out2,
     convert_weights m1 path st = (OK cfg, st1) /\
     convert_weights m2 path st = (OK cfg, st2) /\
     get (files st1) path = Some out1 /\
     get (files st2) path = Some out2 /\
     forall key, get out1 key = get out2 key).
Proof.
  intros Hperm Hkeys Hnd m1 m2.
  assert (Hget : forall key, get hf2 key = get hf1 key).
  { intros key. symmetry. now apply get_perm. }
  pose proof (emits_ext hf2 hf1 hf2 Hget) as Hext.
  destruct (handled_dec hf1 hf1) as [Hall|Hnot].
  - right.
    assert (Hall2 : Forall (handled hf1) hf2).
    { rewrite Forall_forall in *. intros kv Hin. apply Hall.
      apply (Permutation_in _ (Permutation_sym Hperm) Hin). }
    destruct (emits_None hf1 hf1 Hall) as [o1 E1].
    destruct (emits_None hf1 hf2 Hall2) as [o2 E2].
    rewrite <- Hext in E2.
    do 2 eexists.
    exists (nemo_weights (extend (started m1 st) (assignments hf1 hf1) o1)),
           (nemo_weights (extend (started m2 st) (assignments hf1 hf2) o2)).
    split; [rewrite convert_weights_emits; cbn [state_dict m1]; rewrite E1; reflexivity|].
    split; [rewrite convert_weights_emits; cbn [state_dict m2]; rewrite E2; reflexivity|].
    split; [cbn [files]; apply get_setitem_eq|].
    split; [cbn [files]; apply get_setitem_eq|].
    intros key. unfold extend, started. cbn [nemo_weights].
    pose proof (assignments_perm hf1 hf1 hf2 Hperm) as Hw.
    rewrite !get_fold_setitem;
      [|apply (Permutation_NoDup (keys_perm _ _ Hw) Hnd) | exact Hnd].
    now rewrite (get_perm _ _ key Hw Hnd).
  - left.
    assert (Hnot2 : ~ Forall (handled hf1) hf2).
    { intros Hall2. apply Hnot. rewrite Forall_forall in *. intros kv Hin.
      apply Hall2. apply (Permutation_in _ Hperm Hin). }
    destruct (emits_Some hf1 hf1 Hnot) as [e1 E1].
    destruct (emits_Some hf1 hf2 Hnot2) as [e2 E2].
    rewrite <- Hext in E2.
    destruct (convert_weights_raises m1 path st e1 E1) as (st1 & R1 & F1).
    destruct (convert_weights_raises m2 path st e2 E2) as (st2 & R2 & F2).
    now exists e1, e2, st1, st2.
Qed.

(** C2, as amended.  For a source mapping whose keys are drawn from the
    source naming scheme, with the siblings of every fused projection
    present and their tensors such that [torch.cat] accepts them,
    [convert_weights] returns, and the target mapping it writes has exactly
    the expected target keys: one for every source parameter that has one,
    and no other. *)
Theorem scheme_keys_converted (params : list (hf_param * tensor A)) cfg path st :
  convertible params = true ->
  exists st' out,
    convert_weights {| config := cfg; state_dict := named params |} path st = (OK cfg, st') /\
    get (files st') path = Some out /\
    (forall key,
       In key (keys out) <-> exists p t, In (p, t) params /\ expected_target p = Some key).
Proof.
  intros Hconv. unfold convertible in Hconv. rewrite forallb_forall in Hconv.
  destruct (assignments_named (named params) params) as [Hall Hkeys].
  { intros entry Hin. apply andb_true_iff. now apply Hconv. }
  destruct (emits_None (named params) (named params) Hall) as [out E].
  set (m := {| config := cfg; state_dict := named params |}).
  exists {| nemo_weights := nemo_weights (extend (started m st) (assignments (named params) (named params)) out);
            stdout := (stdout (extend (started m st) (assignments (named params) (named params)) out)
                       ++ [("Saved weights to " ++ path)%string])%list;
            files := setitem (files st) path
                       (nemo_weights (extend (started m st) (assignments (named params) (named params)) out)) |},
         (nemo_weights (extend (started m st) (assignments (named params) (named params)) out)).
  split; [rewrite convert_weights_emits; cbn [state_dict m]; rewrite E; reflexivity|].
  split; [cbn [files]; apply get_setitem_eq|].
  intros key. unfold extend, started. cbn [nemo_weights].
  rewrite keys_fold_setitem, Hkeys. cbn. tauto.
Qed.

End WholeRun.

(** C10.  The relative-position bias is recognized at block 0 only: the two
    exact keys are renamed to the relative-position-embedding targets of
    the encoder and the decoder, and the key of any other block index is
    handled by no rule and raises the unknown-key error. *)
Theorem relative_attention_bias_block_0_only {A : Type}
    (hf_weights : dict (tensor A)) (v : tensor A) (st : state A) :
  body hf_weights "encoder.block.0.layer.0.SelfAttention.relative_attention_bias.weight" v st =
    (OK tt, assigned st
       "enc_dec_model.encoder_relative_position_embedding.relative_position_embedding.weight" v
       "Mapped encoder.block.0.layer.0.SelfAttention.relative_attention_bias.weight to enc_dec_model.encoder_relative_position_embedding.relative_position_embedding.weight") /\
  body hf_weights "decoder.block.0.layer.0.SelfAttention.relative_attention_bias.weight" v st =
    (OK tt, assigned st
       "enc_dec_model.decoder_relative_position_embedding.relative_position_embedding.weight" v
       "Mapped decoder.block.0.layer.0.SelfAttention.relative_attention_bias.weight to enc_dec_model.decoder_relative_position_embedding.relative_position_embedding.weight") /\
  (forall (m : module) (b : Z),
     b <> 0%Z ->
     let k := module_name m ++ ".block." ++ Py.str b
              ++ ".layer.0.SelfAttention.relative_attention_bias.weight" in
     unmatched k = true /\
     body hf_weights k v st = (Err (ValueError ("Unknown key: " ++ k)), st)).
Proof.
  split; [reflexivity|]. split; [reflexivity|].
  intros m b Hb k.
  assert (Hk : unmatched k = true).
  { change k with (block_key m (Py.str b) "0" "SelfAttention.relative_attention_bias.weight").
    unfold unmatched. apply andb_true_iff. split.
    - apply negb_true_iff.
      destruct (is_exact (block_key m (Py.str b) "0" "SelfAttention.relative_attention_bias.weight"))
        eqn:E; [|reflexivity].
      apply is_exact_block_key in E as (E & _ & _);
        [|apply PyFacts.all_numeric_str | reflexivity].
      change "0" with (Py.str 0) in E. apply PyFacts.str_inj in E. contradiction.
    - rewrite matches_none_block_key;
        [reflexivity | apply incl_refl | apply PyFacts.all_numeric_str | reflexivity]. }
  split; [exact Hk|]. now apply body_unmatched.
Qed.

(** ** The properties at sample checkpoints *)

(** C1, as stated, fails: the key contains [SelfAttention.q.weight] and
    its siblings are there with tensors of shape [(2, 2)], but its fifth
    segment is [q], which [int()] refuses; nothing is assigned or written. *)
Lemma query_key_without_layer_raises :
  Py.contains "SelfAttention.q.weight" "encoder.block.3.SelfAttention.q.weight" = true /\
  get sample_no_layer (Py.replace "encoder.block.3.SelfAttention.q.weight" "q.weight" "k.weight")
  = Some (full 2 2 2) /\
  get sample_no_layer (Py.replace "encoder.block.3.SelfAttention.q.weight" "q.weight" "v.weight")
  = Some (full 2 2 3) /\
  body sample_no_layer "encoder.block.3.SelfAttention.q.weight" (full 2 2 1) blank
  = (Err (InvalidLiteral "q"), blank) /\
  exists st',
    convert_weights (model_of sample_no_layer) "nemo_state_dict.pt" blank
    = (Err (InvalidLiteral "q"), st') /\
    nemo_weights st' = [] /\
    files st' = [].
Proof.
  repeat split. eexists. repeat split.
Qed.

Lemma self_attention_qkv_fusion_witness :
  exists fused,
    body sample_self_attention "encoder.block.3.layer.0.SelfAttention.q.weight"
      (full 2 2 1) blank
    = (OK tt,
       assigned blank
         "enc_dec_model.enc_dec_model.encoder.model.layers.3.self_attention.query_key_value.weight"
         fused
         "Mapped encoder.block.3.layer.0.SelfAttention.q.weight to enc_dec_model.enc_dec_model.encoder.model.layers.3.self_attention.query_key_value.weight") /\
    shape fused = [6; 2] /\
    rows fused 0 2 = full 2 2 1 /\
    rows fused 2 4 = full 2 2 2 /\
    rows fused 4 6 = full 2 2 3.
Proof.
  destruct (self_attention_qkv_fusion sample_self_attention
              "encoder.block.3.layer.0.SelfAttention.q.weight"
              (full 2 2 1) (full 2 2 2) (full 2 2 3) "encoder" 3 0 2 blank
              eq_refl eq_refl eq_refl eq_refl eq_refl eq_refl eq_refl eq_refl eq_refl eq_refl)
    as (fused & Hb & Hs & R1 & R2 & R3 & _).
  exists fused. repeat split; assumption.
Defined.

(** C4, as stated, fails: the key contains [EncDecAttention.k.weight] and
    its sibling is there with a tensor of shape [(2, 2)], but it starts with
    no module; nothing is assigned or written. *)
Lemma cross_attention_key_without_module_raises :
  Py.contains "EncDecAttention.k.weight" "EncDecAttention.k.weight" = true /\
  get sample_no_module (Py.replace "EncDecAttention.k.weight" "k.weight" "v.weight")
  = Some (full 2 2 3) /\
  body sample_no_module "EncDecAttention.k.weight" (full 2 2 2) blank
  = (Err (ValueError "Unknown model type for EncDecAttention.k.weight"), blank) /\
  exists st',
    convert_weights (model_of sample_no_module) "nemo_state_dict.pt" blank
    = (Err (ValueError "Unknown model type for EncDecAttention.k.weight"), st') /\
    nemo_weights st' = [] /\
    files st' = [].
Proof.
  repeat split. eexists. repeat split.
Qed.

Lemma cross_attention_kv_fusion_witness :
  exists fused,
    body sample_cross_attention "decoder.block.3.layer.1.EncDecAttention.k.weight"
      (full 2 2 2) blank
    = (OK tt,
       assigned blank
         "enc_dec_model.enc_dec_model.decoder.model.layers.3.inter_attention.key_value.weight"
         fused
         "Mapped decoder.block.3.layer.1.EncDecAttention.k.weight to enc_dec_model.enc_dec_model.decoder.model.layers.3.inter_attention.key_value.weight") /\
    shape fused = [4; 2] /\
    rows fused 0 2 = full 2 2 2 /\
    rows fused 2 4 = full 2 2 3.
Proof.
  destruct (cross_attention_kv_fusion sample_cross_attention
              "decoder.block.3.layer.1.EncDecAttention.k.weight"
              (full 2 2 2) (full 2 2 3) "decoder" 3 1 2 blank
              eq_refl eq_refl eq_refl eq_refl eq_refl eq_refl eq_refl eq_refl)
    as [(fused & Hb & Hs & R1 & R2) _].
  exists fused. repeat split; assumption.
Defined.

(** C7, as stated, fails: the key contains [layer_norm], but its fifth
    segment is [weight]; the key is not classified, and the exception is the
    one of [int()], which quotes that segment and not the key. *)
Lemma layer_norm_key_without_layer_not_named :
  Py.contains "layer_norm" "encoder.block.0.layer_norm.weight" = true /\
  Py.contains "final" "encoder.block.0.layer_norm.weight" = false /\
  body (state_dict sample_unexpected) "encoder.block.0.layer_norm.weight" (full 1 2 1) blank
  = (Err (InvalidLiteral "weight"), blank) /\
  Py.contains "encoder.block.0.layer_norm.weight" "weight" = false.
Proof.
  repeat split.
Qed.

Lemma layer_norm_classification_witness :
  body sample_self_attention "decoder.block.5.layer.2.layer_norm.weight" (full 1 2 7) blank
  = (OK tt,
     assigned blank
       "enc_dec_model.enc_dec_model.decoder.model.layers.5.post_inter_attention_layernorm.weight"
       (full 1 2 7)
       "Mapped decoder.block.5.layer.2.layer_norm.weight to enc_dec_model.enc_dec_model.decoder.model.layers.5.post_inter_attention_layernorm.weight") /\
  body sample_self_attention "encoder.block.5.layer.2.layer_norm.weight" (full 1 2 7) blank
  = (Err (ValueError "Unknown layer_norm key: encoder.block.5.layer.2.layer_norm.weight"), blank).
Proof.
  split.
  - exact (proj2 (layer_norm_classification sample_self_attention
                    "decoder.block.5.layer.2.layer_norm.weight" (full 1 2 7) blank
                    eq_refl eq_refl)
             eq_refl "decoder" 5%Z 2%Z eq_refl).
  - exact (proj1 (proj2 (layer_norm_classification sample_self_attention
                           "encoder.block.5.layer.2.layer_norm.weight" (full 1 2 7) blank
                           eq_refl eq_refl)
                    eq_refl "encoder" 5%Z 2%Z eq_refl)).
Defined.

Lemma activation_translation_witness :
  act_fn relu_config = Err (ValueError "Unknown dense_act_fn: relu") /\
  act_fn sample_config = OK "geglu".
Proof.
  split.
  - refine (proj1 (proj2 (proj2 (activation_translation relu_config)) _ _));
      discriminate.
  - exact (proj1 (proj1 (proj2 (activation_translation sample_config)) eq_refl)).
Defined.

Lemma unknown_key_aborts_witness :
  exists st',
    convert_weights sample_unexpected "nemo_state_dict.pt" blank
    = (Err (ValueError "Unknown key: encoder.block.0.layer.0.SelfAttention.unexpected.weight"), st') /\
    files st' = [].
Proof.
  destruct (unknown_key_aborts sample_unexpected "nemo_state_dict.pt" blank
              "encoder.block.0.layer.0.SelfAttention.unexpected.weight"
              (or_intror (or_introl eq_refl)) eq_refl)
    as (e & st' & Hrun & Hfiles & Hfirst).
  destruct (Hfirst [("shared.weight", full 2 2 0)] (full 2 2 1) [] eq_refl) as [He _].
  - constructor; [|constructor]. eexists. reflexivity.
  - exists st'. subst e. split; assumption.
Defined.

(** C3, as stated, fails: of two keys that no rule handles, the exception
    names the first one only. *)
Lemma unknown_key_not_named :
  In "bar" (keys (state_dict sample_two_unknown)) /\
  unmatched "bar" = true /\
  exists st',
    convert_weights sample_two_unknown "nemo_state_dict.pt" blank
    = (Err (ValueError "Unknown key: foo"), st') /\
    Py.contains "bar" "Unknown key: foo" = false.
Proof.
  split; [right; left; reflexivity|]. split; [reflexivity|].
  eexists. split; reflexivity.
Qed.


(** C8, as stated, fails: two keys that differ in the sub-layer index only
    are assigned to one target key, and the one handled last stays. *)
Lemma order_matters :
  Permutation sample_two_sublayers (List.rev sample_two_sublayers) /\
  (forall key, get sample_two_sublayers key = get (List.rev sample_two_sublayers) key) /\
  exists st1 st2 out1 out2,
    convert_weights (model_of sample_two_sublayers) "nemo_state_dict.pt" blank
    = (OK sample_config, st1) /\
    convert_weights (model_of (List.rev sample_two_sublayers)) "nemo_state_dict.pt" blank
    = (OK sample_config, st2) /\
    get (files st1) "nemo_state_dict.pt" = Some out1 /\
    get (files st2) "nemo_state_dict.pt" = Some out2 /\
    get out1 "enc_dec_model.enc_dec_model.encoder.model.layers.0.self_attention.dense.weight"
    = Some (full 1 1 2) /\
    get out2 "enc_dec_model.enc_dec_model.encoder.model.layers.0.self_attention.dense.weight"
    = Some (full 1 1 1).
Proof.
  split; [apply Permutation_rev|]. split.
  - intros key. apply get_perm; [apply Permutation_rev|].
    repeat constructor; simpl; intuition discriminate.
  - do 4 eexists. repeat split; reflexivity.
Qed.

Lemma order_independent_witness :
  exists st1 st2 out1 out2,
    convert_weights (model_of sample_self_attention) "nemo_state_dict.pt" blank
    = (OK sample_config, st1) /\
    convert_weights (model_of (List.rev sample_self_attention)) "nemo_state_dict.pt" blank
    = (OK sample_config, st2) /\
    get (files st1) "nemo_state_dict.pt" = Some out1 /\
    get (files st2) "nemo_state_dict.pt" = Some out2 /\
    forall key, get out1 key = get out2 key.
Proof.
  destruct (order_independent sample_self_attention (List.rev sample_self_attention)
              sample_config "nemo_state_dict.pt" blank) as [Herr|Hok].
  - apply Permutation_rev.
  - repeat constructor; simpl; intuition discriminate.
  - repeat constructor; simpl; intuition discriminate.
  - destruct Herr as (e1 & e2 & st1 & st2 & H1 & _). vm_compute in H1. discriminate H1.
  - exact Hok.
Defined.

(** C2, as stated, fails: the keys are of the scheme and the siblings are
    there, but [torch.cat] refuses tensors of different widths. *)
Lemma mismatched_siblings_raise :
  keys (named sample_mismatched)
  = [ "encoder.block.0.layer.0.SelfAttention.q.weight";
      "encoder.block.0.layer.0.SelfAttention.k.weight";
      "encoder.block.0.layer.0.SelfAttention.v.weight" ] /\
  exists st',
    convert_weights (model_of (named sample_mismatched)) "nemo_state_dict.pt" blank
    = (Err (RuntimeError "Sizes of tensors must match except in dimension 0"), st').
Proof. split; [reflexivity|]. eexists. reflexivity. Qed.

Lemma scheme_keys_converted_witness :
  exists st' out,
    convert_weights (model_of (named sample_params)) "nemo_state_dict.pt" blank
    = (OK sample_config, st') /\
    get (files st') "nemo_state_dict.pt" = Some out /\
    (forall key,
       In key (keys out)
       <-> exists p t, In (p, t) sample_params /\ expected_target p = Some key).
Proof.
  exact (scheme_keys_converted sample_params sample_config "nemo_state_dict.pt" blank eq_refl).
Defined.

Lemma lm_head_assigns_tokens_head_witness :
  get (nemo_weights (snd (body sample_self_attention "lm_head.weight" (full 4 2 9) blank)))
    "enc_dec_model.decoder_embedding.word_embeddings.weight"
  = None.
Proof.
  refine (proj2 (proj2 (lm_head_assigns_tokens_head sample_self_attention (full 4 2 9) blank))
            "lm_head.weight" (full 4 2 9) blank _ _ _ (surjective_pairing _)).
  discriminate.
Defined.

Lemma relative_attention_bias_block_0_only_witness :
  body sample_self_attention
    "decoder.block.7.layer.0.SelfAttention.relative_attention_bias.weight" (full 32 2 1) blank
  = (Err (ValueError
            "Unknown key: decoder.block.7.layer.0.SelfAttention.relative_attention_bias.weight"),
     blank).
Proof.
  refine (proj2 (proj2 (proj2 (relative_attention_bias_block_0_only sample_self_attention
                                 (full 32 2 1) blank))
                   Decoder 7%Z _)).
  discriminate.
Defined.

(** * Further properties of the script *)

(** ** What handling one key can do *)

Section Yields.
Context {A : Type}.
Implicit Types (Q : dict (tensor A) -> list string -> Prop).

Lemma yields_pass Q : Q [] [] -> @yields A pass Q.
Proof. intros H. exact H. Qed.

Lemma yields_raise Q e : @yields A (raise e) Q.
Proof. exact I. Qed.

Lemma yields_set Q key t : Q [(key, t)] [] -> @yields A (set_nemo_weights key t) Q.
Proof. intros H. exact H. Qed.

Lemma yields_set_print Q key t line :
  Q [(key, t)] [line] -> @yields A (set_nemo_weights key t ;; print line) Q.
Proof. intros H. exact H. Qed.

Lemma yields_if Q (b : bool) c1 c2 :
  (b = true -> @yields A c1 Q) -> (b = false -> @yields A c2 Q) ->
  @yields A (if b then c1 else c2) Q.
Proof. destruct b; auto. Qed.

Lemma yields_lift {T : Type} Q (r : result T) (f : T -> M A unit) :
  (forall x, r = inr x -> @yields A (f x) Q) -> @yields A (x <- lift r ;; f x) Q.
Proof.
  intros H. unfold yields, bind, lift. destruct r as [e|x]; [exact I|].
  now apply H.
Qed.

Lemma yields_emit Q hf_weights k v w out :
  yields (body hf_weights k v) Q -> emit hf_weights k v = OK (w, out) -> Q w out.
Proof.
  unfold yields, emit. destruct (body hf_weights k v blank) as [[e|[]] st'].
  - discriminate.
  - intros H [= <- <-]. exact H.
Qed.

End Yields.

Ltac yields_step tac :=
  first [ apply yields_if; intros ?
        | apply yields_raise
        | apply yields_pass; tac
        | apply yields_set_print; tac
        | apply yields_set; tac
        | apply yields_lift; intros [[? ?] ?] ?
        | apply yields_lift; intros ? ? ].

Section BodyShape.
Context {A : Type}.
Implicit Types (hf_weights : dict (tensor A)) (k : string) (v : tensor A) (st : state A).

Lemma body_at_most_one hf_weights k v :
  yields (body hf_weights k v) (fun w out => length w <= 1 /\ length out <= 1).
Proof. unfold body. repeat yields_step ltac:(cbn; lia). Qed.

Lemma body_targets_prefix hf_weights k v :
  yields (body hf_weights k v)
    (fun w out => forall key, In key (keys w) -> Py.startswith "enc_dec_model." key = true).
Proof.
  unfold body.
  repeat yields_step ltac:(intros key0 Hkey0; cbn in Hkey0;
                           try (destruct Hkey0 as [<-|[]]; reflexivity); try contradiction).
Qed.

Lemma getitem_inr {V : Type} (d : dict V) key x : getitem d key = inr x -> get d key = Some x.
Proof. unfold getitem. destruct (get d key); [intros [= ->]; reflexivity | discriminate]. Qed.

Lemma body_provenance hf_weights k v :
  yields (body hf_weights k v)
    (fun w out => forall key t, In (key, t) w ->
       t = v \/
       (exists k_weight v_weight,
          get hf_weights (Py.replace k "q.weight" "k.weight") = Some k_weight /\
          get hf_weights (Py.replace k "q.weight" "v.weight") = Some v_weight /\
          torch_cat [v; k_weight; v_weight] = OK t) \/
       (exists v_weight,
          get hf_weights (Py.replace k "k.weight" "v.weight") = Some v_weight /\
          torch_cat [v; v_weight] = OK t)).
Proof.
  unfold body.
  repeat yields_step
    ltac:(intros key0 t0 Hin; cbn in Hin;
          try contradiction;
          destruct Hin as [[= <- <-]|[]];
          first [ left; reflexivity
                | right; left; do 2 eexists;
                  repeat split; [apply getitem_inr; eassumption
                                |apply getitem_inr; eassumption
                                |eassumption]
                | right; right; eexists;
                  split; [apply getitem_inr; eassumption | eassumption] ]).
Qed.

Lemma body_no_silent_drop hf_weights k v :
  yields (body hf_weights k v)
    (fun w out => w = [] ->
       k = "shared.weight" \/
       Py.contains "SelfAttention.k.weight" k = true \/
       Py.contains "SelfAttention.v.weight" k = true \/
       Py.contains "EncDecAttention.v.weight" k = true).
Proof.
  unfold body.
  repeat yields_step
    ltac:(intros Hw;
          first [ discriminate Hw
                | clear Hw;
                  repeat match goal with
                         | H : (_ || _)%bool = true |- _ => apply orb_true_iff in H
                         | H : String.eqb _ _ = true |- _ => apply String.eqb_eq in H
                         end;
                  tauto ]).
Qed.

(** X3.  Handling one key: the files are not touched; an exception leaves the
    state as it was; otherwise at most one entry is assigned and at most
    one line printed. *)
Theorem body_effect hf_weights k v st r st' :
  body hf_weights k v st = (r, st') ->
  files st' = files st /\
  match r with
  | inl _ => st' = st
  | inr _ =>
      (nemo_weights st' = nemo_weights st \/
       exists key t, nemo_weights st' = setitem (nemo_weights st) key t) /\
      (stdout st' = stdout st \/
       exists line, stdout st' = (stdout st ++ [line])%list)
  end.
Proof.
  rewrite body_frame. destruct (emit hf_weights k v) as [e|[w out]] eqn:E.
  - intros [= <- <-]. now split.
  - intros [= <- <-]. split; [reflexivity|].
    destruct (yields_emit _ _ _ _ _ _ (body_at_most_one hf_weights k v) E) as [Hw Hout].
    unfold extend. cbn [nemo_weights stdout]. split.
    + destruct w as [|[key t] [|]]; cbn in Hw; try lia; [now left|].
      right. now exists key, t.
    + destruct out as [|line [|]]; cbn in Hout; try lia.
      * left. now rewrite app_nil_r.
      * right. now exists line.
Qed.

End BodyShape.

Section RunShape.
Context {A : Type}.
Implicit Types (hf_weights items w d : dict (tensor A)) (k : string) (st : state A).

Lemma In_setitem d k0 (t0 : tensor A) entry :
  In entry (setitem d k0 t0) -> entry = (k0, t0) \/ In entry d.
Proof.
  induction d as [|[k1 t1] d IH]; cbn [setitem].
  - intros [<-|[]]. now left.
  - destruct (String.eqb_spec k1 k0) as [->|Hneq].
    + intros [<-|H]; [now left | right; now right].
    + intros [<-|H]; [right; now left|].
      destruct (IH H) as [->|H']; [now left | right; now right].
Qed.

Lemma In_fold_setitem w d entry :
  In entry (fold_left (fun d kt => setitem d (fst kt) (snd kt)) w d) ->
  In entry w \/ In entry d.
Proof.
  revert d. induction w as [|[k0 t0] w IH]; intros d; cbn [fold_left fst snd].
  - now right.
  - intros H. destruct (IH _ H) as [H'|H']; [left; now right|].
    destruct (In_setitem _ _ _ _ H') as [->|H'']; [left; now left | now right].
Qed.

Lemma length_setitem d k0 (t0 : tensor A) : length (setitem d k0 t0) <= S (length d).
Proof.
  induction d as [|[k1 t1] d IH]; cbn [setitem length]; [lia|].
  destruct (String.eqb k1 k0); cbn [length]; lia.
Qed.

Lemma length_fold_setitem w d :
  length (fold_left (fun d kt => setitem d (fst kt) (snd kt)) w d) <= length w + length d.
Proof.
  revert d. induction w as [|[k0 t0] w IH]; intros d; cbn [fold_left fst snd length]; [lia|].
  specialize (IH (setitem d k0 t0)). pose proof (length_setitem d k0 t0). lia.
Qed.

Lemma NoDup_keys_setitem d k0 (t0 : tensor A) :
  NoDup (keys d) -> NoDup (keys (setitem d k0 t0)).
Proof.
  induction d as [|[k1 t1] d IH]; cbn [setitem keys map fst]; intros Hnd.
  - constructor; [tauto | constructor].
  - inversion Hnd as [|? ? Hnot Hnd']; subst.
    destruct (String.eqb_spec k1 k0) as [->|Hneq]; cbn [map fst].
    + now constructor.
    + constructor; [|now apply IH].
      fold (keys (setitem d k0 t0)). rewrite keys_setitem. intros [->|H]; tauto.
Qed.

Lemma NoDup_keys_fold_setitem w d :
  NoDup (keys d) ->
  NoDup (keys (fold_left (fun d kt => setitem d (fst kt) (snd kt)) w d)).
Proof.
  revert d. induction w as [|[k0 t0] w IH]; intros d Hnd; cbn [fold_left fst snd].
  - exact Hnd.
  - apply IH. now apply NoDup_keys_setitem.
Qed.

(** Every assignment of the loop is made by handling one of the items. *)
Lemma emits_entries hf_weights items entry :
  In entry (fst (fst (emits hf_weights items))) ->
  exists k v w out,
    In (k, v) items /\ emit hf_weights k v = OK (w, out) /\ In entry w.
Proof.
  induction items as [|[k v] rest IH]; cbn [emits]; [intros []|].
  destruct (emit hf_weights k v) as [e|[w out]] eqn:E; [intros []|].
  destruct (emits hf_weights rest) as [[w' out'] oe]. cbn [fst] in *.
  rewrite in_app_iff. intros [H|H].
  - exists k, v, w, out. split; [now left|]. now split.
  - destruct (IH H) as (k' & v' & w0 & out0 & Hin & He & Hw).
    exists k', v', w0, out0. split; [now right|]. now split.
Qed.

Lemma emits_length hf_weights items :
  length (fst (fst (emits hf_weights items))) <= length items.
Proof.
  induction items as [|[k v] rest IH]; cbn [emits length fst]; [lia|].
  destruct (emit hf_weights k v) as [e|[w out]] eqn:E; [cbn [fst length]; lia|].
  destruct (emits hf_weights rest) as [[w' out'] oe]. cbn [fst] in *.
  rewrite length_app.
  pose proof (yields_emit _ _ _ _ _ _ (body_at_most_one hf_weights k v) E) as [Hw _].
  lia.
Qed.

(** X6.  What a run leaves behind: a run that raises writes no file; a run that
    returns hands back the configuration of the model and has written
    [nemo_weights], and nothing else, under the given path. *)
Theorem convert_weights_outcome (hf_model : T5ForConditionalGeneration A) path st r st' :
  convert_weights hf_model path st = (r, st') ->
  match r with
  | inl _ => files st' = files st
  | inr c =>
      c = config hf_model /\
      files st' = setitem (files st) path (nemo_weights st') /\
      get (files st') path = Some (nemo_weights st') /\
      forall other, other <> path -> get (files st') other = get (files st) other
  end.
Proof.
  rewrite convert_weights_emits.
  destruct (emits (state_dict hf_model) (state_dict hf_model)) as [[w out] [e|]].
  - intros [= <- <-]. reflexivity.
  - intros [= <- <-]. cbn [files nemo_weights].
    repeat split.
    + apply get_setitem_eq.
    + intros other Hother. now apply get_setitem_neq.
Qed.

Lemma convert_weights_nemo_weights (hf_model : T5ForConditionalGeneration A) path st c st' :
  convert_weights hf_model path st = (OK c, st') ->
  nemo_weights st'
  = fold_left (fun d kt => setitem d (fst kt) (snd kt))
      (fst (fst (emits (state_dict hf_model) (state_dict hf_model)))) [].
Proof.
  rewrite convert_weights_emits.
  destruct (emits (state_dict hf_model) (state_dict hf_model)) as [[w out] [e|]].
  - discriminate.
  - intros [= _ <-]. reflexivity.
Qed.

(** X7.  The target mapping of a run that returns: its keys are distinct and
    start with [enc_dec_model.], and it has no more entries than the
    source mapping. *)
Theorem target_mapping_shape (hf_model : T5ForConditionalGeneration A) path st c st' :
  convert_weights hf_model path st = (OK c, st') ->
  NoDup (keys (nemo_weights st')) /\
  length (nemo_weights st') <= length (state_dict hf_model) /\
  forall key, In key (keys (nemo_weights st')) -> Py.startswith "enc_dec_model." key = true.
Proof.
  intros Hrun. rewrite (convert_weights_nemo_weights _ _ _ _ _ Hrun).
  split; [apply NoDup_keys_fold_setitem; constructor|]. split.
  - pose proof (length_fold_setitem
                  (fst (fst (emits (state_dict hf_model) (state_dict hf_model)))) []) as H1.
    pose proof (emits_length (state_dict hf_model) (state_dict hf_model)) as H2.
    cbn [length] in H1. lia.
  - intros key Hkey. unfold keys in Hkey. apply in_map_iff in Hkey as ([key' t] & <- & Hin).
    apply In_fold_setitem in Hin as [Hin|[]].
    apply emits_entries in Hin as (k & v & w & out & _ & He & Hw).
    apply (yields_emit _ _ _ _ _ _ (body_targets_prefix (state_dict hf_model) k v) He).
    unfold keys. apply in_map_iff. now exists (key', t).
Qed.

(** X8.  Every tensor of the target mapping is the tensor of a source entry, or
    the concatenation of the tensor of a source entry with the tensors of
    its siblings. *)
Theorem target_tensors_from_source (hf_model : T5ForConditionalGeneration A) path st c st' :
  convert_weights hf_model path st = (OK c, st') ->
  forall key t, In (key, t) (nemo_weights st') ->
  exists k v,
    In (k, v) (state_dict hf_model) /\
    (t = v \/
     (exists k_weight v_weight,
        get (state_dict hf_model) (Py.replace k "q.weight" "k.weight") = Some k_weight /\
        get (state_dict hf_model) (Py.replace k "q.weight" "v.weight") = Some v_weight /\
        torch_cat [v; k_weight; v_weight] = OK t) \/
     (exists v_weight,
        get (state_dict hf_model) (Py.replace k "k.weight" "v.weight") = Some v_weight /\
        torch_cat [v; v_weight] = OK t)).
Proof.
  intros Hrun key t Hin. rewrite (convert_weights_nemo_weights _ _ _ _ _ Hrun) in Hin.
  apply In_fold_setitem in Hin as [Hin|[]].
  apply emits_entries in Hin as (k & v & w & out & Hkv & He & Hw).
  exists k, v. split; [exact Hkv|].
  exact (yields_emit _ _ _ _ _ _ (body_provenance (state_dict hf_model) k v) He key t Hw).
Qed.

End RunShape.

(** The value sibling of a cross-attention key carries the value pattern. *)
Lemma replace_k_sibling k :
  Py.contains "EncDecAttention.k.weight" k = true ->
  Py.contains "EncDecAttention.v.weight" (Py.replace k "k.weight" "v.weight") = true.
Proof.
  intros Hk. apply PyFacts.contains_split in Hk as (x & y & ->). unfold Py.replace.
  destruct (PyFacts.replace_marked "k" ".weight" "v.weight" "E"
              "ncDecAttention.k.weight" "EncDecAttention.v.weight") with (x := x) (y := y)
    as [x' Hx'].
  - reflexivity.
  - intros y'. reflexivity.
  - change ("EncDecAttention.k.weight" ++ y) with (String "E" "ncDecAttention.k.weight" ++ y).
    rewrite Hx'. apply PyFacts.contains_intro.
Qed.

Section Lookups.
Context {A : Type}.
Implicit Types (hf_weights : dict (tensor A)) (k : string) (v : tensor A) (st : state A).

(** The body looks up the siblings of the key it handles, and nothing else. *)
Lemma body_ext_siblings hf_weights hf_weights' k v :
  (Py.contains "SelfAttention.q.weight" k = true ->
   get hf_weights (Py.replace k "q.weight" "k.weight")
   = get hf_weights' (Py.replace k "q.weight" "k.weight") /\
   get hf_weights (Py.replace k "q.weight" "v.weight")
   = get hf_weights' (Py.replace k "q.weight" "v.weight")) ->
  (Py.contains "EncDecAttention.k.weight" k = true ->
   get hf_weights (Py.replace k "k.weight" "v.weight")
   = get hf_weights' (Py.replace k "k.weight" "v.weight")) ->
  body hf_weights k v = body hf_weights' k v.
Proof.
  intros Hq Hk. unfold body, getitem.
  destruct (Py.contains "SelfAttention.q.weight" k).
  - destruct (Hq eq_refl) as [-> ->]. reflexivity.
  - destruct (Py.contains "EncDecAttention.k.weight" k).
    + rewrite (Hk eq_refl). reflexivity.
    + reflexivity.
Qed.

(** X9.  The tensor under [shared.weight] has no part in the result. *)
Theorem shared_weight_ignored hf_weights (t' : tensor A) cfg path st :
  In "shared.weight" (keys hf_weights) ->
  convert_weights {| config := cfg; state_dict := setitem hf_weights "shared.weight" t' |} path st
  = convert_weights {| config := cfg; state_dict := hf_weights |} path st.
Proof.
  intros Hin.
  set (hf' := setitem hf_weights "shared.weight" t').
  assert (Hbody : forall k v, body hf' k v = body hf_weights k v).
  { intros k v. apply body_ext_siblings.
    - intros Hq. 
      destruct (PyFacts.replace_q_sibling "k" k (or_introl eq_refl) Hq) as [Hk _].
      destruct (PyFacts.replace_q_sibling "v" k (or_intror eq_refl) Hq) as [Hv _].
      unfold hf'. split; apply get_setitem_neq; intros E.
      + rewrite <- E in Hk. discriminate Hk.
      + rewrite <- E in Hv. discriminate Hv.
    - intros Hk. apply replace_k_sibling in Hk.
      unfold hf'. apply get_setitem_neq. intros E. rewrite <- E in Hk. discriminate Hk. }
  assert (Hext : forall items st0,
             for_items items (body hf') st0 = for_items items (body hf_weights) st0).
  { induction items as [|[k v] rest IH]; intros st0; [reflexivity|].
    cbn [for_items]. unfold bind. rewrite Hbody.
    destruct (body hf_weights k v st0) as [[e|[]] st1]; [reflexivity | apply IH]. }
  assert (Hfor : forall items st0,
             In "shared.weight" (keys items) ->
             for_items (setitem items "shared.weight" t') (body hf') st0
             = for_items items (body hf_weights) st0).
  { induction items as [|[k0 v0] rest IH]; intros st0 Hi; [destruct Hi|].
    cbn [setitem]. destruct (String.eqb_spec k0 "shared.weight") as [->|Hneq].
    - cbn [for_items]. unfold bind. rewrite Hbody.
      change (body hf_weights "shared.weight" t' st0) with (@OK unit tt, st0).
      change (body hf_weights "shared.weight" v0 st0) with (@OK unit tt, st0).
      apply Hext.
    - cbn [for_items]. unfold bind. rewrite Hbody.
      destruct (body hf_weights k0 v0 st0) as [[e|[]] st1]; [reflexivity|].
      apply IH. destruct Hi as [Hi|Hi]; [cbn in Hi; congruence | exact Hi]. }
  assert (Hlen : length (keys hf') = length (keys hf_weights)).
  { unfold hf', keys. rewrite !length_map. clear Hbody Hext Hfor hf'.
    induction hf_weights as [|[k0 v0] rest IH]; [destruct Hin|].
    cbn [setitem]. destruct (String.eqb_spec k0 "shared.weight") as [->|Hneq]; [reflexivity|].
    cbn [length]. f_equal. apply IH.
    destruct Hin as [Hi|Hi]; [cbn in Hi; congruence | exact Hi]. }
  unfold convert_weights, bind. cbn [config state_dict].
  fold hf'. rewrite Hlen.
  cbn [print nemo_weights stdout files].
  pose proof (fun st0 => Hfor hf_weights st0 Hin) as Hrun.
  change (setitem hf_weights "shared.weight" t') with hf' in Hrun.
  now rewrite Hrun.
Qed.

(** X4.  A run without an assignment: the key is the tied embedding or a
    sibling that a fusion takes in. *)
Theorem passed_over_keys hf_weights k v out :
  emit hf_weights k v = OK ([], out) ->
  out = [] /\
  (k = "shared.weight" \/
   Py.contains "SelfAttention.k.weight" k = true \/
   Py.contains "SelfAttention.v.weight" k = true \/
   Py.contains "EncDecAttention.v.weight" k = true).
Proof.
  intros E. split.
  - assert (Hy : yields (body hf_weights k v) (fun w out => w = [] -> out = [])).
    { unfold body.
      repeat yields_step ltac:(intros Hw; first [discriminate Hw | reflexivity]). }
    exact (yields_emit _ _ _ _ _ _ Hy E eq_refl).
  - exact (yields_emit _ _ _ _ _ _ (body_no_silent_drop hf_weights k v) E eq_refl).
Qed.

(** X5.  The exception of a fusion whose sibling is missing is the [KeyError]
    of the key that [replace] derives. *)
Theorem missing_sibling_named hf_weights k v model_type block_number layer_number st :
  _get_model_type_block_layer k = OK (model_type, block_number, layer_number) ->
  (Py.contains "SelfAttention.q.weight" k = true ->
   get hf_weights (Py.replace k "q.weight" "k.weight") = None ->
   body hf_weights k v st = (Err (KeyError (Py.replace k "q.weight" "k.weight")), st)) /\
  (Py.contains "SelfAttention.q.weight" k = true ->
   get hf_weights (Py.replace k "q.weight" "k.weight") <> None ->
   get hf_weights (Py.replace k "q.weight" "v.weight") = None ->
   body hf_weights k v st = (Err (KeyError (Py.replace k "q.weight" "v.weight")), st)) /\
  (matches_none self_attention_patterns k = true ->
   Py.contains "EncDecAttention.k.weight" k = true ->
   get hf_weights (Py.replace k "k.weight" "v.weight") = None ->
   body hf_weights k v st = (Err (KeyError (Py.replace k "k.weight" "v.weight")), st)).
Proof.
  intros Hparse. split; [|split].
  - intros Hq Hnone. rewrite body_self_attention_q by exact Hq.
    unfold bind, lift, getitem. now rewrite Hparse, Hnone.
  - intros Hq Hsome Hnone. rewrite body_self_attention_q by exact Hq.
    unfold bind, lift, getitem. rewrite Hparse.
    destruct (get hf_weights (Py.replace k "q.weight" "k.weight")); [|contradiction].
    cbn [OK]. now rewrite Hnone.
  - intros Hs Hk Hnone. rewrite body_cross_attention_k by assumption.
    unfold bind, lift, getitem. now rewrite Hparse, Hnone.
Qed.

End Lookups.

Section Helper.

Lemma split_nonempty sep s : Py.split sep s <> [].
Proof.
  destruct s as [|c s]; cbn [Py.split]; [discriminate|].
  destruct (Ascii.eqb c sep); [discriminate|].
  destruct (Py.split sep s); discriminate.
Qed.

(** [split] of two parts joined by the separator. *)
Lemma split_join sep a b :
  Py.split sep (a ++ String sep b) = (Py.split sep a ++ Py.split sep b)%list.
Proof.
  induction a as [|c a IH].
  - cbn. now rewrite Ascii.eqb_refl.
  - change (String c a ++ String sep b) with (String c (a ++ String sep b)).
    cbn [Py.split]. rewrite IH. destruct (Ascii.eqb c sep); [reflexivity|].
    pose proof (split_nonempty sep a) as Hne.
    destruct (Py.split sep a) as [|h t]; [contradiction | reflexivity].
Qed.

Lemma startswith_app_l p k x :
  Py.startswith p k = true -> Py.startswith p (k ++ x) = true.
Proof.
  intros H. apply PyFacts.startswith_split in H as [r ->].
  rewrite PyFacts.append_assoc. apply PyFacts.startswith_app.
Qed.

Lemma index_app_l {T : Type} (l1 l2 : list T) i x :
  index l1 i = OK x -> index (l1 ++ l2) i = OK x.
Proof.
  unfold index. destruct (nth_error l1 i) as [y|] eqn:E; [|discriminate].
  intros [= <-]. rewrite nth_error_app1; [now rewrite E|].
  apply nth_error_Some. congruence.
Qed.

(** X1.  The helper reads back the module, block and sub-layer that a block key
    was printed from. *)
Theorem helper_reads_block_key m (b l : Z) leaf :
  _get_model_type_block_layer (block_key m (Py.str b) (Py.str l) leaf)
  = OK (module_name m, b, l).
Proof.
  apply parse_block_key;
    first [apply PyFacts.all_numeric_str | apply PyFacts.int_str].
Qed.

(** X2.  What the helper returns for a key it returns for a longer key too:
    segments after the fifth are not looked at. *)
Theorem helper_ignores_deeper_segments k rest r :
  _get_model_type_block_layer k = OK r ->
  _get_model_type_block_layer (k ++ String "." rest) = OK r.
Proof.
  unfold _get_model_type_block_layer. intros H.
  assert (Hmt : (if Py.startswith "encoder" (k ++ String "." rest) then OK "encoder"
                 else if Py.startswith "decoder" (k ++ String "." rest) then OK "decoder"
                 else Err (ValueError ("Unknown model type for " ++ (k ++ String "." rest))))
                = (if Py.startswith "encoder" k then @OK string "encoder"
                   else if Py.startswith "decoder" k then OK "decoder"
                   else Err (ValueError ("Unknown model type for " ++ k)))).
  { destruct (Py.startswith "encoder" k) eqn:He.
    - now rewrite (startswith_app_l _ _ _ He).
    - destruct (Py.startswith "decoder" k) eqn:Hd;
        [|rewrite ?He, ?Hd in H; discriminate H].
      rewrite (startswith_app_l _ _ _ Hd).
      apply PyFacts.startswith_split in Hd as [x ->]. reflexivity. }
  rewrite Hmt. rewrite split_join.
  destruct (if Py.startswith "encoder" k then @OK string "encoder"
            else if Py.startswith "decoder" k then OK "decoder"
            else Err (ValueError ("Unknown model type for " ++ k))) as [e|mt];
    [exact H|].
  cbn [rbind] in H |- *.
  destruct (index (Py.split "." k) 2) as [e|s2] eqn:E2; [discriminate H|].
  rewrite (index_app_l _ _ _ _ E2). cbn [rbind OK] in H |- *.
  destruct (int s2) as [e|b]; [exact H|]. cbn [rbind] in H |- *.
  destruct (index (Py.split "." k) 4) as [e|s4] eqn:E4; [discriminate H|].
  rewrite (index_app_l _ _ _ _ E4). exact H.
Qed.

End Helper.

(** ** Checkpoints in the source naming scheme, entry by entry *)

Section SchemeEntries.
Context {A : Type}.

Lemma emit_named_entry (hf_weights : dict (tensor A)) p t :
  in_scheme p = true -> fusable hf_weights (p, t) = true ->
  exists out,
    emit hf_weights (hf_name p) t
    = OK (match expected_entry hf_weights (p, t) with Some e => [e] | None => [] end, out).
Proof.
  intros Hin Hfus.
  destruct p as [| |m|m|m b p|b p|m b w|m b l|m]; cbn [hf_name expected_target].
  - eexists. reflexivity.
  - eexists. reflexivity.
  - destruct m; eexists; reflexivity.
  - destruct m; eexists; reflexivity.
  - destruct p; cbn [projection_name].
    + unfold fusable in Hfus. cbn [fst snd] in Hfus.
      destruct (get hf_weights (hf_name (SelfAttention m b ProjK))) as [kw|] eqn:Hk; [|discriminate].
      destruct (get hf_weights (hf_name (SelfAttention m b ProjV))) as [vw|] eqn:Hv; [|discriminate].
      unfold concatenable in Hfus.
      destruct (torch_cat [t; kw; vw]) as [e|fused] eqn:Hcat; [discriminate|].
      pose proof Hk as Hk0. pose proof Hv as Hv0.
      at_block_key m (nat_str b) "0" ("SelfAttention." ++ "q" ++ ".weight") (Z.of_nat b) 0%Z.
      change ("SelfAttention." ++ "q" ++ ".weight") with "SelfAttention.q.weight".
      rewrite (replace_self_attention_q m b "k" (or_introl eq_refl)).
      rewrite (replace_self_attention_q m b "v" (or_intror eq_refl)).
      change (get hf_weights (block_key m (nat_str b) "0" ("SelfAttention." ++ String "k" ".weight"))
              = Some kw) in Hk.
      change (get hf_weights (block_key m (nat_str b) "0" ("SelfAttention." ++ String "v" ".weight"))
              = Some vw) in Hv.
      unfold getitem. rewrite Hk, Hv. cbn [OK].
      rewrite Hcat. eexists. unfold expected_entry. cbn [fst snd expected_target].
      rewrite Hk0, Hv0, Hcat. reflexivity.
    + at_block_key m (nat_str b) "0" ("SelfAttention." ++ "k" ++ ".weight") (Z.of_nat b) 0%Z.
      eexists. reflexivity.
    + at_block_key m (nat_str b) "0" ("SelfAttention." ++ "v" ++ ".weight") (Z.of_nat b) 0%Z.
      eexists. reflexivity.
    + at_block_key m (nat_str b) "0" ("SelfAttention." ++ "o" ++ ".weight") (Z.of_nat b) 0%Z.
      eexists. reflexivity.
  - destruct p; cbn [projection_name].
    + at_block_key Decoder (nat_str b) "1" ("EncDecAttention." ++ "q" ++ ".weight") (Z.of_nat b) 1%Z.
      eexists. reflexivity.
    + unfold fusable in Hfus. cbn [fst snd] in Hfus.
      destruct (get hf_weights (hf_name (EncDecAttention b ProjV))) as [vw|] eqn:Hv; [|discriminate].
      unfold concatenable in Hfus.
      destruct (torch_cat [t; vw]) as [e|fused] eqn:Hcat; [discriminate|].
      pose proof Hv as Hv0.
      at_block_key Decoder (nat_str b) "1" ("EncDecAttention." ++ "k" ++ ".weight") (Z.of_nat b) 1%Z.
      change ("EncDecAttention." ++ "k" ++ ".weight") with "EncDecAttention.k.weight".
      rewrite (replace_cross_attention_k b).
      change (get hf_weights (block_key Decoder (nat_str b) "1" "EncDecAttention.v.weight") = Some vw)
        in Hv.
      unfold getitem. rewrite Hv. cbn [OK].
      rewrite Hcat. eexists. unfold expected_entry. cbn [fst snd expected_target].
      rewrite Hv0, Hcat. reflexivity.
    + at_block_key Decoder (nat_str b) "1" ("EncDecAttention." ++ "v" ++ ".weight") (Z.of_nat b) 1%Z.
      eexists. reflexivity.
    + at_block_key Decoder (nat_str b) "1" ("EncDecAttention." ++ "o" ++ ".weight") (Z.of_nat b) 1%Z.
      eexists. reflexivity.
  - destruct m, w; cbn [ffn_sublayer ffn_weight_name].
    + at_block_key Encoder (nat_str b) "1" ("DenseReluDense." ++ "wi_0" ++ ".weight") (Z.of_nat b) 1%Z.
      eexists. reflexivity.
    + at_block_key Encoder (nat_str b) "1" ("DenseReluDense." ++ "wi_1" ++ ".weight") (Z.of_nat b) 1%Z.
      eexists. reflexivity.
    + at_block_key Encoder (nat_str b) "1" ("DenseReluDense." ++ "wo" ++ ".weight") (Z.of_nat b) 1%Z.
      eexists. reflexivity.
    + at_block_key Decoder (nat_str b) "2" ("DenseReluDense." ++ "wi_0" ++ ".weight") (Z.of_nat b) 2%Z.
      eexists. reflexivity.
    + at_block_key Decoder (nat_str b) "2" ("DenseReluDense." ++ "wi_1" ++ ".weight") (Z.of_nat b) 2%Z.
      eexists. reflexivity.
    + at_block_key Decoder (nat_str b) "2" ("DenseReluDense." ++ "wo" ++ ".weight") (Z.of_nat b) 2%Z.
      eexists. reflexivity.
  - destruct m; destruct l as [|[|[|l]]]; try discriminate Hin.
    + at_block_key Encoder (nat_str b) (nat_str 0) "layer_norm.weight" (Z.of_nat b) 0%Z.
      eexists. reflexivity.
    + at_block_key Encoder (nat_str b) (nat_str 1) "layer_norm.weight" (Z.of_nat b) 1%Z.
      eexists. reflexivity.
    + at_block_key Decoder (nat_str b) (nat_str 0) "layer_norm.weight" (Z.of_nat b) 0%Z.
      eexists. reflexivity.
    + at_block_key Decoder (nat_str b) (nat_str 1) "layer_norm.weight" (Z.of_nat b) 1%Z.
      eexists. reflexivity.
    + at_block_key Decoder (nat_str b) (nat_str 2) "layer_norm.weight" (Z.of_nat b) 2%Z.
      eexists. reflexivity.
  - destruct m; eexists; reflexivity.
Qed.

End SchemeEntries.

(** ** Names and targets of the scheme are distinct *)

Lemma nat_str_inj a b : nat_str a = nat_str b -> a = b.
Proof. intros H. apply PyFacts.str_inj in H. now apply Nat2Z.inj. Qed.

Lemma layer_key_inj m b leaf m' b' leaf' :
  layer_key m b leaf = layer_key m' b' leaf' ->
  m = m' /\ b = b' /\ leaf ++ ".weight" = leaf' ++ ".weight".
Proof.
  unfold layer_key. intros H.
  assert (Hm : m = m') by (destruct m, m'; simpl in H; congruence).
  subst m'. split; [reflexivity|].
  assert (H1 : nat_str b ++ String "." (leaf ++ ".weight")
               = nat_str b' ++ String "." (leaf' ++ ".weight")).
  { destruct m; simpl in H; injection H as H; exact H. }
  apply app_numeric_dot_inj in H1 as [Hb H1]; try apply numeric_nat_str.
  split; [now apply nat_str_inj | exact H1].
Qed.

Ltac close_pair H :=
  repeat match goal with
         | p : projection |- _ => destruct p
         | w : ffn_weight |- _ => destruct w
         end;
  cbn in H; first [discriminate H | reflexivity | congruence].

Ltac name_pair H :=
  first
    [ apply block_key_inj in H;
      [ let Hm := fresh "Hm" in
        let Hd := fresh "Hd" in
        let Hl := fresh "Hl" in
        let Hleaf := fresh "Hleaf" in
        destruct H as (Hm & Hd & Hl & Hleaf);
        try apply nat_str_inj in Hd; try apply nat_str_inj in Hl;
        subst; close_pair Hleaf
      | numeric_run .. ]
    | unfold block_key in H;
      repeat match goal with m : module |- _ => destruct m end;
      cbn in H; first [discriminate H | reflexivity | congruence] ].

(** Different parameters have different names. *)
Lemma hf_name_inj p p' : hf_name p = hf_name p' -> p = p'.
Proof.
  intros H.
  destruct p as [| |m|m|m b p|b p|m b w|m b l|m];
    destruct p' as [| |m'|m'|m' b' p'|b' p'|m' b' w'|m' b' l'|m'];
    cbn [hf_name] in H; name_pair H.
Qed.

Lemma some_inj {T : Type} (a b : T) : Some a = Some b -> a = b.
Proof. now intros [= ->]. Qed.

Ltac target_pair H :=
  first
    [ apply layer_key_inj in H;
      let Hm := fresh "Hm" in
      let Hb := fresh "Hb" in
      let Hleaf := fresh "Hleaf" in
      destruct H as (Hm & Hb & Hleaf);
      subst; cbn in Hleaf; first [discriminate Hleaf | reflexivity | congruence]
    | unfold layer_key in H;
      repeat match goal with m : module |- _ => destruct m end;
      cbn in H; first [discriminate H | reflexivity | congruence] ].

(** Different parameters have different expected targets. *)
Lemma expected_target_inj p p' key :
  expected_target p = Some key -> expected_target p' = Some key -> p = p'.
Proof.
  intros H H'.
  destruct p as [| |m|m|m b [| | |]|b [| | |]|m b [| |]|[|] b [|[|[|l]]]|m];
    cbn [expected_target] in H; try discriminate H;
    injection H as H; subst key;
    destruct p' as [| |m'|m'|m' b' [| | |]|b' [| | |]|m' b' [| |]|[|] b' [|[|[|l']]]|m'];
    cbn [expected_target] in H'; try discriminate H'; try reflexivity;
    apply some_inj in H'; target_pair H'.
Qed.

Section SchemeResult.
Context {A : Type}.
Implicit Types (hf_weights w : dict (tensor A)) (params : list (hf_param * tensor A)).


Lemma assignments_named_entries hf_weights params :
  (forall entry, In entry params ->
     in_scheme (fst entry) = true /\ fusable hf_weights entry = true) ->
  assignments hf_weights (named params)
  = flat_map (fun entry => entry_list (expected_entry hf_weights entry)) params.
Proof.
  induction params as [|[p t] params IH]; intros H; [reflexivity|].
  destruct (H (p, t) (or_introl eq_refl)) as [Hin Hfus]. cbn [fst] in Hin.
  destruct (emit_named_entry hf_weights p t Hin Hfus) as [out He].
  cbn [named map assignments flat_map fst snd]. rewrite He. unfold OK.
  fold (named params). fold (assignments hf_weights (named params)).
  rewrite IH; [reflexivity|]. intros entry Hentry. apply H. now right.
Qed.

Lemma expected_entry_target hf_weights entry key f :
  expected_entry hf_weights entry = Some (key, f) ->
  expected_target (fst entry) = Some key.
Proof.
  unfold expected_entry. destruct (expected_target (fst entry)) as [key'|]; [|discriminate].
  intros H. f_equal.
  destruct (fst entry) as [| |m|m|m b [| | |]|b [| | |]|m b w|m b l|m];
    repeat match type of H with
           | match ?x with _ => _ end = _ => destruct x; try discriminate H
           end;
    now injection H as -> _.
Qed.

Lemma expected_entry_defined hf_weights entry key :
  fusable hf_weights entry = true ->
  expected_target (fst entry) = Some key ->
  exists f, expected_entry hf_weights entry = Some (key, f).
Proof.
  unfold expected_entry, fusable, concatenable. intros Hfus ->.
  destruct (fst entry) as [| |m|m|m b [| | |]|b [| | |]|m b w|m b l|m];
    try (eexists; reflexivity).
  - destruct (get hf_weights (hf_name (SelfAttention m b ProjK))); [|discriminate].
    destruct (get hf_weights (hf_name (SelfAttention m b ProjV))); [|discriminate].
    destruct (torch_cat _); [discriminate | eexists; reflexivity].
  - destruct (get hf_weights (hf_name (EncDecAttention b ProjV))); [|discriminate].
    destruct (torch_cat _); [discriminate | eexists; reflexivity].
Qed.

Lemma NoDup_keys_entries hf_weights params :
  NoDup (map fst params) ->
  NoDup (keys (flat_map (fun entry => entry_list (expected_entry hf_weights entry)) params)).
Proof.
  induction params as [|[p t] params IH]; intros Hnd; [constructor|].
  inversion Hnd as [|? ? Hnot Hnd']; subst. cbn [flat_map].
  unfold keys. rewrite map_app.
  destruct (expected_entry hf_weights (p, t)) as [[key f]|] eqn:E; cbn [entry_list map app fst].
  - constructor; [|now apply IH].
    intros Hin. apply in_map_iff in Hin as ([key' f'] & Hk & Hin). cbn [fst] in Hk. subst key'.
    apply in_flat_map in Hin as ([p' t'] & Hp' & Hin).
    destruct (expected_entry hf_weights (p', t')) as [e'|] eqn:E'; [|destruct Hin].
    destruct Hin as [->|[]].
    apply expected_entry_target in E, E'. cbn [fst] in E, E'.
    rewrite (expected_target_inj p p' key E E') in Hnot.
    apply Hnot. apply in_map_iff. now exists (p', t').
  - now apply IH.
Qed.

Lemma get_In_NoDup w key (f : tensor A) :
  NoDup (keys w) -> In (key, f) w -> get w key = Some f.
Proof.
  induction w as [|[k0 t0] w IH]; intros Hnd Hin; [destruct Hin|].
  inversion Hnd as [|? ? Hnot Hnd']; subst. cbn [get].
  destruct Hin as [[= -> ->]|Hin].
  - now rewrite String.eqb_refl.
  - destruct (String.eqb_spec k0 key) as [->|]; [|now apply IH].
    exfalso. apply Hnot. unfold keys. apply in_map_iff. now exists (key, f).
Qed.

Lemma NoDup_keys_named params : NoDup (map fst params) -> NoDup (keys (named params)).
Proof.
  induction params as [|[p t] params IH]; intros Hnd; [constructor|].
  inversion Hnd as [|? ? Hnot Hnd']; subst. cbn [named map keys fst].
  constructor; [|now apply IH].
  intros Hin. apply in_map_iff in Hin as ([k v] & Hk & Hin). cbn [fst] in Hk. subst k.
  apply in_map_iff in Hin as ([p' t'] & [= Hname ->] & Hin).
  apply hf_name_inj in Hname. subst p'.
  apply Hnot. apply in_map_iff. now exists (p, v).
Qed.

Lemma convertible_entries params :
  convertible params = true ->
  forall entry, In entry params ->
    in_scheme (fst entry) = true /\ fusable (named params) entry = true.
Proof.
  unfold convertible. rewrite forallb_forall. intros H entry Hin.
  apply andb_true_iff. now apply H.
Qed.

End SchemeResult.

(** ** The converted checkpoint *)

Section SchemeTheorems.
Context {A : Type}.
Implicit Types (params : list (hf_param * tensor A)).

Lemma setitem_new {V : Type} (d : dict V) key (x : V) :
  ~ In key (keys d) -> setitem d key x = (d ++ [(key, x)])%list.
Proof.
  induction d as [|[k0 x0] d IH]; intros Hnot; [reflexivity|].
  cbn [setitem app]. destruct (String.eqb_spec k0 key) as [->|].
  - exfalso. apply Hnot. now left.
  - rewrite IH; [reflexivity|]. intros Hin. apply Hnot. now right.
Qed.

Lemma fold_setitem_new {V : Type} (w d : dict V) :
  NoDup (keys (d ++ w)%list) ->
  fold_left (fun d kt => setitem d (fst kt) (snd kt)) w d = (d ++ w)%list.
Proof.
  revert d. induction w as [|[k0 x0] w IH]; intros d Hnd; cbn [fold_left fst snd].
  - now rewrite app_nil_r.
  - assert (Hnot : ~ In k0 (keys d)).
    { intros Hin. unfold keys in Hnd. rewrite map_app in Hnd.
      apply NoDup_remove_2 in Hnd. apply Hnd. apply in_or_app. now left. }
    rewrite (setitem_new d k0 x0 Hnot), IH; rewrite <- app_assoc; [reflexivity | exact Hnd].
Qed.

(** X10.  On a checkpoint in the source naming scheme with distinct
    parameters, whose fusions can be made, [convert_weights] returns the
    configuration, and the target mapping it has built and saved under
    [path] is the list of the expected entries, one per parameter that has a
    target, in the order of the source: each tensor under its target key,
    the query, key and value projections of a self-attention fused under
    one key, the key and value projections of a cross-attention fused under
    one key, and nothing for [shared.weight] and the fused siblings. *)
Theorem scheme_entries_converted params cfg path st :
  convertible params = true ->
  NoDup (map fst params) ->
  exists st',
    convert_weights {| config := cfg; state_dict := named params |} path st = (OK cfg, st') /\
    nemo_weights st' = expected_entries params /\
    get (files st') path = Some (expected_entries params).
Proof.
  intros Hconv Hnd.
  pose proof (convertible_entries params Hconv) as Hent.
  destruct (assignments_named (named params) params Hent) as [Hall _].
  destruct (emits_None (named params) (named params) Hall) as [out E].
  rewrite (assignments_named_entries (named params) params Hent) in E.
  fold (expected_entries params) in E.
  assert (Hw : fold_left (fun d kt => setitem d (fst kt) (snd kt)) (expected_entries params) []
               = expected_entries params).
  { apply (fold_setitem_new (expected_entries params) []). now apply NoDup_keys_entries. }
  eexists. split; [|split].
  - rewrite convert_weights_emits. cbn [state_dict]. rewrite E. reflexivity.
  - unfold extend, started. cbn [nemo_weights]. exact Hw.
  - unfold extend, started. cbn [nemo_weights files]. rewrite get_setitem, String.eqb_refl.
    now rewrite Hw.
Qed.

(** X11.  On checkpoints in the source naming scheme the order of the
    entries does not matter to the target mapping: two orders of the same
    distinct parameters both return, with target mappings that agree at
    every key. *)
Theorem scheme_order_independent params1 params2 cfg path st :
  Permutation params1 params2 ->
  NoDup (map fst params1) ->
  convertible params1 = true ->
  exists st1 st2,
    convert_weights {| config := cfg; state_dict := named params1 |} path st = (OK cfg, st1) /\
    convert_weights {| config := cfg; state_dict := named params2 |} path st = (OK cfg, st2) /\
    forall key, get (nemo_weights st1) key = get (nemo_weights st2) key.
Proof.
  intros Hperm Hnd Hconv.
  set (hf1 := named params1). set (hf2 := named params2).
  assert (Hperm' : Permutation hf1 hf2) by (apply Permutation_map; exact Hperm).
  assert (Hkeys : NoDup (keys hf1)) by now apply NoDup_keys_named.
  assert (Hget : forall key, get hf2 key = get hf1 key).
  { intros key. symmetry. now apply get_perm. }
  pose proof (convertible_entries params1 Hconv) as Hent.
  destruct (assignments_named hf1 params1 Hent) as [Hall _].
  assert (Hall2 : Forall (handled hf1) hf2).
  { rewrite Forall_forall in *. intros kv Hin. apply Hall.
    apply (Permutation_in _ (Permutation_sym Hperm') Hin). }
  destruct (emits_None hf1 hf1 Hall) as [o1 E1].
  destruct (emits_None hf1 hf2 Hall2) as [o2 E2].
  rewrite <- (emits_ext hf2 hf1 hf2 Hget) in E2.
  assert (Hw : NoDup (keys (assignments hf1 hf1))).
  { unfold hf1 at 2. rewrite (assignments_named_entries hf1 params1 Hent).
    now apply NoDup_keys_entries. }
  pose proof (assignments_perm hf1 hf1 hf2 Hperm') as Hpw.
  do 2 eexists. split; [|split].
  - rewrite convert_weights_emits. cbn [state_dict]. fold hf1. rewrite E1. reflexivity.
  - rewrite convert_weights_emits. cbn [state_dict]. fold hf2. rewrite E2. reflexivity.
  - intros key. unfold extend, started. cbn [nemo_weights].
    rewrite !get_fold_setitem;
      [|apply (Permutation_NoDup (keys_perm _ _ Hpw) Hw) | exact Hw].
    now rewrite (get_perm _ _ key Hpw Hw).
Qed.

End SchemeTheorems.

(** ** The script *)

Section MainFacts.
Context {A : Type}.
Variable os_path_exists : string -> bool.
Variable from_pretrained : string -> T5ForConditionalGeneration A.
Implicit Types (args : Namespace) (st : state A).

(** X12.  The script checks the base configuration before anything else:
    when the file is missing the run ends in [FileNotFoundError], naming the
    path, with nothing printed or written; when the file is there no
    [FileNotFoundError] is raised. *)
Theorem main_missing_base_config args st :
  (os_path_exists (base_yaml_config args) = false ->
   main os_path_exists from_pretrained args st
   = (inl (FileNotFoundError
             ("Base yaml config file " ++ base_yaml_config args ++ " does not exist.")), st)) /\
  (os_path_exists (base_yaml_config args) = true ->
   forall msg, fst (main os_path_exists from_pretrained args st) <> inl (FileNotFoundError msg)).
Proof.
  unfold main. split; intros ->; cbn [negb]; [reflexivity|].
  intros msg.
  destruct (convert_weights _ _ st) as [[e|c] st']; [discriminate|].
  destruct (package_into_nemo_file c); discriminate.
Qed.

(** X13.  The activation name is checked only after the conversion: when
    [convert_weights] returns a configuration whose [dense_act_fn] is
    neither [silu] nor [gelu_new], the script ends in the [ValueError] that
    names it, and the converted weights have already been saved under
    [nemo_state_dict_path]. *)
Theorem main_unknown_activation args st c st' :
  os_path_exists (base_yaml_config args) = true ->
  convert_weights (from_pretrained (hf_model_name args)) (nemo_state_dict_path args) st
  = (OK c, st') ->
  dense_act_fn c <> "silu" ->
  dense_act_fn c <> "gelu_new" ->
  main os_path_exists from_pretrained args st
  = (inl (Raised (ValueError ("Unknown dense_act_fn: " ++ dense_act_fn c))), st') /\
  get (files st') (nemo_state_dict_path args) = Some (nemo_weights st').
Proof.
  intros Hex Hconv Hsilu Hgelu. split.
  - unfold main. rewrite Hex. cbn [negb]. rewrite Hconv. unfold OK.
    unfold package_into_nemo_file, act_fn.
    destruct (String.eqb_spec (dense_act_fn c) "silu") as [E|_]; [contradiction|].
    destruct (String.eqb_spec (dense_act_fn c) "gelu_new") as [E|_]; [contradiction|].
    reflexivity.
  - revert Hconv. rewrite convert_weights_emits.
    destruct (emits _ _) as [[w out] [e|]]; [discriminate|].
    intros [= _ <-]. cbn [files nemo_weights]. now rewrite get_setitem, String.eqb_refl.
Qed.

(** X14.  An exception of [convert_weights] ends the script as it is, and
    no state dictionary has been saved. *)
Theorem main_conversion_error args st e st' :
  os_path_exists (base_yaml_config args) = true ->
  convert_weights (from_pretrained (hf_model_name args)) (nemo_state_dict_path args) st
  = (Err e, st') ->
  main os_path_exists from_pretrained args st = (inl (Raised e), st') /\
  files st' = files st.
Proof.
  intros Hex Hconv. split.
  - unfold main. rewrite Hex. cbn [negb]. now rewrite Hconv.
  - revert Hconv. rewrite convert_weights_emits.
    destruct (emits _ _) as [[w out] [e'|]]; [|discriminate].
    intros [= _ <-]. reflexivity.
Qed.

End MainFacts.

(** ** What handling one key reports and how it fails *)

Section Fails.
Context {A : Type}.
Implicit Types (P : exn -> Prop).

Lemma fails_pass P : @fails A pass P.
Proof. exact I. Qed.

Lemma fails_raise P e : P e -> @fails A (raise e) P.
Proof. intros H. exact H. Qed.

Lemma fails_set P key t : @fails A (set_nemo_weights key t) P.
Proof. exact I. Qed.

Lemma fails_set_print P key t line : @fails A (set_nemo_weights key t ;; print line) P.
Proof. exact I. Qed.

Lemma fails_if P (b : bool) c1 c2 :
  (b = true -> @fails A c1 P) -> (b = false -> @fails A c2 P) ->
  @fails A (if b then c1 else c2) P.
Proof. destruct b; auto. Qed.

Lemma fails_lift {T : Type} P (r : result T) (f : T -> M A unit) :
  (forall e, r = inl e -> P e) ->
  (forall x, r = inr x -> @fails A (f x) P) -> @fails A (x <- lift r ;; f x) P.
Proof.
  intros He H. unfold fails, bind, lift. destruct r as [e|x]; [now apply He|].
  now apply H.
Qed.

Lemma fails_emit P (hf_weights : dict (tensor A)) k v e :
  fails (body hf_weights k v) P -> emit hf_weights k v = Err e -> P e.
Proof.
  unfold fails, emit. destruct (body hf_weights k v blank) as [[e'|[]] st'].
  - intros H [= <-]. exact H.
  - discriminate.
Qed.

End Fails.

Ltac fails_step tac :=
  first [ apply fails_if; intros ?
        | apply fails_raise; tac
        | apply fails_pass
        | apply fails_set_print
        | apply fails_set
        | apply fails_lift; [intros ? ?; tac | intros [[? ?] ?] ?]
        | apply fails_lift; [intros ? ?; tac | intros ? ?] ].

Section Report.
Context {A : Type}.
Implicit Types (hf_weights : dict (tensor A)) (k : string) (v : tensor A) (st : state A).

Lemma body_report hf_weights k v :
  yields (body hf_weights k v)
    (fun w out =>
       match w, out with
       | [], [] => True
       | [(key, _)], [] => k = "decoder.embed_tokens.weight"
       | [(key, _)], [line] =>
           line = "Mapped " ++ k ++ " to " ++ key \/
           (k = "lm_head.weight" /\
            line = "Mapped " ++ k ++ " to enc_dec_model.decoder_embedding.word_embeddings.weight and enc_dec_model.tokens_head.weight")
       | _, _ => False
       end).
Proof.
  unfold body.
  repeat yields_step
    ltac:(first [ exact I
                | left; reflexivity
                | right; split; [apply String.eqb_eq; assumption | reflexivity]
                | apply String.eqb_eq; assumption ]).
Qed.

(** The errors of the helper. *)
Lemma helper_errors k e :
  _get_model_type_block_layer k = Err e ->
  e = ValueError ("Unknown model type for " ++ k) \/
  e = IndexError \/
  exists seg, In seg (Py.split "." k) /\ e = InvalidLiteral seg.
Proof.
  unfold _get_model_type_block_layer.
  assert (Hseg : forall i e0,
            (let* seg := index (Py.split "." k) i in int seg) = Err e0 ->
            e0 = IndexError \/ exists seg, In seg (Py.split "." k) /\ e0 = InvalidLiteral seg).
  { intros i e0. unfold index, int, rbind.
    destruct (nth_error (Py.split "." k) i) as [seg|] eqn:E; cbn.
    - destruct (Py.int seg); [discriminate|]. intros [= <-]. right. exists seg.
      split; [eapply nth_error_In; eassumption | reflexivity].
    - intros [= <-]. now left. }
  assert (Hrest : forall mt : string,
            (let* block := (let* seg := index (Py.split "." k) 2 in int seg) in
             let* layer := (let* seg := index (Py.split "." k) 4 in int seg) in
             OK (mt, block, layer)) = Err e ->
            e = IndexError \/ exists seg, In seg (Py.split "." k) /\ e = InvalidLiteral seg).
  { intros mt.
    destruct (let* seg := index (Py.split "." k) 2 in int seg) as [e2|b] eqn:E2.
    - cbn. intros [= <-]. exact (Hseg 2%nat e2 E2).
    - destruct (let* seg := index (Py.split "." k) 4 in int seg) as [e4|l] eqn:E4.
      + cbn. intros [= <-]. exact (Hseg 4%nat e4 E4).
      + discriminate. }
  destruct (Py.startswith "encoder" k).
  - intros H. right. exact (Hrest "encoder" H).
  - destruct (Py.startswith "decoder" k).
    + intros H. right. exact (Hrest "decoder" H).
    + cbn. intros [= <-]. now left.
Qed.

Lemma helper_segment k x i e :
  _get_model_type_block_layer k = inr x ->
  (let* seg := index (Py.split "." k) i in int seg) = inl e ->
  i = 2%nat \/ i = 4%nat -> False.
Proof.
  unfold _get_model_type_block_layer. intros H Hi [-> | ->].
  - rewrite Hi in H.
    destruct (Py.startswith "encoder" k); [discriminate|].
    destruct (Py.startswith "decoder" k); discriminate.
  - rewrite Hi in H.
    destruct (let* seg := index (Py.split "." k) 2 in int seg);
      (destruct (Py.startswith "encoder" k); [discriminate|]);
      destruct (Py.startswith "decoder" k); discriminate.
Qed.

Lemma getitem_inl {V : Type} (d : dict V) key e :
  getitem d key = inl e -> e = KeyError key /\ get d key = None.
Proof. unfold getitem. destruct (get d key); [discriminate|]. intros [= <-]. now split. Qed.

Lemma body_failures hf_weights k v :
  fails (body hf_weights k v)
    (fun e =>
       e = ValueError ("Unknown key: " ++ k) \/
       e = ValueError ("Unknown layer_norm key: " ++ k) \/
       _get_model_type_block_layer k = Err e \/
       (exists sibling,
          e = KeyError sibling /\ get hf_weights sibling = None /\
          (sibling = Py.replace k "q.weight" "k.weight" \/
           sibling = Py.replace k "q.weight" "v.weight" \/
           sibling = Py.replace k "k.weight" "v.weight")) \/
       (exists ts : list (tensor A), In v ts /\ torch_cat ts = Err e)).
Proof.
  unfold body.
  repeat fails_step
    ltac:(first [ left; reflexivity
                | right; left; reflexivity
                | right; right; left; assumption
                | exfalso; eapply helper_segment; [eassumption | eassumption | tauto]
                | right; right; right; left;
                  match goal with
                  | H : getitem _ _ = inl _ |- _ =>
                      apply getitem_inl in H; destruct H as [-> ?]
                  end;
                  eexists; split; [reflexivity | split; [eassumption | tauto]]
                | right; right; right; right; eexists; split; [|eassumption];
                  left; reflexivity ]).
Qed.

Lemma emits_raised hf_weights (items : dict (tensor A)) e :
  snd (emits hf_weights items) = Some e ->
  exists k v, In (k, v) items /\ emit hf_weights k v = Err e.
Proof.
  induction items as [|[k v] rest IH]; [discriminate|].
  cbn [emits]. destruct (emit hf_weights k v) as [e'|[w out]] eqn:E.
  - intros [= <-]. exists k, v. split; [now left | exact E].
  - destruct (emits hf_weights rest) as [[w' out'] oe]. cbn [snd] in *.
    intros H. destruct (IH H) as (k' & v' & Hin & He).
    exists k', v'. split; [now right | exact He].
Qed.

Lemma emits_lines hf_weights (items : dict (tensor A)) w out oe :
  emits hf_weights items = (w, out, oe) ->
  length out <= length items /\
  forall line, In line out ->
    exists k, In k (keys items) /\ Py.startswith ("Mapped " ++ k ++ " to ") line = true.
Proof.
  revert w out oe. induction items as [|[k v] rest IH]; intros w out oe.
  - intros [= <- <- <-]. split; [cbn; lia | intros line []].
  - cbn [emits]. destruct (emit hf_weights k v) as [e'|[w0 out0]] eqn:E.
    + intros [= <- <- <-]. split; [cbn; lia | intros line []].
    + destruct (emits hf_weights rest) as [[w' out'] oe'].
      destruct (IH w' out' oe' eq_refl) as [Hlen Hlines].
      intros [= <- <- <-].
      pose proof (yields_emit _ _ _ _ _ _ (body_report hf_weights k v) E) as Hr.
      cbv beta in Hr.
      assert (H0 : length out0 <= 1 /\
                   forall line, In line out0 ->
                     Py.startswith ("Mapped " ++ k ++ " to ") line = true).
      { destruct w0 as [|[key t] [|]], out0 as [|line0 [|]]; try contradiction;
          (split; [cbn; lia|]); intros line Hin; cbn in Hin; try contradiction.
        destruct Hin as [<-|[]].
        assert (Hassoc : forall x y z u : string, x ++ y ++ z ++ u = (x ++ y ++ z) ++ u)
          by (intros; now rewrite !PyFacts.append_assoc).
        destruct Hr as [->|[_ ->]].
        - rewrite Hassoc. apply PyFacts.startswith_app.
        - change ("Mapped " ++ k ++ " to enc_dec_model.decoder_embedding.word_embeddings.weight and enc_dec_model.tokens_head.weight")
            with ("Mapped " ++ k ++ " to " ++ "enc_dec_model.decoder_embedding.word_embeddings.weight and enc_dec_model.tokens_head.weight").
          rewrite Hassoc. apply PyFacts.startswith_app. }
      destruct H0 as [Hlen0 Hlines0]. split.
      * rewrite length_app. cbn [length]. lia.
      * intros line Hin. apply in_app_or in Hin as [Hin|Hin].
        -- exists k. split; [now left | now apply Hlines0].
        -- destruct (Hlines line Hin) as (k' & Hk' & Hs). exists k'. split; [now right | exact Hs].
Qed.

(** X15.  The progress lines are accurate, with two exceptions.  A key
    handled without an exception is passed over silently, or assigns one
    target entry and prints the line [Mapped <k> to <target key>] for that
    very entry; only [decoder.embed_tokens.weight] assigns without a line,
    and only [lm_head.weight] prints a line that names another target
    besides the one it assigns. *)
Theorem progress_report hf_weights k v st st' :
  body hf_weights k v st = (OK tt, st') ->
  (nemo_weights st' = nemo_weights st /\ stdout st' = stdout st) \/
  exists key t,
    nemo_weights st' = setitem (nemo_weights st) key t /\
    ((k = "decoder.embed_tokens.weight" /\ stdout st' = stdout st) \/
     stdout st' = (stdout st ++ [("Mapped " ++ k ++ " to " ++ key)%string])%list \/
     (k = "lm_head.weight" /\
      stdout st'
      = (stdout st ++ ["Mapped lm_head.weight to enc_dec_model.decoder_embedding.word_embeddings.weight and enc_dec_model.tokens_head.weight"])%list)).
Proof.
  rewrite body_frame. destruct (emit hf_weights k v) as [e|[w out]] eqn:E; [discriminate|].
  intros [= <-]. pose proof (yields_emit _ _ _ _ _ _ (body_report hf_weights k v) E) as Hr.
  cbv beta in Hr. unfold extend. cbn [nemo_weights stdout].
  destruct w as [|[key t] [|]], out as [|line [|]]; try contradiction.
  - left. cbn [fold_left]. now rewrite app_nil_r.
  - right. exists key, t. split; [reflexivity|]. left. now rewrite app_nil_r.
  - right. exists key, t. split; [reflexivity|]. right.
    destruct Hr as [->|[Hk ->]]; [now left|]. right. split; [exact Hk|]. now rewrite Hk.
Qed.

(** X16.  The ways the loop over the checkpoint fails.  An exception raised
    while the entries are handled comes from one entry [(k, v)] of the
    checkpoint and is one of: the [ValueError]s [Unknown key: <k>],
    [Unknown layer_norm key: <k>] and [Unknown model type for <k>], which
    name the key; the [IndexError] of a key with too few segments and the
    [ValueError] of [int()] on one of its segments, which do not; the
    [KeyError] of a sibling key derived from [k] and missing in the
    checkpoint; an error of [torch.cat] on a list that holds [v].  (The
    loader before the loop and [torch.save] after it are calls into the
    libraries, and are not part of the statement.) *)
Theorem loop_failures (hf_weights : dict (tensor A)) st e st' :
  for_items hf_weights (body hf_weights) st = (Err e, st') ->
  exists k v,
    In (k, v) hf_weights /\
    (e = ValueError ("Unknown key: " ++ k) \/
     e = ValueError ("Unknown layer_norm key: " ++ k) \/
     e = ValueError ("Unknown model type for " ++ k) \/
     e = IndexError \/
     (exists seg, In seg (Py.split "." k) /\ e = InvalidLiteral seg) \/
     (exists sibling,
        e = KeyError sibling /\ get hf_weights sibling = None /\
        (sibling = Py.replace k "q.weight" "k.weight" \/
         sibling = Py.replace k "q.weight" "v.weight" \/
         sibling = Py.replace k "k.weight" "v.weight")) \/
     (exists ts, In v ts /\ torch_cat ts = Err e)).
Proof.
  rewrite for_items_emits.
  destruct (emits hf_weights hf_weights) as [[w out] [e'|]] eqn:E; [|discriminate].
  intros [= <- _].
  destruct (emits_raised hf_weights hf_weights e') as (k & v & Hin & He); [now rewrite E|].
  exists k, v. split; [exact Hin|].
  pose proof (fails_emit _ _ _ _ _ (body_failures hf_weights k v) He) as Hf.
  cbv beta in Hf.
  destruct Hf as [H|[H|[H|[H|H]]]]; try tauto.
  apply helper_errors in H. tauto.
Qed.

(** X17.  What a run that returns has printed: the line with the number
    of source entries, then at most one line per source entry, each
    starting with [Mapped <k> to ] for a source key [k], then the line
    [Saved weights to <path>]. *)
Theorem run_report (hf_model : T5ForConditionalGeneration A) path st c st' :
  convert_weights hf_model path st = (OK c, st') ->
  exists lines,
    stdout st'
    = (stdout st
         ++ [("Found " ++ Py.str (Z.of_nat (length (state_dict hf_model)))
                ++ " keys in the checkpoint")%string]
         ++ lines ++ [("Saved weights to " ++ path)%string])%list /\
    length lines <= length (state_dict hf_model) /\
    forall line, In line lines ->
      exists k, In k (keys (state_dict hf_model)) /\
                Py.startswith ("Mapped " ++ k ++ " to ") line = true.
Proof.
  rewrite convert_weights_emits.
  destruct (emits (state_dict hf_model) (state_dict hf_model)) as [[w out] [e'|]] eqn:E;
    [discriminate|].
  intros [= _ <-]. exists out.
  destruct (emits_lines _ _ _ _ _ E) as [Hlen Hlines].
  split; [|split; assumption].
  unfold extend, started. cbn [stdout]. unfold keys. rewrite length_map.
  now rewrite <- !app_assoc.
Qed.

End Report.

(** ** The further properties at sample checkpoints *)

Lemma helper_ignores_deeper_segments_witness :
  _get_model_type_block_layer ("decoder.block.12.layer.1.EncDecAttention.q" ++ String "." "weight")
  = OK ("decoder", 12%Z, 1%Z).
Proof.
  exact (helper_ignores_deeper_segments "decoder.block.12.layer.1.EncDecAttention.q" "weight"
           ("decoder", 12%Z, 1%Z) eq_refl).
Defined.

Lemma body_effect_witness :
  files (snd (body sample_self_attention "encoder.block.3.layer.0.SelfAttention.q.weight"
                (full 2 2 1) blank))
  = [].
Proof.
  exact (proj1 (body_effect sample_self_attention
                  "encoder.block.3.layer.0.SelfAttention.q.weight" (full 2 2 1) blank _ _
                  (surjective_pairing _))).
Defined.

Lemma passed_over_keys_witness :
  @nil string = [] /\
  ("encoder.block.3.layer.0.SelfAttention.k.weight" = "shared.weight" \/
   Py.contains "SelfAttention.k.weight" "encoder.block.3.layer.0.SelfAttention.k.weight" = true \/
   Py.contains "SelfAttention.v.weight" "encoder.block.3.layer.0.SelfAttention.k.weight" = true \/
   Py.contains "EncDecAttention.v.weight" "encoder.block.3.layer.0.SelfAttention.k.weight" = true).
Proof.
  exact (passed_over_keys sample_self_attention
           "encoder.block.3.layer.0.SelfAttention.k.weight" (full 2 2 2) [] eq_refl).
Defined.

Lemma missing_sibling_named_witness :
  body (state_dict sample_missing_sibling) "encoder.block.0.layer.0.SelfAttention.q.weight"
    (full 2 2 1) blank
  = (Err (KeyError "encoder.block.0.layer.0.SelfAttention.k.weight"), blank).
Proof.
  exact (proj1 (missing_sibling_named (state_dict sample_missing_sibling)
                  "encoder.block.0.layer.0.SelfAttention.q.weight" (full 2 2 1)
                  "encoder" 0%Z 0%Z blank eq_refl)
           eq_refl eq_refl).
Defined.

Lemma convert_weights_outcome_witness :
  files (snd (convert_weights sample_unexpected "nemo_state_dict.pt" blank)) = [].
Proof.
  exact (convert_weights_outcome sample_unexpected "nemo_state_dict.pt" blank
           (Err (ValueError "Unknown key: encoder.block.0.layer.0.SelfAttention.unexpected.weight"))
           _ eq_refl).
Defined.

Lemma target_mapping_shape_witness :
  NoDup (keys (nemo_weights
                 (snd (convert_weights (model_of sample_self_attention) "nemo_state_dict.pt" blank)))) /\
  length (nemo_weights
            (snd (convert_weights (model_of sample_self_attention) "nemo_state_dict.pt" blank)))
  <= 3.
Proof.
  destruct (target_mapping_shape (model_of sample_self_attention) "nemo_state_dict.pt" blank
              sample_config _ eq_refl) as (Hnd & Hlen & _).
  split; [exact Hnd | exact Hlen].
Defined.

Lemma target_tensors_from_source_witness :
  exists k v,
    In (k, v) sample_self_attention /\
    (({| shape := [6; 2]; data := [1; 1; 1; 1; 2; 2; 2; 2; 3; 3; 3; 3]%Z |} : tensor Z) = v \/
     (exists k_weight v_weight,
        get sample_self_attention (Py.replace k "q.weight" "k.weight") = Some k_weight /\
        get sample_self_attention (Py.replace k "q.weight" "v.weight") = Some v_weight /\
        torch_cat [v; k_weight; v_weight]
        = OK {| shape := [6; 2]; data := [1; 1; 1; 1; 2; 2; 2; 2; 3; 3; 3; 3]%Z |}) \/
     (exists v_weight,
        get sample_self_attention (Py.replace k "k.weight" "v.weight") = Some v_weight /\
        torch_cat [v; v_weight]
        = OK {| shape := [6; 2]; data := [1; 1; 1; 1; 2; 2; 2; 2; 3; 3; 3; 3]%Z |})).
Proof.
  exact (target_tensors_from_source (model_of sample_self_attention) "nemo_state_dict.pt" blank
           sample_config _ eq_refl
           "enc_dec_model.enc_dec_model.encoder.model.layers.3.self_attention.query_key_value.weight"
           {| shape := [6; 2]; data := [1; 1; 1; 1; 2; 2; 2; 2; 3; 3; 3; 3]%Z |}
           (or_introl eq_refl)).
Defined.

Lemma shared_weight_ignored_witness :
  convert_weights
    {| config := sample_config;
       state_dict := setitem (state_dict sample_unexpected) "shared.weight" (full 2 2 5) |}
    "nemo_state_dict.pt" blank
  = convert_weights
      {| config := sample_config; state_dict := state_dict sample_unexpected |}
      "nemo_state_dict.pt" blank.
Proof.
  exact (shared_weight_ignored (state_dict sample_unexpected) (full 2 2 5) sample_config
           "nemo_state_dict.pt" blank (or_introl eq_refl)).
Defined.

Lemma scheme_entries_converted_witness :
  exists st',
    convert_weights {| config := sample_config; state_dict := named sample_decoder_attention |}
      "nemo_state_dict.pt" blank
    = (OK sample_config, st') /\
    nemo_weights st' = expected_entries sample_decoder_attention /\
    get (files st') "nemo_state_dict.pt" = Some (expected_entries sample_decoder_attention).
Proof.
  apply (scheme_entries_converted sample_decoder_attention sample_config "nemo_state_dict.pt" blank).
  - vm_compute. reflexivity.
  - repeat constructor; simpl; intuition discriminate.
Defined.

Lemma scheme_order_independent_witness :
  exists st1 st2,
    convert_weights {| config := sample_config; state_dict := named sample_decoder_attention |}
      "nemo_state_dict.pt" blank
    = (OK sample_config, st1) /\
    convert_weights
      {| config := sample_config; state_dict := named (List.rev sample_decoder_attention) |}
      "nemo_state_dict.pt" blank
    = (OK sample_config, st2) /\
    forall key, get (nemo_weights st1) key = get (nemo_weights st2) key.
Proof.
  apply (scheme_order_independent sample_decoder_attention (List.rev sample_decoder_attention)
           sample_config "nemo_state_dict.pt" blank).
  - apply Permutation_rev.
  - repeat constructor; simpl; intuition discriminate.
  - vm_compute. reflexivity.
Defined.

Lemma main_missing_base_config_witness :
  main (fun _ => false) (fun _ => sample_unexpected) sample_args blank
  = (inl (FileNotFoundError
            "Base yaml config file hf_t5v1_1_base_config.yaml does not exist."), blank).
Proof.
  exact (proj1 (main_missing_base_config (fun _ => false) (fun _ => sample_unexpected)
                  sample_args blank) eq_refl).
Defined.

Lemma main_unknown_activation_witness :
  fst (main (fun _ => true)
         (fun _ => {| config := relu_config; state_dict := sample_self_attention |})
         sample_args blank)
  = inl (Raised (ValueError "Unknown dense_act_fn: relu")) /\
  get (files (snd (main (fun _ => true)
                     (fun _ => {| config := relu_config; state_dict := sample_self_attention |})
                     sample_args blank)))
    "nemo_state_dict.pt"
  = Some [ ("enc_dec_model.enc_dec_model.encoder.model.layers.3.self_attention.query_key_value.weight",
            {| shape := [6; 2]; data := [1; 1; 1; 1; 2; 2; 2; 2; 3; 3; 3; 3]%Z |}) ].
Proof.
  destruct (main_unknown_activation (fun _ => true)
              (fun _ => {| config := relu_config; state_dict := sample_self_attention |})
              sample_args blank relu_config _ eq_refl eq_refl) as [Hmain Hfile];
    [discriminate | discriminate |].
  rewrite Hmain. split; [reflexivity | exact Hfile].
Defined.

Lemma main_conversion_error_witness :
  main (fun _ => true) (fun _ => sample_unexpected) sample_args blank
  = (inl (Raised (ValueError
                    "Unknown key: encoder.block.0.layer.0.SelfAttention.unexpected.weight")),
     snd (convert_weights sample_unexpected "nemo_state_dict.pt" blank)) /\
  files (snd (convert_weights sample_unexpected "nemo_state_dict.pt" blank)) = [].
Proof.
  exact (main_conversion_error (fun _ => true) (fun _ => sample_unexpected) sample_args blank
           (ValueError "Unknown key: encoder.block.0.layer.0.SelfAttention.unexpected.weight")
           _ eq_refl eq_refl).
Defined.

Lemma progress_report_witness :
  exists st',
    body sample_self_attention "encoder.block.3.layer.0.SelfAttention.q.weight" (full 2 2 1) blank
    = (OK tt, st') /\
    ((nemo_weights st' = nemo_weights (@blank Z) /\ stdout st' = stdout (@blank Z)) \/
     exists key t,
       nemo_weights st' = setitem (nemo_weights (@blank Z)) key t /\
       (("encoder.block.3.layer.0.SelfAttention.q.weight" = "decoder.embed_tokens.weight" /\
         stdout st' = stdout (@blank Z)) \/
        stdout st'
        = (stdout (@blank Z)
             ++ [("Mapped " ++ "encoder.block.3.layer.0.SelfAttention.q.weight" ++ " to " ++ key)%string])%list \/
        ("encoder.block.3.layer.0.SelfAttention.q.weight" = "lm_head.weight" /\
         stdout st'
         = (stdout (@blank Z) ++ ["Mapped lm_head.weight to enc_dec_model.decoder_embedding.word_embeddings.weight and enc_dec_model.tokens_head.weight"])%list))).
Proof.
  eexists. split; [reflexivity|].
  apply (progress_report sample_self_attention "encoder.block.3.layer.0.SelfAttention.q.weight"
           (full 2 2 1) blank).
  reflexivity.
Defined.

Lemma loop_failures_witness :
  exists k v,
    In (k, v) (state_dict sample_unexpected) /\
    (ValueError "Unknown key: encoder.block.0.layer.0.SelfAttention.unexpected.weight"
     = ValueError ("Unknown key: " ++ k) \/
     ValueError "Unknown key: encoder.block.0.layer.0.SelfAttention.unexpected.weight"
     = ValueError ("Unknown layer_norm key: " ++ k) \/
     ValueError "Unknown key: encoder.block.0.layer.0.SelfAttention.unexpected.weight"
     = ValueError ("Unknown model type for " ++ k) \/
     ValueError "Unknown key: encoder.block.0.layer.0.SelfAttention.unexpected.weight"
     = IndexError \/
     (exists seg,
        In seg (Py.split "." k) /\
        ValueError "Unknown key: encoder.block.0.layer.0.SelfAttention.unexpected.weight"
        = InvalidLiteral seg) \/
     (exists sibling,
        ValueError "Unknown key: encoder.block.0.layer.0.SelfAttention.unexpected.weight"
        = KeyError sibling /\
        get (state_dict sample_unexpected) sibling = None /\
        (sibling = Py.replace k "q.weight" "k.weight" \/
         sibling = Py.replace k "q.weight" "v.weight" \/
         sibling = Py.replace k "k.weight" "v.weight")) \/
     (exists ts,
        In v ts /\
        torch_cat ts
        = Err (ValueError "Unknown key: encoder.block.0.layer.0.SelfAttention.unexpected.weight"))).
Proof.
  exact (loop_failures (state_dict sample_unexpected) blank
           (ValueError "Unknown key: encoder.block.0.layer.0.SelfAttention.unexpected.weight")
           _ eq_refl).
Defined.

Lemma run_report_witness :
  exists st',
    convert_weights (model_of sample_self_attention) "nemo_state_dict.pt" blank
    = (OK sample_config, st') /\
    exists lines,
      stdout st'
      = (stdout (@blank Z)
           ++ [("Found " ++ Py.str (Z.of_nat (length (state_dict (model_of sample_self_attention))))
                  ++ " keys in the checkpoint")%string]
           ++ lines ++ [("Saved weights to " ++ "nemo_state_dict.pt")%string])%list /\
      length lines <= length (state_dict (model_of sample_self_attention)) /\
      forall line, In line lines ->
        exists k, In k (keys (state_dict (model_of sample_self_attention))) /\
                  Py.startswith ("Mapped " ++ k ++ " to ") line = true.
Proof.
  eexists. split; [reflexivity|].
  apply (run_report (model_of sample_self_attention) "nemo_state_dict.pt" blank sample_config).
  reflexivity.
Defined.
